(** * HandReadings: the poker hand evaluation engine

    A shallow embedding of [lib/models/Card.ts] and of the hand evaluation
    module (combinations, evaluateHand, compareHighHands, compareLowHands,
    isQualifyingLow, findBestHand, getLowHandDescription), followed by the
    properties of the engine.

    JavaScript numbers that occur here are small integers and are modelled
    by [Z]; an array is a [list]; an exception is the [Throw] case of
    [result]. *)

From Stdlib Require Import String Ascii DecimalString ZArith Lia Bool List.
From Stdlib Require Import Sorted Permutation.
Import ListNotations.
Open Scope Z_scope.

(* ================================================================= *)
(** ** Card model (lib/models/Card.ts) *)

Inductive Suit : Type := Hearts | Diamonds | Clubs | Spades.

(** The string literals '2' .. '10', 'J', 'Q', 'K', 'A'. *)
Inductive Rank : Type :=
  R2 | R3 | R4 | R5 | R6 | R7 | R8 | R9 | R10 | RJ | RQ | RK | RA.

Definition ALL_SUITS : list Suit := [Hearts; Diamonds; Clubs; Spades].
Definition ALL_RANKS : list Rank :=
  [R2; R3; R4; R5; R6; R7; R8; R9; R10; RJ; RQ; RK; RA].

Record Card : Type := mkCard { id : string; suit : Suit; rank : Rank }.

Definition Suit_eqb (a b : Suit) : bool :=
  match a, b with
  | Hearts, Hearts | Diamonds, Diamonds | Clubs, Clubs | Spades, Spades => true
  | _, _ => false
  end.

Definition rankToValue (r : Rank) : Z :=
  match r with
  | R2 => 2 | R3 => 3 | R4 => 4 | R5 => 5 | R6 => 6 | R7 => 7 | R8 => 8
  | R9 => 9 | R10 => 10 | RJ => 11 | RQ => 12 | RK => 13 | RA => 14
  end.

Definition Rank_eqb (a b : Rank) : bool := rankToValue a =? rankToValue b.

Definition Rank_eq_dec (a b : Rank) : {a = b} + {a <> b}.
Proof. decide equality. Defined.

Definition rankToLowValue (r : Rank) : Z :=
  if Rank_eqb r RA then 1 else rankToValue r.

(* ================================================================= *)
(** ** JavaScript values and library functions used by the engine *)

(** The values that reach a [<] or [>] test in the engine: a number, the
    [-Infinity] that [Math.max()] returns on no argument, and the
    [undefined] of an index out of range or of [rankToValue(undefined)]. *)
Inductive jsnum : Type := Undefined | NegInfinity | Num (z : Z).

(** [a < b]; every comparison with [undefined] (NaN) is false. *)
Definition js_lt (a b : jsnum) : bool :=
  match a, b with
  | Num x, Num y => x <? y
  | NegInfinity, Num _ => true
  | _, _ => false
  end.

Definition js_gt (a b : jsnum) : bool := js_lt b a.

(** [xs[i]]. *)
Definition index (xs : list Z) (i : nat) : jsnum :=
  match nth_error xs i with Some z => Num z | None => Undefined end.

(** [Math.max(...xs)]. *)
Definition Math_max (xs : list Z) : jsnum :=
  fold_left (fun m x => match m with Num y => Num (Z.max y x) | _ => Num x end)
            xs NegInfinity.

Section Sorting.
Context {A : Type}.
(** [cmp a b] is the comparator's result, negative when [a] goes first. *)
Variable cmp : A -> A -> Z.

Fixpoint insert (x : A) (sorted : list A) : list A :=
  match sorted with
  | [] => [x]
  | y :: rest => if cmp x y <=? 0 then x :: sorted else y :: insert x rest
  end.

(** [xs.sort(cmp)]: Array.prototype.sort is stable. *)
Definition sort (xs : list A) : list A := fold_right insert [] xs.
End Sorting.

Definition ascending (a b : Z) : Z := a - b.
Definition descending (a b : Z) : Z := b - a.

Section SetOf.
Context {A : Type}.
Variable eqb : A -> A -> bool.

(** [new Set(xs)]: the distinct elements in order of first insertion;
    [.size] is its [length], [.has] is [existsb]. *)
Definition Set_of (xs : list A) : list A :=
  fold_left (fun s x => if existsb (eqb x) s then s else s ++ [x]) xs [].
End SetOf.

Fixpoint list_eqb (xs ys : list Z) : bool :=
  match xs, ys with
  | [], [] => true
  | x :: xs', y :: ys' => (x =? y) && list_eqb xs' ys'
  | _, _ => false
  end.

(** A [Record<string, number>] keyed by rank, kept in the order in which
    [Object.values] and [Object.entries] enumerate it: the keys that are
    array indices ('2' .. '10') ascending, then the other keys ('J', 'Q',
    'K', 'A') in the order of their creation. *)
Definition indexKey (r : Rank) : option Z :=
  match r with
  | RJ | RQ | RK | RA => None
  | _ => Some (rankToValue r)
  end.

Definition goesBefore (r k : Rank) : bool :=
  match indexKey r, indexKey k with
  | Some i, Some j => i <? j
  | Some _, None => true
  | None, _ => false
  end.

Definition RankCounts : Type := list (Rank * Z).

Fixpoint getCount (o : RankCounts) (r : Rank) : option Z :=
  match o with
  | [] => None
  | (k, v) :: rest => if Rank_eqb k r then Some v else getCount rest r
  end.

Fixpoint setCount (o : RankCounts) (r : Rank) (v : Z) : RankCounts :=
  match o with
  | [] => [(r, v)]
  | (k, w) :: rest =>
      if Rank_eqb k r then (k, v) :: rest
      else if goesBefore r k then (r, v) :: o
      else (k, w) :: setCount rest r v
  end.

(** [for (const rank of ranks) rankCounts[rank] = (rankCounts[rank] || 0) + 1]. *)
Definition countRanks (ranks : list Rank) : RankCounts :=
  fold_left
    (fun o r => setCount o r (match getCount o r with Some c => c | None => 0 end + 1))
    ranks [].

(** Exceptions. *)
Inductive exn : Type :=
| NoRankWithCount (count : Z)   (* Error(`No rank with count ${count} found`) *)
| ReduceOfEmptyArray            (* TypeError of [reduce] without initial value *)
| PropertyOfUndefined.          (* TypeError of [undefined.rank] *)

Inductive result (A : Type) : Type :=
| Ok (a : A)
| Throw (e : exn).
Arguments Ok {A} a.
Arguments Throw {A} e.

Definition bind {A B : Type} (m : result A) (k : A -> result B) : result B :=
  match m with Ok a => k a | Throw e => Throw e end.

Notation "'let*' x ':=' m 'in' k" := (bind m (fun x => k))
  (at level 10, x name, m at level 100, k at level 200).

Definition result_map {A B : Type} (f : A -> B) (m : result A) : result B :=
  match m with Ok a => Ok (f a) | Throw e => Throw e end.

(* ================================================================= *)
(** ** Hand categories (types.ts) *)

Inductive HandRank : Type :=
| HighCard | OnePair | TwoPair | ThreeOfAKind | Straight | Flush
| FullHouse | FourOfAKind | StraightFlush | RoyalFlush.

Definition handRankValue (r : HandRank) : Z :=
  match r with
  | HighCard => 0 | OnePair => 1 | TwoPair => 2 | ThreeOfAKind => 3
  | Straight => 4 | Flush => 5 | FullHouse => 6 | FourOfAKind => 7
  | StraightFlush => 8 | RoyalFlush => 9
  end.

Record HandEvaluation : Type := mkEval {
  bestHighHand : list Card;
  bestHighRank : HandRank;
  bestLowHand : option (list Card)
}.

(* ================================================================= *)
(** ** Combination generator *)

(** [combinations(items, k)], by recursion on [k]; the loop variable [i]
    runs over [0 .. items.length - k]. *)
Fixpoint combinations {T : Type} (items : list T) (k : nat) : list (list T) :=
  match k with
  | O => [[]]
  | S k' =>
      if (length items <? k)%nat then []
      else if (k =? length items)%nat then [items]
      else
        flat_map
          (fun i =>
             match nth_error items i with
             | Some head =>
                 map (cons head) (combinations (skipn (i + 1) items) k')
             | None => []
             end)
          (seq 0 (length items - k + 1))
  end.

(* ================================================================= *)
(** ** Low hands *)

Definition isQualifyingLow (fiveCards : list Card) : bool :=
  let lowCards := filter (fun card => rankToLowValue (rank card) <=? 8) fiveCards in
  if negb (length lowCards =? 5)%nat then false
  else
    let ranks := Set_of Rank_eqb (map rank fiveCards) in
    (length ranks =? 5)%nat.

(** The [for (let i = 0; i < n; i++)] loop of the comparators, started at
    index [i], with [better] the test that makes the first hand win. *)
Fixpoint compareFrom (better : jsnum -> jsnum -> bool)
         (n : nat) (i : nat) (values1 values2 : list Z) : Z :=
  match n with
  | O => 0
  | S n' =>
      if better (index values1 i) (index values2 i) then -1
      else if better (index values2 i) (index values1 i) then 1
      else compareFrom better n' (S i) values1 values2
  end.

Definition compareLowHands (hand1 hand2 : list Card) : Z :=
  let values1 := sort descending (map (fun card => rankToLowValue (rank card)) hand1) in
  let values2 := sort descending (map (fun card => rankToLowValue (rank card)) hand2) in
  compareFrom js_lt 5 0 values1 values2.

Definition areLowHandsEqual (hand1 hand2 : list Card) : bool :=
  compareLowHands hand1 hand2 =? 0.

(* ================================================================= *)
(** ** Classifier *)

(** The loop [for (i = 0; i < values.length - 1; i++)] that clears
    [isConsecutive] at the first step that is not [+1]. *)
Fixpoint consecutive (values : list Z) : bool :=
  match values with
  | a :: (b :: _) as rest => if negb (b - a =? 1) then false else consecutive rest
  | _ => true
  end.

Definition checkStraight (ranks : list Rank) : bool :=
  let values := sort ascending (map rankToValue ranks) in
  if consecutive values then true
  else if existsb (Z.eqb 14) values then
    let wheelValues :=
      sort ascending (map (fun v => if v =? 14 then 1 else v) values) in
    if consecutive wheelValues && list_eqb wheelValues [1; 2; 3; 4; 5]
    then true else false
  else false.

Definition isRoyalFlush (ranks : list Rank) : bool :=
  let royalRanks := Set_of Rank_eqb [RA; RK; RQ; RJ; R10] in
  let handRanks := Set_of Rank_eqb ranks in
  if negb (length handRanks =? length royalRanks)%nat then false
  else forallb (fun r => existsb (Rank_eqb r) handRanks) royalRanks.

Definition evaluateHand (cards : list Card) : HandRank :=
  let ranks := map rank cards in
  let suits := map suit cards in
  let isFlush := (length (Set_of Suit_eqb suits) =? 1)%nat in
  let isStraight := checkStraight ranks in
  let rankCounts := countRanks ranks in
  let counts := sort descending (map snd rankCounts) in
  if isFlush && isStraight && isRoyalFlush ranks then RoyalFlush
  else if isFlush && isStraight then StraightFlush
  else if list_eqb counts [4; 1] then FourOfAKind
  else if list_eqb counts [3; 2] then FullHouse
  else if isFlush then Flush
  else if isStraight then Straight
  else if list_eqb counts [3; 1; 1] then ThreeOfAKind
  else if list_eqb counts [2; 2; 1] then TwoPair
  else if list_eqb counts [2; 1; 1; 1] then OnePair
  else HighCard.

(* ================================================================= *)
(** ** Helpers of the high-hand comparator *)

(** [cards.reduce((max, card) => ...)], without initial value. *)
Definition getHighCard (cards : list Card) : result Card :=
  match cards with
  | [] => Throw ReduceOfEmptyArray
  | first :: rest =>
      Ok (fold_left
            (fun max card =>
               if rankToValue (rank card) >? rankToValue (rank max) then card else max)
            rest first)
  end.

(** The result is [undefined] ([None]) when [find] finds no card. *)
Definition getStraightHighCard (cards : list Card) : result (option Card) :=
  let ranks := map rank cards in
  let values := sort ascending (map rankToValue ranks) in
  if list_eqb values [2; 3; 4; 5; 14] then
    Ok (find (fun card => Rank_eqb (rank card) R5) cards)
  else
    let* high := getHighCard cards in Ok (Some high).

(** [high.rank], a TypeError on [undefined]. *)
Definition rankOf (card : option Card) : result Rank :=
  match card with Some c => Ok (rank c) | None => Throw PropertyOfUndefined end.

Definition getRepeatedRank (cards : list Card) (count : Z) : result Rank :=
  let rankCounts := countRanks (map rank cards) in
  match find (fun entry => snd entry =? count) rankCounts with
  | Some (r, _) => Ok r
  | None => Throw (NoRankWithCount count)
  end.

Definition byValueDescending (a b : Rank) : Z := rankToValue b - rankToValue a.

(** [{ high: pairs[0], low: pairs[1] }]; either is [undefined] ([None])
    when the hand has fewer pairs. *)
Definition getTwoPairRanks (cards : list Card) : option Rank * option Rank :=
  let rankCounts := countRanks (map rank cards) in
  let pairs :=
    sort byValueDescending
         (map fst (filter (fun entry => snd entry =? 2) rankCounts)) in
  (nth_error pairs 0, nth_error pairs 1).

(** [rankToValue] on a rank that may be [undefined]: no case of the
    switch matches and the function returns [undefined]. *)
Definition rankToValue' (r : option Rank) : jsnum :=
  match r with Some r' => Num (rankToValue r') | None => Undefined end.

(** [c.rank !== r]. *)
Definition rankIsNot (r : option Rank) (card : Card) : bool :=
  match r with Some r' => negb (Rank_eqb (rank card) r') | None => true end.

(** [if (v1 > v2) return -1; if (v1 < v2) return 1;] and what follows. *)
Definition decide (v1 v2 : jsnum) (otherwise : result Z) : result Z :=
  if js_gt v1 v2 then Ok (-1)
  else if js_lt v1 v2 then Ok 1
  else otherwise.

Definition valuesWithout (r : option Rank) (hand : list Card) : list Z :=
  map (fun card => rankToValue (rank card)) (filter (rankIsNot r) hand).

(* ================================================================= *)
(** ** High-hand comparator *)

Definition compareHighHands (hand1 hand2 : list Card) (rank_ : HandRank) : result Z :=
  match rank_ with
  | RoyalFlush => Ok 0
  | StraightFlush | Straight =>
      let* high1 := getStraightHighCard hand1 in
      let* high2 := getStraightHighCard hand2 in
      let* rank1 := rankOf high1 in
      let* rank2 := rankOf high2 in
      decide (Num (rankToValue rank1)) (Num (rankToValue rank2)) (Ok 0)
  | FourOfAKind =>
      let* quad1 := getRepeatedRank hand1 4 in
      let* quad2 := getRepeatedRank hand2 4 in
      decide (Num (rankToValue quad1)) (Num (rankToValue quad2))
        (let kicker1 := Math_max (valuesWithout (Some quad1) hand1) in
         let kicker2 := Math_max (valuesWithout (Some quad2) hand2) in
         decide kicker1 kicker2 (Ok 0))
  | FullHouse =>
      let* trip1 := getRepeatedRank hand1 3 in
      let* trip2 := getRepeatedRank hand2 3 in
      decide (Num (rankToValue trip1)) (Num (rankToValue trip2))
        (let* pair1 := getRepeatedRank hand1 2 in
         let* pair2 := getRepeatedRank hand2 2 in
         decide (Num (rankToValue pair1)) (Num (rankToValue pair2)) (Ok 0))
  | Flush | HighCard =>
      let values1 := sort descending (map (fun c => rankToValue (rank c)) hand1) in
      let values2 := sort descending (map (fun c => rankToValue (rank c)) hand2) in
      Ok (compareFrom js_gt 5 0 values1 values2)
  | ThreeOfAKind =>
      let* trip1 := getRepeatedRank hand1 3 in
      let* trip2 := getRepeatedRank hand2 3 in
      decide (Num (rankToValue trip1)) (Num (rankToValue trip2))
        (let kickers1 := sort descending (valuesWithout (Some trip1) hand1) in
         let kickers2 := sort descending (valuesWithout (Some trip2) hand2) in
         Ok (compareFrom js_gt (length kickers1) 0 kickers1 kickers2))
  | TwoPair =>
      let pairs1 := getTwoPairRanks hand1 in
      let pairs2 := getTwoPairRanks hand2 in
      decide (rankToValue' (fst pairs1)) (rankToValue' (fst pairs2))
        (decide (rankToValue' (snd pairs1)) (rankToValue' (snd pairs2))
           (let kicker1 :=
              Math_max (map (fun c => rankToValue (rank c))
                          (filter (fun c => rankIsNot (fst pairs1) c
                                            && rankIsNot (snd pairs1) c) hand1)) in
            let kicker2 :=
              Math_max (map (fun c => rankToValue (rank c))
                          (filter (fun c => rankIsNot (fst pairs2) c
                                            && rankIsNot (snd pairs2) c) hand2)) in
            decide kicker1 kicker2 (Ok 0)))
  | OnePair =>
      let* pair1 := getRepeatedRank hand1 2 in
      let* pair2 := getRepeatedRank hand2 2 in
      decide (Num (rankToValue pair1)) (Num (rankToValue pair2))
        (let kickers1 := sort descending (valuesWithout (Some pair1) hand1) in
         let kickers2 := sort descending (valuesWithout (Some pair2) hand2) in
         Ok (compareFrom js_gt (length kickers1) 0 kickers1 kickers2))
  end.

(* ================================================================= *)
(** ** Best-hand search *)

(** [for (h of holeCombos) for (b of boardCombos) allCombinations.push([h, b])]. *)
Definition pairUp (holeCombos boardCombos : list (list Card))
  : list (list Card * list Card) :=
  flat_map (fun holeCombo => map (fun boardCombo => (holeCombo, boardCombo)) boardCombos)
           holeCombos.

Definition allCombinations (holeCards communityCards : list Card) (cardCount : Z)
  : list (list Card * list Card) :=
  if cardCount =? 2 then
    pairUp (combinations holeCards 1) (combinations communityCards 4)
    ++ pairUp (combinations holeCards 2) (combinations communityCards 3)
  else
    pairUp (combinations holeCards 2) (combinations communityCards 3).

(** The body of the loop over [allCombinations], on the three running
    variables. *)
Definition considerCombination (best : HandEvaluation)
           (combo : list Card * list Card) : result HandEvaluation :=
  let fiveCardHand := fst combo ++ snd combo in
  let highRank := evaluateHand fiveCardHand in
  let* best1 :=
    if (length (bestHighHand best) =? 0)%nat then
      Ok (mkEval fiveCardHand highRank (bestLowHand best))
    else if handRankValue highRank >? handRankValue (bestHighRank best) then
      Ok (mkEval fiveCardHand highRank (bestLowHand best))
    else if handRankValue highRank =? handRankValue (bestHighRank best) then
      let* comparison := compareHighHands fiveCardHand (bestHighHand best) highRank in
      if comparison <? 0
      then Ok (mkEval fiveCardHand (bestHighRank best) (bestLowHand best))
      else Ok best
    else Ok best in
  Ok (if isQualifyingLow fiveCardHand then
        match bestLowHand best1 with
        | None => mkEval (bestHighHand best1) (bestHighRank best1) (Some fiveCardHand)
        | Some low =>
            if compareLowHands fiveCardHand low <? 0
            then mkEval (bestHighHand best1) (bestHighRank best1) (Some fiveCardHand)
            else best1
        end
      else best1).

Fixpoint evaluateAll (best : HandEvaluation)
         (combos : list (list Card * list Card)) : result HandEvaluation :=
  match combos with
  | [] => Ok best
  | combo :: rest =>
      let* best' := considerCombination best combo in evaluateAll best' rest
  end.

Definition findBestHand (holeCards communityCards : list Card) (cardCount : Z)
  : result HandEvaluation :=
  evaluateAll (mkEval [] HighCard None)
              (allCombinations holeCards communityCards cardCount).

(* ================================================================= *)
(** ** Low-hand description *)

(** [String(v)] for an integer. *)
Definition String_ (v : Z) : string := NilZero.string_of_int (Z.to_int v).

(** [strings.join('')]. *)
Definition join (parts : list string) : string :=
  fold_right String.append EmptyString parts.

Definition getLowHandDescription (hand communityCards : list Card) (cardCount : Z)
  : result string :=
  let* evaluation := findBestHand hand communityCards cardCount in
  match bestLowHand evaluation with
  | None => Ok "No low"%string
  | Some low =>
      let values := sort descending (map (fun card => rankToLowValue (rank card)) low) in
      Ok (join (map String_ values))
  end.

(* ================================================================= *)
(** ** High-hand description *)

(** [getSuitSymbol] and [getRankDisplay] of lib/models/Card.ts; the
    symbols are held as their UTF-8 bytes. *)
Definition getSuitSymbol (s : Suit) : string :=
  match s with
  | Hearts => "♥" | Diamonds => "♦" | Clubs => "♣" | Spades => "♠"
  end.

Definition getRankDisplay (r : Rank) : string :=
  match r with
  | R2 => "2" | R3 => "3" | R4 => "4" | R5 => "5" | R6 => "6" | R7 => "7"
  | R8 => "8" | R9 => "9" | R10 => "10" | RJ => "J" | RQ => "Q" | RK => "K"
  | RA => "A"
  end.

(** [getRankDisplay] on a rank that may be [undefined], inside a template
    literal. *)
Definition getRankDisplay' (r : option Rank) : string :=
  match r with Some r' => getRankDisplay r' | None => "undefined" end.

(** [a === b] on the numbers that reach it. *)
Definition js_eq (a b : jsnum) : bool :=
  match a, b with
  | Num x, Num y => x =? y
  | NegInfinity, NegInfinity => true
  | Undefined, Undefined => true
  | _, _ => false
  end.

(** [getHandDescription] of the evaluator. *)
Definition getHandDescription (hand communityCards : list Card) (cardCount : Z)
  : result string :=
  let* evaluation := findBestHand hand communityCards cardCount in
  let bestHand := bestHighHand evaluation in
  match bestHighRank evaluation with
  | RoyalFlush => Ok "Royal Flush"%string
  | StraightFlush =>
      let* highCard := getStraightHighCard bestHand in
      let* highRank := rankOf highCard in
      Ok ("Straight Flush-" ++ getRankDisplay highRank)%string
  | FourOfAKind =>
      let* quadRank := getRepeatedRank bestHand 4 in
      Ok ("Four of a Kind-" ++ getRankDisplay quadRank)%string
  | FullHouse =>
      let* tripRank := getRepeatedRank bestHand 3 in
      let* pairRank := getRepeatedRank bestHand 2 in
      Ok ("Full House-" ++ getRankDisplay tripRank ++ "/" ++ getRankDisplay pairRank)%string
  | Flush =>
      let* highCard := getHighCard bestHand in
      let suit_ := getSuitSymbol (suit highCard) in
      Ok ("Flush-" ++ getRankDisplay (rank highCard) ++ suit_)%string
  | Straight =>
      let* highCard := getStraightHighCard bestHand in
      let* highRank := rankOf highCard in
      Ok ("Straight-" ++ getRankDisplay highRank)%string
  | ThreeOfAKind =>
      let* tripRank := getRepeatedRank bestHand 3 in
      let kickers := sort descending (valuesWithout (Some tripRank) bestHand) in
      let highKicker :=
        find (fun c => js_eq (Num (rankToValue (rank c))) (index kickers 0)) bestHand in
      let* kickerRank := rankOf highKicker in
      Ok ("Three of a Kind-" ++ getRankDisplay tripRank ++ "/"
          ++ getRankDisplay kickerRank)%string
  | TwoPair =>
      let pairs := getTwoPairRanks bestHand in
      let kicker :=
        Math_max (map (fun c => rankToValue (rank c))
                      (filter (fun c => rankIsNot (fst pairs) c
                                        && rankIsNot (snd pairs) c) bestHand)) in
      let kickerCard :=
        find (fun c => js_eq (Num (rankToValue (rank c))) kicker) bestHand in
      let* kickerRank := rankOf kickerCard in
      Ok ("Two Pair-" ++ getRankDisplay' (fst pairs) ++ "/"
          ++ getRankDisplay' (snd pairs) ++ "-" ++ getRankDisplay kickerRank)%string
  | OnePair =>
      let* pairRank := getRepeatedRank bestHand 2 in
      Ok ("Pair-" ++ getRankDisplay pairRank)%string
  | HighCard =>
      let* highCard := getHighCard bestHand in
      Ok ("High Card-" ++ getRankDisplay (rank highCard))%string
  end.

(* ================================================================= *)
(** ** Deck (lib/models/Deck.ts)

    The state of a [Deck] is its array [cards].  [Math.random] is an
    oracle: [suffix] gives the random part of the id of each created card,
    [pick i] the index [Math.floor(Math.random() * (i + 1))] drawn at step
    [i] of the shuffle, which is at most [i]. *)

Definition suitName (s : Suit) : string :=
  match s with
  | Hearts => "Hearts" | Diamonds => "Diamonds" | Clubs => "Clubs" | Spades => "Spades"
  end.

(** [createCard(suit, rank)] of lib/models/Card.ts. *)
Definition createCard (randomPart : string) (s : Suit) (r : Rank) : Card :=
  mkCard (suitName s ++ "-" ++ getRankDisplay r ++ "-" ++ randomPart) s r.

(** [getCardImageName(card)]. *)
Definition getCardImageName (card0 : Card) : string :=
  ("card" ++ suitName (suit card0) ++ getRankDisplay (rank card0))%string.

(** [xs[i] = v] on an index in range; out of range the array is left as
    it is, a case the shuffle never reaches. *)
Fixpoint update {A : Type} (xs : list A) (i : nat) (v : A) : list A :=
  match xs, i with
  | [], _ => []
  | _ :: rest, O => v :: rest
  | x :: rest, S i' => x :: update rest i' v
  end.

Module Deck.

(** [[cards[i], cards[j]] = [cards[j], cards[i]]]. *)
Definition swap (cards : list Card) (i j : nat) : list Card :=
  match nth_error cards i, nth_error cards j with
  | Some atI, Some atJ => update (update cards i atJ) j atI
  | _, _ => cards
  end.

(** The steps [i], [i - 1], ..., 1 of the Fisher-Yates loop. *)
Fixpoint shuffleFrom (pick : nat -> nat) (i : nat) (cards : list Card) : list Card :=
  match i with
  | O => cards
  | S i' => shuffleFrom pick i' (swap cards i (pick i))
  end.

Definition shuffle (pick : nat -> nat) (cards : list Card) : list Card :=
  shuffleFrom pick (length cards - 1) cards.

(** The cards that [reset] pushes, before the shuffle. *)
Definition allCards (suffix : Suit -> Rank -> string) : list Card :=
  flat_map (fun s => map (fun r => createCard (suffix s r) s r) ALL_RANKS) ALL_SUITS.

Definition reset (suffix : Suit -> Rank -> string) (pick : nat -> nat) : list Card :=
  shuffle pick (allCards suffix).

(** [dealCards(count)]: the cards dealt and the cards left. *)
Definition dealCards (cards : list Card) (count : nat) : list Card * list Card :=
  if (length cards <? count)%nat then ([], cards)
  else (firstn count cards, skipn count cards).

Definition removeCard (cards : list Card) (card0 : Card) : list Card :=
  filter (fun c => negb (Rank_eqb (rank c) (rank card0) && Suit_eqb (suit c) (suit card0)))
         cards.

Definition isEmpty (cards : list Card) : bool := (length cards <? 3)%nat.

Definition remainingCount (cards : list Card) : nat := length cards.

End Deck.

(** The dealing of [startGame] and of [redealHands] in the game screen:
    [numberOfHands] times [deck.dealCards(selectedCardCount)]. *)
Fixpoint dealHands (cards : list Card) (numberOfHands selectedCardCount : nat)
  : list (list Card) * list Card :=
  match numberOfHands with
  | O => ([], cards)
  | S n =>
      let dealt := Deck.dealCards cards selectedCardCount in
      let more := dealHands (snd dealt) n selectedCardCount in
      (fst dealt :: fst more, snd more)
  end.

(** [startGame]: a new deck, five community cards, then the hands. *)
Definition startGame (suffix : Suit -> Rank -> string) (pick : nat -> nat)
           (numberOfHands selectedCardCount : nat) : list Card * list (list Card) :=
  let deck := Deck.reset suffix pick in
  let community := Deck.dealCards deck 5 in
  (fst community, fst (dealHands (snd community) numberOfHands selectedCardCount)).

(** [redealHands]: a new deck without the community cards, then the hands. *)
Definition redealHands (suffix : Suit -> Rank -> string) (pick : nat -> nat)
           (communityCards : list Card) (numberOfHands selectedCardCount : nat)
  : list (list Card) :=
  let deck := fold_left Deck.removeCard communityCards (Deck.reset suffix pick) in
  fst (dealHands deck numberOfHands selectedCardCount).

(* ================================================================= *)
(** ** The specification's reading of the classifier and comparator

    What the specification says, in its own words.  [Spec.classify] and
    [Spec.lowValue], with all that they are built from, use no function of
    the engine: they have their own value tables, sorts and tests, on the
    types of the cards and the standard library only.  [Spec.isWheel] and
    [Spec.straightValue] take the high values from [rankToValue]. *)

(** A FiveCardHand: exactly 5 cards, no (Suit, Rank) pair twice. *)
Definition content (card : Card) : Suit * Rank := (suit card, rank card).

Definition wellFormed (hand : list Card) : Prop :=
  length hand = 5%nat /\ NoDup (map content hand).

Definition Suit_eq_dec (a b : Suit) : {a = b} + {a <> b}.
Proof. decide equality. Defined.

Module Spec.

(** "high value (2..14, Ace=14)" *)
Definition highValue (r : Rank) : Z :=
  match r with
  | R2 => 2 | R3 => 3 | R4 => 4 | R5 => 5 | R6 => 6 | R7 => 7 | R8 => 8
  | R9 => 9 | R10 => 10 | RJ => 11 | RQ => 12 | RK => 13 | RA => 14
  end.

(** "low value (2..10 unchanged, Ace=1)"; Jack, Queen and King keep
    their high values. *)
Definition lowValue (r : Rank) : Z :=
  match r with
  | RA => 1
  | R2 => 2 | R3 => 3 | R4 => 4 | R5 => 5 | R6 => 6 | R7 => 7 | R8 => 8
  | R9 => 9 | R10 => 10 | RJ => 11 | RQ => 12 | RK => 13
  end.

Definition sameSuit (a b : Suit) : bool := if Suit_eq_dec a b then true else false.

Definition sameRank (a b : Rank) : bool := if Rank_eq_dec a b then true else false.

(** "all 5 suits identical" *)
Definition isFlush (hand : list Card) : bool :=
  match hand with
  | [] => true
  | first :: rest => forallb (fun card => sameSuit (suit card) (suit first)) rest
  end.

Definition sameSet (xs ys : list Z) : bool :=
  forallb (fun x => existsb (Z.eqb x) ys) xs
  && forallb (fun y => existsb (Z.eqb y) xs) ys.

Definition sameRanks (xs ys : list Rank) : bool :=
  forallb (fun x => existsb (sameRank x) ys) xs
  && forallb (fun y => existsb (sameRank y) xs) ys.

(** Sorting by insertion into a sorted list, under the order [le]. *)
Fixpoint insertBy (le : Z -> Z -> bool) (x : Z) (sorted : list Z) : list Z :=
  match sorted with
  | [] => [x]
  | y :: rest => if le x y then x :: sorted else y :: insertBy le x rest
  end.

Definition sortAscending (values : list Z) : list Z :=
  fold_right (insertBy Z.leb) [] values.

Definition sortDescending (values : list Z) : list Z :=
  fold_right (insertBy Z.geb) [] values.

(** "consecutive (each step +1)" *)
Fixpoint stepsOfOne (values : list Z) : bool :=
  match values with
  | [] => true
  | a :: rest =>
      match rest with
      | [] => true
      | b :: _ => (b =? a + 1) && stepsOfOne rest
      end
  end.

(** "sort high values ascending; true if consecutive (each step +1);
    additionally treat the specific value set {14,2,3,4,5} as a straight
    by remapping Ace to 1 and re-checking consecutiveness" *)
Definition isStraight (hand : list Card) : bool :=
  let values := sortAscending (map (fun card => highValue (rank card)) hand) in
  stepsOfOne values
  || (sameSet values [14; 2; 3; 4; 5]
      && stepsOfOne (sortAscending (map (fun v => if v =? 14 then 1 else v) values))).

(** "group the 5 ranks by value, producing counts per distinct rank; sort
    counts descending" *)
Definition countShape (hand : list Card) : list Z :=
  let ranks := map rank hand in
  sortDescending
    (map (fun r => Z.of_nat (count_occ Rank_eq_dec ranks r))
         (nodup Rank_eq_dec ranks)).

(** "the five ranks are exactly {A,K,Q,J,10}" *)
Definition isRoyal (hand : list Card) : bool :=
  sameRanks (map rank hand) [RA; RK; RQ; RJ; R10].

Definition hasShape (shape expected : list Z) : bool :=
  if list_eq_dec Z.eq_dec shape expected then true else false.

(** "Decide category by this precedence (first match wins)" *)
Definition precedence (isFlush isStraight isRoyal : bool) (shape : list Z)
  : HandRank :=
  if isFlush && isStraight && isRoyal then RoyalFlush
  else if isFlush && isStraight then StraightFlush
  else if hasShape shape [4; 1] then FourOfAKind
  else if hasShape shape [3; 2] then FullHouse
  else if isFlush then Flush
  else if isStraight then Straight
  else if hasShape shape [3; 1; 1] then ThreeOfAKind
  else if hasShape shape [2; 2; 1] then TwoPair
  else if hasShape shape [2; 1; 1; 1] then OnePair
  else HighCard.

Definition classify (hand : list Card) : HandRank :=
  precedence (isFlush hand) (isStraight hand) (isRoyal hand) (countShape hand).

(** The wheel: the ranks are those of A-2-3-4-5. *)
Definition isWheel (hand : list Card) : bool :=
  sameSet (map (fun card => rankToValue (rank card)) hand) [14; 2; 3; 4; 5].

(** "the straight's high card value; for the wheel ... fixed at 5" *)
Definition straightValue (hand : list Card) : Z :=
  if isWheel hand then 5
  else fold_right Z.max 0 (map (fun card => rankToValue (rank card)) hand).

(** -1 when the first value wins, 1 when the second does. *)
Definition threeWay (v1 v2 : Z) : Z :=
  if v2 <? v1 then -1 else if v1 <? v2 then 1 else 0.

End Spec.

(* ================================================================= *)
(** ** The classifier's tests as functions of the hand

    The tests that [evaluateHand] makes, written with the functions of the
    engine on the hand itself; the proofs pass through them. *)

Module Parts.

Definition isFlush (hand : list Card) : bool :=
  match hand with
  | [] => true
  | first :: rest => forallb (fun card => Suit_eqb (suit card) (suit first)) rest
  end.

Definition isStraight (hand : list Card) : bool :=
  let values := sort ascending (map (fun card => rankToValue (rank card)) hand) in
  consecutive values
  || (Spec.sameSet values [14; 2; 3; 4; 5]
      && consecutive (sort ascending (map (fun v => if v =? 14 then 1 else v) values))).

Definition countShape (hand : list Card) : list Z :=
  let ranks := map rank hand in
  sort descending
       (map (fun r => Z.of_nat (count_occ Rank_eq_dec ranks r))
            (nodup Rank_eq_dec ranks)).

Definition isRoyal (hand : list Card) : bool :=
  Spec.sameSet (map (fun card => rankToValue (rank card)) hand) [14; 13; 12; 11; 10].

Definition precedence (isFlush isStraight isRoyal : bool) (shape : list Z)
  : HandRank :=
  if isFlush && isStraight && isRoyal then RoyalFlush
  else if isFlush && isStraight then StraightFlush
  else if list_eqb shape [4; 1] then FourOfAKind
  else if list_eqb shape [3; 2] then FullHouse
  else if isFlush then Flush
  else if isStraight then Straight
  else if list_eqb shape [3; 1; 1] then ThreeOfAKind
  else if list_eqb shape [2; 2; 1] then TwoPair
  else if list_eqb shape [2; 1; 1; 1] then OnePair
  else HighCard.

Definition classify (hand : list Card) : HandRank :=
  precedence (isFlush hand) (isStraight hand) (isRoyal hand) (countShape hand).

End Parts.

(* ================================================================= *)
(** ** Definitions of the statements and proofs *)

(** A test on every rank, and on every sequence of five ranks. *)
Definition forallRanks (P : Rank -> bool) : bool := forallb P ALL_RANKS.

Definition forallRanks5 (P : list Rank -> bool) : bool :=
  forallRanks (fun r1 => forallRanks (fun r2 => forallRanks (fun r3 =>
  forallRanks (fun r4 => forallRanks (fun r5 => P [r1; r2; r3; r4; r5]))))).

(** [evaluateHand] reads a hand through its ranks and through the single
    bit [isFlush]: the body of [evaluateHand] after these are computed. *)
Definition categoryOf (isFlush : bool) (ranks : list Rank) : HandRank :=
  let isStraight := checkStraight ranks in
  let counts := sort descending (map snd (countRanks ranks)) in
  if isFlush && isStraight && isRoyalFlush ranks then RoyalFlush
  else if isFlush && isStraight then StraightFlush
  else if list_eqb counts [4; 1] then FourOfAKind
  else if list_eqb counts [3; 2] then FullHouse
  else if isFlush then Flush
  else if isStraight then Straight
  else if list_eqb counts [3; 1; 1] then ThreeOfAKind
  else if list_eqb counts [2; 2; 1] then TwoPair
  else if list_eqb counts [2; 1; 1; 1] then OnePair
  else HighCard.

(** [new Set(suits).size === 1]. *)
Definition flushBit (hand : list Card) : bool :=
  (length (Set_of Suit_eqb (map suit hand)) =? 1)%nat.

(** -1 at the first position where [k1] is larger, 1 where [k2] is. *)
Fixpoint lexCompare (k1 k2 : list Z) : Z :=
  match k1, k2 with
  | a :: k1', b :: k2' =>
      if b <? a then -1 else if a <? b then 1 else lexCompare k1' k2'
  | _, _ => 0
  end.

(** The tie-break key of a hand within a category: what the comparator
    extracts from one hand, as the list of numbers it compares in order;
    [None] when an extraction throws, yields [undefined] or [-Infinity], or
    has the wrong number of kickers. *)
Definition ofLength (n : nat) (values : list Z) : option (list Z) :=
  if (length values =? n)%nat then Some values else None.

Definition keyOf (category : HandRank) (hand : list Card) : option (list Z) :=
  match category with
  | RoyalFlush => Some []
  | StraightFlush | Straight =>
      match getStraightHighCard hand with
      | Ok (Some high) => Some [rankToValue (rank high)]
      | _ => None
      end
  | FourOfAKind =>
      match getRepeatedRank hand 4 with
      | Ok quad =>
          match Math_max (valuesWithout (Some quad) hand) with
          | Num kicker => Some [rankToValue quad; kicker]
          | _ => None
          end
      | Throw _ => None
      end
  | FullHouse =>
      match getRepeatedRank hand 3, getRepeatedRank hand 2 with
      | Ok trip, Ok pair2 => Some [rankToValue trip; rankToValue pair2]
      | _, _ => None
      end
  | Flush | HighCard =>
      ofLength 5 (sort descending (map (fun c => rankToValue (rank c)) hand))
  | ThreeOfAKind =>
      match getRepeatedRank hand 3 with
      | Ok trip =>
          option_map (cons (rankToValue trip))
                     (ofLength 2 (sort descending (valuesWithout (Some trip) hand)))
      | Throw _ => None
      end
  | TwoPair =>
      match getTwoPairRanks hand with
      | (Some hi, Some lo) =>
          match Math_max (map (fun c => rankToValue (rank c))
                            (filter (fun c => rankIsNot (Some hi) c
                                              && rankIsNot (Some lo) c) hand)) with
          | Num kicker => Some [rankToValue hi; rankToValue lo; kicker]
          | _ => None
          end
      | _ => None
      end
  | OnePair =>
      match getRepeatedRank hand 2 with
      | Ok pair2 =>
          option_map (cons (rankToValue pair2))
                     (ofLength 3 (sort descending (valuesWithout (Some pair2) hand)))
      | Throw _ => None
      end
  end.

(** The hand with the given ranks that the exhaustive check runs on. *)
Definition cardsOf (ranks : list Rank) : list Card :=
  map (mkCard EmptyString Hearts) ranks.

Definition isSome {A : Type} (o : option A) : bool :=
  match o with Some _ => true | None => false end.

(** The count-shape that [evaluateHand] computes. *)
Definition shapeOf (ranks : list Rank) : list Z :=
  sort descending (map snd (countRanks ranks)).

(** [checkStraight] after its first line, on the sorted values. *)
Definition straightValues (values : list Z) : bool :=
  if consecutive values then true
  else if existsb (Z.eqb 14) values then
    let wheelValues :=
      sort ascending (map (fun v => if v =? 14 then 1 else v) values) in
    if consecutive wheelValues && list_eqb wheelValues [1; 2; 3; 4; 5]
    then true else false
  else false.

(** [Parts.isStraight] and [Parts.countShape] on the sorted values and on
    the ranks. *)
Definition partsStraightValues (values : list Z) : bool :=
  consecutive values
  || (Spec.sameSet values [14; 2; 3; 4; 5]
      && consecutive (sort ascending (map (fun v => if v =? 14 then 1 else v) values))).

Definition partsShape (ranks : list Rank) : list Z :=
  sort descending
       (map (fun r => Z.of_nat (count_occ Rank_eq_dec ranks r))
            (nodup Rank_eq_dec ranks)).

(** What is checked of each rank sequence: the classifier's straight test
    and count-shape against those of [Parts]; on straights, the royal test
    against that of [Parts], and the high card; on the shapes with a
    repeated rank, that the comparator's extractions succeed. *)
Definition handCheck (ranks : list Rank) : bool :=
  let hand := cardsOf ranks in
  let values := sort ascending (map rankToValue ranks) in
  let straight := straightValues values in
  let shape := shapeOf ranks in
  Bool.eqb straight (partsStraightValues values)
  && list_eqb shape (partsShape ranks)
  && (if straight then
        Bool.eqb (isRoyalFlush ranks) (Parts.isRoyal hand)
        && match keyOf Straight hand with
           | Some [v] =>
               (v =? Spec.straightValue hand) && (Spec.isWheel hand || (6 <=? v))
           | _ => false
           end
      else true)
  && (if list_eqb shape [4; 1] then isSome (keyOf FourOfAKind hand)
      else if list_eqb shape [3; 2] then isSome (keyOf FullHouse hand)
      else if list_eqb shape [3; 1; 1] then isSome (keyOf ThreeOfAKind hand)
      else if list_eqb shape [2; 2; 1] then isSome (keyOf TwoPair hand)
      else if list_eqb shape [2; 1; 1; 1] then isSome (keyOf OnePair hand)
      else true).

(** What the comparator needs from one hand of the given category: the
    calls of [getRepeatedRank] return, both pair ranks exist, and
    [Math.max] receives at least one kicker. *)
Definition extractionSafe (category : HandRank) (hand : list Card) : Prop :=
  match category with
  | FourOfAKind =>
      exists quad, getRepeatedRank hand 4 = Ok quad
                   /\ valuesWithout (Some quad) hand <> []
  | FullHouse =>
      (exists trip, getRepeatedRank hand 3 = Ok trip)
      /\ (exists pair2, getRepeatedRank hand 2 = Ok pair2)
  | ThreeOfAKind => exists trip, getRepeatedRank hand 3 = Ok trip
  | TwoPair =>
      exists hi lo,
        getTwoPairRanks hand = (Some hi, Some lo)
        /\ map (fun c => rankToValue (rank c))
               (filter (fun c => rankIsNot (Some hi) c && rankIsNot (Some lo) c) hand)
           <> []
  | OnePair => exists pair2, getRepeatedRank hand 2 = Ok pair2
  | _ => True
  end.

(** Example hands; the identity of a card is left empty where it plays no
    role. *)
Definition card (s : Suit) (r : Rank) : Card := mkCard EmptyString s r.

Definition pairOfAces : list Card :=
  [card Spades RA; card Hearts RA; card Clubs R9; card Clubs R5; card Diamonds R2].
Definition pairOfKings : list Card :=
  [card Spades RK; card Hearts RK; card Clubs RA; card Clubs R5; card Diamonds R2].
Definition pairOfQueens : list Card :=
  [card Spades RQ; card Hearts RQ; card Clubs RA; card Clubs RK; card Diamonds R2].

Definition wheel : list Card :=
  [card Spades RA; card Hearts R2; card Clubs R3; card Clubs R4; card Diamonds R5].
Definition sixHighStraight : list Card :=
  [card Spades R6; card Hearts R2; card Clubs R3; card Clubs R4; card Diamonds R5].

Definition royalFlush : list Card :=
  [card Spades RA; card Spades RK; card Spades RQ; card Spades RJ; card Spades R10].


Definition suitedStraight : list Card :=
  [card Clubs R2; card Clubs R3; card Clubs R4; card Clubs R5; card Clubs R6].

Definition mixedWheel : list Card :=
  [card Spades RA; card Hearts R2; card Clubs R3; card Diamonds R4; card Spades R5].
Definition pairedSevens : list Card :=
  [card Spades R7; card Hearts R7; card Clubs R3; card Diamonds R4; card Spades R5].

(** The running best hand is absent, or a 5-card hand with its category. *)
Definition searchState (best : HandEvaluation) : Prop :=
  bestHighHand best = []
  \/ (length (bestHighHand best) = 5%nat
      /\ evaluateHand (bestHighHand best) = bestHighRank best).

(** An Evaluation by value: the (Suit, Rank) of its cards. *)
Definition evaluationContent (e : HandEvaluation)
  : list (Suit * Rank) * HandRank * option (list (Suit * Rank)) :=
  (map content (bestHighHand e), bestHighRank e,
   option_map (map content) (bestLowHand e)).

(** The card with the same suit and rank and no identity. *)
Definition anonymous (card : Card) : Card :=
  mkCard EmptyString (suit card) (rank card).

(** The same two hole cards under two sets of ids, and a board. *)
Definition holeA : list Card :=
  [mkCard "Clubs-2-k3x9a01bq" Clubs R2; mkCard "Diamonds-7-q0aa71xzc" Diamonds R7].
Definition holeB : list Card :=
  [mkCard "Clubs-2-zzzzzzzz0" Clubs R2; mkCard "Diamonds-7-000000001" Diamonds R7].
Definition board : list Card :=
  [card Spades R3; card Spades R4; card Spades R5; card Spades R6; card Hearts R9].

(** The cards supply no legal split: for the 2-card game neither one hole
    card with four community cards nor two with three; otherwise not two
    hole cards with three community cards. *)
Definition insufficientCards (holeCards communityCards : list Card) (cardCount : Z) : Prop :=
  if cardCount =? 2 then
    ~ (1 <= length holeCards /\ 4 <= length communityCards)%nat
    /\ ~ (2 <= length holeCards /\ 3 <= length communityCards)%nat
  else
    ~ (2 <= length holeCards /\ 3 <= length communityCards)%nat.

Definition hole27 : list Card := [card Clubs R2; card Diamonds R7].

(** The comparator returned, and returned -1, 0 or 1. *)
Definition inRange (r : result Z) : Prop :=
  exists z, r = Ok z /\ (z = -1 \/ z = 0 \/ z = 1).

Definition fourSpades : list Card :=
  [card Spades R2; card Spades R3; card Spades R4; card Spades R5].
Definition fiveTimesAceOfSpades : list Card :=
  [card Spades RA; card Spades RA; card Spades RA; card Spades RA; card Spades RA].

(** [new Set] adds an element unless it is there already. *)
Definition addOnce {A : Type} (eqb : A -> A -> bool) (seen : list A) (x : A) : list A :=
  if existsb (eqb x) seen then seen else seen ++ [x].

(** An Evaluation with every card changed by [g]. *)
Definition mapEvaluation (g : Card -> Card) (e : HandEvaluation) : HandEvaluation :=
  mkEval (map g (bestHighHand e)) (bestHighRank e) (option_map (map g) (bestLowHand e)).

(** The number of [k]-element subsets of an [n]-element set. *)
Fixpoint choose (n k : nat) : nat :=
  match k, n with
  | O, _ => 1
  | S _, O => 0
  | S k', S n' => choose n' k' + choose n' k
  end.

(** [sub] is [items] with some elements left out, the order kept. *)
Inductive Subsequence {T : Type} : list T -> list T -> Prop :=
| Subsequence_nil : Subsequence [] []
| Subsequence_take (x : T) (sub items : list T) :
    Subsequence sub items -> Subsequence (x :: sub) (x :: items)
| Subsequence_skip (x : T) (sub items : list T) :
    Subsequence sub items -> Subsequence sub (x :: items).

(** The 5-card hands that [findBestHand] evaluates, in order. *)
Definition candidates (holeCards communityCards : list Card) (cardCount : Z)
  : list (list Card) :=
  map (fun combo => fst combo ++ snd combo)
      (allCombinations holeCards communityCards cardCount).

(** [hand] does not beat [best]: its category is lower, or it is the
    same and the comparator does not prefer [hand]. *)
Definition notBetterHigh (hand best : list Card) : Prop :=
  handRankValue (evaluateHand hand) < handRankValue (evaluateHand best)
  \/ (evaluateHand hand = evaluateHand best
      /\ exists z, compareHighHands hand best (evaluateHand best) = Ok z /\ 0 <= z).

(** The low values of a hand, highest first, as [compareLowHands] and
    [getLowHandDescription] compute them. *)
Definition lowValues (hand : list Card) : list Z :=
  sort descending (map (fun card => rankToLowValue (rank card)) hand).

(** The two halves of the body of the loop of [findBestHand]: the update
    of the running best high hand, and the update of the running best low. *)
Definition updateHigh (best : HandEvaluation) (fiveCardHand : list Card)
  : result HandEvaluation :=
  let highRank := evaluateHand fiveCardHand in
  if (length (bestHighHand best) =? 0)%nat then
    Ok (mkEval fiveCardHand highRank (bestLowHand best))
  else if handRankValue highRank >? handRankValue (bestHighRank best) then
    Ok (mkEval fiveCardHand highRank (bestLowHand best))
  else if handRankValue highRank =? handRankValue (bestHighRank best) then
    let* comparison := compareHighHands fiveCardHand (bestHighHand best) highRank in
    if comparison <? 0
    then Ok (mkEval fiveCardHand (bestHighRank best) (bestLowHand best))
    else Ok best
  else Ok best.

Definition updateLow (best1 : HandEvaluation) (fiveCardHand : list Card)
  : HandEvaluation :=
  if isQualifyingLow fiveCardHand then
    match bestLowHand best1 with
    | None => mkEval (bestHighHand best1) (bestHighRank best1) (Some fiveCardHand)
    | Some low =>
        if compareLowHands fiveCardHand low <? 0
        then mkEval (bestHighHand best1) (bestHighRank best1) (Some fiveCardHand)
        else best1
    end
  else best1.

(** The running best high hand after the hands [seen]: none yet, or one
    of them, with its category, that none of them beats. *)
Definition bestHighOf (seen : list (list Card)) (best : HandEvaluation) : Prop :=
  (seen = [] /\ bestHighHand best = [])
  \/ (In (bestHighHand best) seen
      /\ evaluateHand (bestHighHand best) = bestHighRank best
      /\ forall hand, In hand seen -> notBetterHigh hand (bestHighHand best)).

(** The running best low hand after the hands [seen]: none if none of
    them qualifies, else a qualifying one that no qualifying one beats. *)
Definition bestLowOf (seen : list (list Card)) (low : option (list Card)) : Prop :=
  match low with
  | None => forall hand, In hand seen -> isQualifyingLow hand = false
  | Some lowHand =>
      In lowHand seen /\ isQualifyingLow lowHand = true
      /\ forall hand, In hand seen -> isQualifyingLow hand = true ->
                      0 <= compareLowHands hand lowHand
  end.

Definition HandRank_eq_dec (a b : HandRank) : {a = b} + {a <> b}.
Proof. decide equality. Defined.

(** How often a rank occurs among the cards of a hand. *)
Definition occurrences (hand : list Card) (r : Rank) : Z :=
  Z.of_nat (count_occ Rank_eq_dec (map rank hand) r).

(** [a] may stand before [b] in the enumeration of a rank-keyed object. *)
Definition keyOrder (a b : Rank) : Prop := a <> b /\ goesBefore b a = false.

Definition content_eq_dec (a b : Suit * Rank) : {a = b} + {a <> b}.
Proof. decide equality; [apply Rank_eq_dec | decide equality]. Defined.

(* ================================================================= *)
(** ** Answer checking of the game screen *)

(** [HandAnswer], the type ['hi' | 'low']. *)
Inductive HandAnswer : Type := Hi | Low.

(** [xs.map(f)] for a callback that can throw. *)
Fixpoint mapResult {A B : Type} (f : A -> result B) (xs : list A) : result (list B) :=
  match xs with
  | [] => Ok []
  | x :: rest =>
      let* y := f x in
      let* ys := mapResult f rest in
      Ok (y :: ys)
  end.

(** [hands.map((hand) => findBestHand(hand.cards, communityCards,
    selectedCardCount))], the first line of each function below. *)
Definition allEvaluationsOf (hands : list (list Card)) (communityCards : list Card)
           (selectedCardCount : Z) : result (list HandEvaluation) :=
  mapResult (fun hand => findBestHand hand communityCards selectedCardCount) hands.

(** [xs.map((e, i) => ({ eval: e, index: i }))], counting from [i]. *)
Fixpoint withIndex {A : Type} (i : nat) (xs : list A) : list (A * nat) :=
  match xs with
  | [] => []
  | x :: rest => (x, i) :: withIndex (S i) rest
  end.

(** [xs[i]] where a property of the element is read next. *)
Definition element {A : Type} (xs : list A) (i : nat) : result A :=
  match nth_error xs i with
  | Some x => Ok x
  | None => Throw PropertyOfUndefined
  end.

(** The loop [for (let i = 1; i < handsWithBestRank.length; i++)] of
    [checkAnswer] over the remaining [challengers], on [bestHandIndex]. *)
Fixpoint findWinner (allEvaluations : list HandEvaluation) (bestHighRank_ : HandRank)
         (challengers : list (HandEvaluation * nat)) (bestHandIndex : nat) : result nat :=
  match challengers with
  | [] => Ok bestHandIndex
  | challenger :: rest =>
      let* challengerEval := element allEvaluations (snd challenger) in
      let* bestEval := element allEvaluations bestHandIndex in
      let* comparison :=
        compareHighHands (bestHighHand challengerEval) (bestHighHand bestEval)
                         bestHighRank_ in
      findWinner allEvaluations bestHighRank_ rest
                 (if comparison <? 0 then snd challenger else bestHandIndex)
  end.

(** The body of the loop [for (const e of handsWithLows)] of [checkAnswer],
    on [bestLow]. *)
Definition betterLow (bestLow : list Card) (e : HandEvaluation) : list Card :=
  match bestLowHand e with
  | Some lowHand => if compareLowHands lowHand bestLow <? 0 then lowHand else bestLow
  | None => bestLow
  end.

(** [checkAnswer] of the hand-reading screen.  The number [bestHighRank]
    passes the test [currentEval.bestHighRank !== bestHighRank] before it is
    used as a category, so the comparator receives the category of
    [currentEval]. *)
Definition checkAnswer (hands : list (list Card)) (communityCards : list Card)
           (selectedCardCount : Z) (handIndex : nat) (answer : HandAnswer)
  : result bool :=
  let* allEvaluations := allEvaluationsOf hands communityCards selectedCardCount in
  let currentEval := nth_error allEvaluations handIndex in
  match answer with
  | Hi =>
      let bestHighRank_ :=
        Math_max (map (fun e => handRankValue (bestHighRank e)) allEvaluations) in
      match currentEval with
      | None => Throw PropertyOfUndefined
      | Some currentEval =>
          if negb (js_eq (Num (handRankValue (bestHighRank currentEval))) bestHighRank_)
          then Ok false
          else
            let handsWithBestRank :=
              filter (fun e => js_eq (Num (handRankValue (bestHighRank (fst e))))
                                     bestHighRank_)
                     (withIndex 0 allEvaluations) in
            if (length handsWithBestRank =? 1)%nat then Ok true
            else
              match handsWithBestRank with
              | [] => Throw PropertyOfUndefined
              | first :: challengers =>
                  let* bestHandIndex :=
                    findWinner allEvaluations (bestHighRank currentEval)
                               challengers (snd first) in
                  let* bestEval := element allEvaluations bestHandIndex in
                  let* comparison :=
                    compareHighHands (bestHighHand currentEval) (bestHighHand bestEval)
                                     (bestHighRank currentEval) in
                  Ok (comparison =? 0)
              end
      end
  | Low =>
      let handsWithLows := filter (fun e => isSome (bestLowHand e)) allEvaluations in
      if (length handsWithLows =? 0)%nat then Ok false
      else
        match currentEval with
        | None => Throw PropertyOfUndefined
        | Some currentEval =>
            match bestLowHand currentEval with
            | None => Ok false
            | Some currentLow =>
                match handsWithLows with
                | [] => Throw PropertyOfUndefined
                | first :: _ =>
                    match bestLowHand first with
                    | None => Throw PropertyOfUndefined
                    | Some firstLow =>
                        let bestLow := fold_left betterLow handsWithLows firstLow in
                        Ok (areLowHandsEqual currentLow bestLow)
                    end
                end
            end
        end
  end.

(** [checkNoLowAnswer]. *)
Definition checkNoLowAnswer (hands : list (list Card)) (communityCards : list Card)
           (selectedCardCount : Z) : result bool :=
  let* allEvaluations := allEvaluationsOf hands communityCards selectedCardCount in
  Ok (negb (existsb (fun e => isSome (bestLowHand e)) allEvaluations)).

(** The low hand of hand number [i], if the hand exists and has a low. *)
Definition lowOf (allEvaluations : list HandEvaluation) (i : nat) : option (list Card) :=
  match nth_error allEvaluations i with
  | Some e => bestLowHand e
  | None => None
  end.

(** A hand of five cards in the category [category]. *)
Definition inCategory (category : HandRank) (hand : list Card) : Prop :=
  length hand = 5%nat /\ evaluateHand hand = category.

(** In the category of both, [hand] does not beat [best]. *)
Definition notAbove (category : HandRank) (hand best : list Card) : Prop :=
  exists z, compareHighHands hand best category = Ok z /\ 0 <= z.

(** The body of the loop [for (const eval_ of allEvaluations)] of
    [getWinningCommunityCards], on [bestEval]. *)
Definition betterEval (bestEval eval_ : HandEvaluation) : result HandEvaluation :=
  if handRankValue (bestHighRank eval_) >? handRankValue (bestHighRank bestEval) then
    Ok eval_
  else if handRankValue (bestHighRank eval_) =? handRankValue (bestHighRank bestEval) then
    let* comparison :=
      compareHighHands (bestHighHand eval_) (bestHighHand bestEval)
                       (bestHighRank eval_) in
    if comparison <? 0 then Ok eval_ else Ok bestEval
  else Ok bestEval.

Fixpoint findBestEval (evaluations : list HandEvaluation) (bestEval : HandEvaluation)
  : result HandEvaluation :=
  match evaluations with
  | [] => Ok bestEval
  | eval_ :: rest =>
      let* bestEval' := betterEval bestEval eval_ in findBestEval rest bestEval'
  end.

(** [cards.some((c) => c.rank === card.rank && c.suit === card.suit)]. *)
Definition someSameCard (cards : list Card) (card0 : Card) : bool :=
  existsb (fun c => Rank_eqb (rank c) (rank card0) && Suit_eqb (suit c) (suit card0))
          cards.

(** [getWinningCommunityCards] of the hand-reading screen; [None] is
    [null]. *)
Definition getWinningCommunityCards (hands : list (list Card))
           (communityCards : list Card) (selectedCardCount : Z)
  : result (option (list Card)) :=
  let* allEvaluations := allEvaluationsOf hands communityCards selectedCardCount in
  match allEvaluations with
  | [] => Throw PropertyOfUndefined
  | first :: _ =>
      let* bestEval := findBestEval allEvaluations first in
      let communityCardsInWinning :=
        filter (someSameCard communityCards) (bestHighHand bestEval) in
      if selectedCardCount =? 2 then
        if (length communityCardsInWinning =? 3)%nat
           || (length communityCardsInWinning =? 4)%nat
        then Ok (Some communityCardsInWinning)
        else Ok None
      else if (length communityCardsInWinning =? 3)%nat
           then Ok (Some communityCardsInWinning)
           else Ok None
  end.

(* ================================================================= *)
(** ** Card images (CardView) *)

(** [getCardImageKey(card)] of the card view. *)
Definition getCardImageKey (card0 : Card) : string :=
  ("card" ++ suitName (suit card0) ++ getRankDisplay (rank card0))%string.

(** The keys of the table [cardImages], in its order. *)
Local Open Scope string_scope.
Definition cardImages : list string :=
  ["cardClubs2"; "cardClubs3"; "cardClubs4"; "cardClubs5";
   "cardClubs6"; "cardClubs7"; "cardClubs8"; "cardClubs9";
   "cardClubs10"; "cardClubsJ"; "cardClubsQ"; "cardClubsK";
   "cardClubsA"; "cardDiamonds2"; "cardDiamonds3"; "cardDiamonds4";
   "cardDiamonds5"; "cardDiamonds6"; "cardDiamonds7"; "cardDiamonds8";
   "cardDiamonds9"; "cardDiamonds10"; "cardDiamondsJ"; "cardDiamondsQ";
   "cardDiamondsK"; "cardDiamondsA"; "cardHearts2"; "cardHearts3";
   "cardHearts4"; "cardHearts5"; "cardHearts6"; "cardHearts7";
   "cardHearts8"; "cardHearts9"; "cardHearts10"; "cardHeartsJ";
   "cardHeartsQ"; "cardHeartsK"; "cardHeartsA"; "cardSpades2";
   "cardSpades3"; "cardSpades4"; "cardSpades5"; "cardSpades6";
   "cardSpades7"; "cardSpades8"; "cardSpades9"; "cardSpades10";
   "cardSpadesJ"; "cardSpadesQ"; "cardSpadesK"; "cardSpadesA"].
Local Close Scope string_scope.

(** The string whose characters are the decimal digits [values], each
    between 0 and 9. *)
Definition digits (values : list Z) : string :=
  string_of_list_ascii (map (fun v => ascii_of_nat (48 + Z.to_nat v)) values).

(* ================================================================= *)
(** ** Facts about the card model *)

Lemma Suit_eqb_eq (a b : Suit) : Suit_eqb a b = true <-> a = b.
Proof. destruct a, b; simpl; split; congruence. Qed.

Lemma rankToValue_inj (a b : Rank) : rankToValue a = rankToValue b -> a = b.
Proof. destruct a, b; simpl; intros H; try reflexivity; discriminate H. Qed.

Lemma Rank_eqb_eq (a b : Rank) : Rank_eqb a b = true <-> a = b.
Proof.
  unfold Rank_eqb. rewrite Z.eqb_eq. split.
  - apply rankToValue_inj.
  - intros ->. reflexivity.
Qed.

Lemma Rank_eqb_refl (a : Rank) : Rank_eqb a a = true.
Proof. apply Rank_eqb_eq. reflexivity. Qed.

(* ================================================================= *)
(** ** Proof infrastructure *)

(** *** Exhaustive checks over the ranks of a 5-card hand *)

Lemma forallRanks_sound (P : Rank -> bool) :
  forallRanks P = true -> forall r, P r = true.
Proof.
  unfold forallRanks. rewrite forallb_forall. intros H r. apply H.
  destruct r; simpl; tauto.
Qed.

Lemma forallRanks5_sound (P : list Rank -> bool) :
  forallRanks5 P = true -> forall ranks, length ranks = 5%nat -> P ranks = true.
Proof.
  intros H ranks Hlen.
  destruct ranks as [|r1 [|r2 [|r3 [|r4 [|r5 [|r6 rest]]]]]]; try discriminate Hlen.
  unfold forallRanks5 in H.
  pose proof (forallRanks_sound _ H r1) as H1. cbv beta in H1.
  pose proof (forallRanks_sound _ H1 r2) as H2. cbv beta in H2.
  pose proof (forallRanks_sound _ H2 r3) as H3. cbv beta in H3.
  pose proof (forallRanks_sound _ H3 r4) as H4. cbv beta in H4.
  exact (forallRanks_sound _ H4 r5).
Qed.

Lemma evaluateHand_categoryOf (hand : list Card) :
  evaluateHand hand = categoryOf (flushBit hand) (map rank hand).
Proof. reflexivity. Qed.

(** *** Three-way lexicographic comparison *)

Lemma lexCompare_range (k1 k2 : list Z) :
  lexCompare k1 k2 = -1 \/ lexCompare k1 k2 = 0 \/ lexCompare k1 k2 = 1.
Proof.
  revert k2. induction k1 as [|a k1 IH]; intros [|b k2]; simpl; auto.
  destruct (b <? a); auto. destruct (a <? b); auto.
Qed.

Lemma lexCompare_refl (k : list Z) : lexCompare k k = 0.
Proof.
  induction k as [|a k IH]; simpl; [reflexivity|].
  rewrite Z.ltb_irrefl. exact IH.
Qed.

Lemma lexCompare_trans (k1 : list Z) :
  forall k2 k3,
    length k1 = length k2 -> length k2 = length k3 ->
    lexCompare k1 k2 = -1 -> lexCompare k2 k3 = -1 -> lexCompare k1 k3 = -1.
Proof.
  induction k1 as [|a k1 IH]; intros [|b k2] [|d k3] L12 L23; simpl in *;
    try discriminate; try (intros; assumption).
  destruct (b <? a) eqn:Hba, (d <? b) eqn:Hdb, (a <? b) eqn:Hab, (b <? d) eqn:Hbd,
           (d <? a) eqn:Hda, (a <? d) eqn:Had;
    try rewrite Z.ltb_lt in *; try rewrite Z.ltb_ge in *;
    intros H1 H2; try discriminate; try reflexivity; try lia.
  apply (IH k2 k3); congruence.
Qed.

Lemma index_cons (a : Z) (k : list Z) (i : nat) : index (a :: k) (S i) = index k i.
Proof. reflexivity. Qed.

Lemma compareFrom_shift (better : jsnum -> jsnum -> bool) (n : nat) :
  forall i a b k1 k2,
    compareFrom better n (S i) (a :: k1) (b :: k2) = compareFrom better n i k1 k2.
Proof.
  induction n as [|n IH]; intros i a b k1 k2; simpl; [reflexivity|].
  rewrite !index_cons, IH. reflexivity.
Qed.

(** On two arrays of [n] numbers the loop is the lexicographic comparison. *)
Lemma compareFrom_lex (n : nat) :
  forall k1 k2,
    length k1 = n -> length k2 = n ->
    compareFrom js_gt n 0 k1 k2 = lexCompare k1 k2.
Proof.
  induction n as [|n IH]; intros [|a k1] [|b k2] L1 L2; simpl in *;
    try discriminate; try reflexivity.
  unfold index; simpl. unfold js_gt; simpl.
  rewrite compareFrom_shift.
  destruct (b <? a); [reflexivity|]. destruct (a <? b); [reflexivity|].
  apply IH; congruence.
Qed.

(** *** The comparator reads a hand through its ranks *)

Lemma map_filter_rank {B : Type} (g : Rank -> B) (p : Rank -> bool) (hand : list Card) :
  map (fun card => g (rank card)) (filter (fun card => p (rank card)) hand)
  = map g (filter p (map rank hand)).
Proof.
  induction hand as [|card hand IH]; simpl; [reflexivity|].
  destruct (p (rank card)); simpl; rewrite IH; reflexivity.
Qed.

Section SameRanks.
Variables hand hand' : list Card.
Hypothesis same : map rank hand = map rank hand'.

Lemma values_ranks :
  map (fun card => rankToValue (rank card)) hand
  = map (fun card => rankToValue (rank card)) hand'.
Proof. rewrite <- !(map_map rank rankToValue), same. reflexivity. Qed.

Lemma lowValues_ranks :
  map (fun card => rankToLowValue (rank card)) hand
  = map (fun card => rankToLowValue (rank card)) hand'.
Proof. rewrite <- !(map_map rank rankToLowValue), same. reflexivity. Qed.

Lemma getRepeatedRank_ranks (count : Z) :
  getRepeatedRank hand count = getRepeatedRank hand' count.
Proof. unfold getRepeatedRank. rewrite same. reflexivity. Qed.

Lemma getTwoPairRanks_ranks : getTwoPairRanks hand = getTwoPairRanks hand'.
Proof. unfold getTwoPairRanks. rewrite same. reflexivity. Qed.

Lemma valuesWithout_ranks (r : option Rank) :
  valuesWithout r hand = valuesWithout r hand'.
Proof.
  unfold valuesWithout.
  pose (p := fun x : Rank =>
               match r with Some r' => negb (Rank_eqb x r') | None => true end).
  change (filter (rankIsNot r) hand) with (filter (fun card => p (rank card)) hand).
  change (filter (rankIsNot r) hand') with (filter (fun card => p (rank card)) hand').
  rewrite !map_filter_rank, same. reflexivity.
Qed.

Lemma twoPairKicker_ranks (hi lo : option Rank) :
  map (fun c => rankToValue (rank c))
      (filter (fun c => rankIsNot hi c && rankIsNot lo c) hand)
  = map (fun c => rankToValue (rank c))
        (filter (fun c => rankIsNot hi c && rankIsNot lo c) hand').
Proof.
  pose (p := fun x : Rank =>
               match hi with Some r' => negb (Rank_eqb x r') | None => true end
               && match lo with Some r' => negb (Rank_eqb x r') | None => true end).
  change (filter (fun c => rankIsNot hi c && rankIsNot lo c) hand)
    with (filter (fun card => p (rank card)) hand).
  change (filter (fun c => rankIsNot hi c && rankIsNot lo c) hand')
    with (filter (fun card => p (rank card)) hand').
  rewrite !map_filter_rank, same. reflexivity.
Qed.
End SameRanks.

Lemma find_rank (p : Rank -> bool) (hand : list Card) :
  option_map rank (find (fun card => p (rank card)) hand) = find p (map rank hand).
Proof.
  induction hand as [|card hand IH]; simpl; [reflexivity|].
  destruct (p (rank card)); simpl; [reflexivity | exact IH].
Qed.

Lemma highCard_fold_rank (rest : list Card) :
  forall rest' first first',
    rank first = rank first' -> map rank rest = map rank rest' ->
    rank (fold_left
            (fun max card =>
               if rankToValue (rank card) >? rankToValue (rank max) then card else max)
            rest first)
    = rank (fold_left
              (fun max card =>
                 if rankToValue (rank card) >? rankToValue (rank max) then card else max)
              rest' first').
Proof.
  induction rest as [|x rest IH]; intros [|x' rest'] first first' Hf Hr;
    simpl in *; try discriminate; [exact Hf|].
  injection Hr as Hx Hr. apply IH; [|exact Hr].
  rewrite Hx, Hf. destruct (rankToValue (rank x') >? rankToValue (rank first')); assumption.
Qed.

Lemma getHighCard_ranks (hand hand' : list Card) :
  map rank hand = map rank hand' ->
  result_map rank (getHighCard hand) = result_map rank (getHighCard hand').
Proof.
  destruct hand as [|x hand], hand' as [|x' hand']; simpl; intros H;
    try discriminate; [reflexivity|].
  injection H as Hx H. f_equal. apply highCard_fold_rank; assumption.
Qed.

Lemma straightHighRank_ranks (hand hand' : list Card) :
  map rank hand = map rank hand' ->
  result_map (option_map rank) (getStraightHighCard hand)
  = result_map (option_map rank) (getStraightHighCard hand').
Proof.
  intros same. unfold getStraightHighCard. rewrite same.
  destruct (list_eqb _ _).
  - simpl. f_equal.
    rewrite (find_rank (fun r => Rank_eqb r R5) hand),
            (find_rank (fun r => Rank_eqb r R5) hand'), same.
    reflexivity.
  - pose proof (getHighCard_ranks _ _ same) as H.
    destruct (getHighCard hand), (getHighCard hand'); simpl in *; congruence.
Qed.

Theorem compareHighHands_ranks (hand1 hand1' hand2 hand2' : list Card) (category : HandRank) :
  map rank hand1 = map rank hand1' ->
  map rank hand2 = map rank hand2' ->
  compareHighHands hand1 hand2 category = compareHighHands hand1' hand2' category.
Proof.
  intros S1 S2.
  assert (Straights :
    compareHighHands hand1 hand2 Straight = compareHighHands hand1' hand2' Straight).
  { unfold compareHighHands.
    pose proof (straightHighRank_ranks _ _ S1) as E1.
    pose proof (straightHighRank_ranks _ _ S2) as E2.
    destruct (getStraightHighCard hand1) as [[c1|]|e1],
             (getStraightHighCard hand1') as [[c1'|]|e1'],
             (getStraightHighCard hand2) as [[c2|]|e2],
             (getStraightHighCard hand2') as [[c2'|]|e2'];
      simpl in *; try discriminate; try congruence. }
  destruct category; try exact Straights; unfold compareHighHands; cbv zeta;
    rewrite ?(getRepeatedRank_ranks _ _ S1), ?(getRepeatedRank_ranks _ _ S2),
            ?(getTwoPairRanks_ranks _ _ S1), ?(getTwoPairRanks_ranks _ _ S2),
            ?(values_ranks _ _ S1), ?(values_ranks _ _ S2);
    try reflexivity.
  - (* OnePair *)
    destruct (getRepeatedRank hand1' 2) as [p1|]; [|reflexivity].
    destruct (getRepeatedRank hand2' 2) as [p2|]; [|reflexivity]. unfold bind.
    rewrite (valuesWithout_ranks _ _ S1), (valuesWithout_ranks _ _ S2). reflexivity.
  - (* TwoPair *)
    rewrite (twoPairKicker_ranks _ _ S1), (twoPairKicker_ranks _ _ S2). reflexivity.
  - (* ThreeOfAKind *)
    destruct (getRepeatedRank hand1' 3) as [p1|]; [|reflexivity].
    destruct (getRepeatedRank hand2' 3) as [p2|]; [|reflexivity]. unfold bind.
    rewrite (valuesWithout_ranks _ _ S1), (valuesWithout_ranks _ _ S2). reflexivity.
  - (* FourOfAKind *)
    destruct (getRepeatedRank hand1' 4) as [p1|]; [|reflexivity].
    destruct (getRepeatedRank hand2' 4) as [p2|]; [|reflexivity]. unfold bind.
    rewrite (valuesWithout_ranks _ _ S1), (valuesWithout_ranks _ _ S2). reflexivity.
Qed.

(** *** The tie-break key of a hand within its category *)

Lemma ofLength_Some (n : nat) (values k : list Z) :
  ofLength n values = Some k -> k = values /\ length values = n.
Proof.
  unfold ofLength. destruct (length values =? n)%nat eqn:E; [|discriminate].
  apply Nat.eqb_eq in E. intros H; injection H as <-. auto.
Qed.

Lemma decide_Num (a b : Z) (otherwise : result Z) :
  decide (Num a) (Num b) otherwise
  = if b <? a then Ok (-1) else if a <? b then Ok 1 else otherwise.
Proof. reflexivity. Qed.

Ltac split_lex :=
  repeat match goal with
         | |- context [?b <? ?a] => destruct (b <? a); try reflexivity
         end.

(** Where both keys exist the comparator returns their lexicographic
    comparison. *)
Lemma compare_by_key (category : HandRank) (hand1 hand2 : list Card) (k1 k2 : list Z) :
  keyOf category hand1 = Some k1 ->
  keyOf category hand2 = Some k2 ->
  compareHighHands hand1 hand2 category = Ok (lexCompare k1 k2)
  /\ length k1 = length k2.
Proof.
  destruct category; unfold keyOf, compareHighHands; cbv zeta; intros K1 K2.
  - (* HighCard *)
    apply ofLength_Some in K1, K2. destruct K1 as [-> L1], K2 as [-> L2].
    rewrite (compareFrom_lex 5) by assumption. split; congruence.
  - (* OnePair *)
    destruct (getRepeatedRank hand1 2) as [p1|]; [|discriminate].
    destruct (getRepeatedRank hand2 2) as [p2|]; [|discriminate].
    destruct (ofLength 3 _) as [ks1|] eqn:E1 in K1; [|discriminate].
    destruct (ofLength 3 _) as [ks2|] eqn:E2 in K2; [|discriminate].
    apply ofLength_Some in E1, E2. destruct E1 as [-> L1], E2 as [-> L2].
    injection K1 as <-. injection K2 as <-.
    unfold bind. rewrite decide_Num, L1, (compareFrom_lex 3) by assumption.
    simpl. split; [split_lex | congruence].
  - (* TwoPair *)
    destruct (getTwoPairRanks hand1) as [[hi1|] [lo1|]]; try discriminate.
    destruct (getTwoPairRanks hand2) as [[hi2|] [lo2|]]; try discriminate.
    simpl fst; simpl snd.
    destruct (Math_max _) as [| |x1] in K1 |- *; try discriminate.
    destruct (Math_max _) as [| |x2] in K2 |- *; try discriminate.
    injection K1 as <-. injection K2 as <-.
    unfold rankToValue'. rewrite !decide_Num. simpl. split; [split_lex | reflexivity].
  - (* ThreeOfAKind *)
    destruct (getRepeatedRank hand1 3) as [p1|]; [|discriminate].
    destruct (getRepeatedRank hand2 3) as [p2|]; [|discriminate].
    destruct (ofLength 2 _) as [ks1|] eqn:E1 in K1; [|discriminate].
    destruct (ofLength 2 _) as [ks2|] eqn:E2 in K2; [|discriminate].
    apply ofLength_Some in E1, E2. destruct E1 as [-> L1], E2 as [-> L2].
    injection K1 as <-. injection K2 as <-.
    unfold bind. rewrite decide_Num, L1, (compareFrom_lex 2) by assumption.
    simpl. split; [split_lex | congruence].
  - (* Straight *)
    destruct (getStraightHighCard hand1) as [[c1|]|]; try discriminate.
    destruct (getStraightHighCard hand2) as [[c2|]|]; try discriminate.
    injection K1 as <-. injection K2 as <-.
    unfold bind, rankOf. rewrite decide_Num. simpl. split; [split_lex | reflexivity].
  - (* Flush *)
    apply ofLength_Some in K1, K2. destruct K1 as [-> L1], K2 as [-> L2].
    rewrite (compareFrom_lex 5) by assumption. split; congruence.
  - (* FullHouse *)
    destruct (getRepeatedRank hand1 3) as [t1|]; [|discriminate].
    destruct (getRepeatedRank hand1 2) as [p1|]; [|discriminate].
    destruct (getRepeatedRank hand2 3) as [t2|]; [|discriminate].
    destruct (getRepeatedRank hand2 2) as [p2|]; [|discriminate].
    injection K1 as <-. injection K2 as <-.
    unfold bind. rewrite !decide_Num. simpl. split; [split_lex | reflexivity].
  - (* FourOfAKind *)
    destruct (getRepeatedRank hand1 4) as [q1|]; [|discriminate].
    destruct (getRepeatedRank hand2 4) as [q2|]; [|discriminate].
    cbn [bind].
    destruct (Math_max _) as [| |x1] in K1 |- *; try discriminate.
    destruct (Math_max _) as [| |x2] in K2 |- *; try discriminate.
    injection K1 as <-. injection K2 as <-.
    rewrite !decide_Num. simpl. split; [split_lex | reflexivity].
  - (* StraightFlush *)
    destruct (getStraightHighCard hand1) as [[c1|]|]; try discriminate.
    destruct (getStraightHighCard hand2) as [[c2|]|]; try discriminate.
    injection K1 as <-. injection K2 as <-.
    unfold bind, rankOf. rewrite decide_Num. simpl. split; [split_lex | reflexivity].
  - (* RoyalFlush *)
    injection K1 as <-. injection K2 as <-. split; reflexivity.
Qed.

Lemma rank_cardsOf (ranks : list Rank) : map rank (cardsOf ranks) = ranks.
Proof.
  unfold cardsOf. rewrite map_map. simpl. apply map_id.
Qed.

Lemma keyOf_ranks (category : HandRank) (hand hand' : list Card) :
  map rank hand = map rank hand' -> keyOf category hand = keyOf category hand'.
Proof.
  intros same.
  assert (Straights : keyOf Straight hand = keyOf Straight hand').
  { unfold keyOf. pose proof (straightHighRank_ranks _ _ same) as E.
    destruct (getStraightHighCard hand) as [[c1|]|],
             (getStraightHighCard hand') as [[c2|]|];
      simpl in E; try discriminate; try reflexivity.
    injection E as E. rewrite E. reflexivity. }
  destruct category; try exact Straights; unfold keyOf;
    rewrite ?(getRepeatedRank_ranks _ _ same), ?(getTwoPairRanks_ranks _ _ same),
            ?(values_ranks _ _ same);
    try reflexivity.
  - destruct (getRepeatedRank hand' 2); [|reflexivity].
    rewrite (valuesWithout_ranks _ _ same). reflexivity.
  - destruct (getTwoPairRanks hand') as [[hi|] [lo|]]; try reflexivity.
    rewrite (twoPairKicker_ranks _ _ same). reflexivity.
  - destruct (getRepeatedRank hand' 3); [|reflexivity].
    rewrite (valuesWithout_ranks _ _ same). reflexivity.
  - destruct (getRepeatedRank hand' 4); [|reflexivity].
    rewrite (valuesWithout_ranks _ _ same). reflexivity.
Qed.

Lemma In_insert (x y : Z) (sorted : list Z) :
  In y (insert ascending x sorted) <-> y = x \/ In y sorted.
Proof.
  induction sorted as [|z sorted IH]; simpl.
  - intuition.
  - destruct (ascending x z <=? 0); simpl; rewrite ?IH; intuition.
Qed.

Lemma In_sort (y : Z) (values : list Z) :
  In y (sort ascending values) <-> In y values.
Proof.
  induction values as [|x values IH]; simpl; [tauto|].
  rewrite In_insert, IH. intuition.
Qed.

Lemma list_eqb_eq (xs ys : list Z) : list_eqb xs ys = true -> xs = ys.
Proof.
  revert ys. induction xs as [|x xs IH]; intros [|y ys]; simpl; try discriminate;
    [reflexivity|].
  intros H. apply andb_prop in H. destruct H as [Hx Hs].
  apply Z.eqb_eq in Hx. subst y. f_equal. exact (IH _ Hs).
Qed.

(** The straight's high card is never [undefined], and taking it fails
    only on the empty hand. *)
Lemma getStraightHighCard_cases (hand : list Card) :
  (exists high, getStraightHighCard hand = Ok (Some high))
  \/ (getStraightHighCard hand = Throw ReduceOfEmptyArray /\ hand = []).
Proof.
  unfold getStraightHighCard. cbv zeta.
  destruct (list_eqb _ _) eqn:W.
  - left. apply list_eqb_eq in W.
    assert (H5 : In 5 (map rankToValue (map rank hand))).
    { apply In_sort. rewrite W. simpl. tauto. }
    rewrite map_map in H5. apply in_map_iff in H5. destruct H5 as (five & V & Hin).
    destruct (find (fun card0 => Rank_eqb (rank card0) R5) hand) as [high|] eqn:F.
    + exists high. reflexivity.
    + exfalso. pose proof (find_none _ _ F five Hin) as N. simpl in N.
      unfold Rank_eqb in N. rewrite V in N. discriminate N.
  - destruct hand as [|first rest]; [right; split; reflexivity|].
    left. eexists. reflexivity.
Qed.

Lemma length_insert {A : Type} (cmp : A -> A -> Z) (x : A) (sorted : list A) :
  length (insert cmp x sorted) = S (length sorted).
Proof.
  induction sorted as [|y rest IH]; simpl; [reflexivity|].
  destruct (cmp x y <=? 0); simpl; [reflexivity | rewrite IH; reflexivity].
Qed.

Lemma length_sort {A : Type} (cmp : A -> A -> Z) (xs : list A) :
  length (sort cmp xs) = length xs.
Proof.
  induction xs as [|x xs IH]; simpl; [reflexivity|].
  rewrite length_insert, IH. reflexivity.
Qed.

(** *** One exhaustive check over the 13^5 rank sequences of a hand *)

Lemma checkStraight_values (ranks : list Rank) :
  checkStraight ranks = straightValues (sort ascending (map rankToValue ranks)).
Proof. reflexivity. Qed.

Lemma categoryOf_precedence (isFlush : bool) (ranks : list Rank) :
  categoryOf isFlush ranks
  = Parts.precedence isFlush (checkStraight ranks) (isRoyalFlush ranks) (shapeOf ranks).
Proof. reflexivity. Qed.

Lemma Parts_isStraight_values (hand : list Card) :
  Parts.isStraight hand
  = partsStraightValues (sort ascending (map rankToValue (map rank hand))).
Proof. unfold Parts.isStraight. rewrite map_map. reflexivity. Qed.

Lemma Parts_countShape_ranks (hand : list Card) :
  Parts.countShape hand = partsShape (map rank hand).
Proof. reflexivity. Qed.

Lemma isWheel_ranks (hand hand' : list Card) :
  map rank hand = map rank hand' -> Spec.isWheel hand = Spec.isWheel hand'.
Proof. intros same. unfold Spec.isWheel. rewrite (values_ranks _ _ same). reflexivity. Qed.

Lemma straightValue_ranks (hand hand' : list Card) :
  map rank hand = map rank hand' -> Spec.straightValue hand = Spec.straightValue hand'.
Proof.
  intros same. unfold Spec.straightValue.
  rewrite (isWheel_ranks _ _ same), (values_ranks _ _ same). reflexivity.
Qed.

Lemma isRoyal_ranks (hand hand' : list Card) :
  map rank hand = map rank hand' -> Parts.isRoyal hand = Parts.isRoyal hand'.
Proof. intros same. unfold Parts.isRoyal. rewrite (values_ranks _ _ same). reflexivity. Qed.

Lemma handCheck_all : forallRanks5 handCheck = true.
Proof. vm_cast_no_check (eq_refl true). Qed.

Section CheckedHand.
Variable hand : list Card.
Hypothesis five : length hand = 5%nat.

Lemma same_as_cardsOf : map rank hand = map rank (cardsOf (map rank hand)).
Proof. symmetry. apply rank_cardsOf. Qed.

Lemma handCheck_parts :
  (checkStraight (map rank hand) = Parts.isStraight hand
   /\ shapeOf (map rank hand) = Parts.countShape hand)
  /\ (checkStraight (map rank hand) = true ->
      isRoyalFlush (map rank hand) = Parts.isRoyal hand
      /\ keyOf Straight hand = Some [Spec.straightValue hand]
      /\ (Spec.isWheel hand = false -> 6 <= Spec.straightValue hand))
  /\ (forall category,
        match category with
        | FourOfAKind => shapeOf (map rank hand) = [4; 1]
        | FullHouse => shapeOf (map rank hand) = [3; 2]
        | ThreeOfAKind => shapeOf (map rank hand) = [3; 1; 1]
        | TwoPair => shapeOf (map rank hand) = [2; 2; 1]
        | OnePair => shapeOf (map rank hand) = [2; 1; 1; 1]
        | _ => False
        end ->
        isSome (keyOf category hand) = true).
Proof.
  assert (Lr : length (map rank hand) = 5%nat) by (rewrite length_map; exact five).
  pose proof (forallRanks5_sound _ handCheck_all _ Lr) as H.
  unfold handCheck in H. cbv zeta in H.
  rewrite <- checkStraight_values in H.
  rewrite <- !(keyOf_ranks _ _ _ same_as_cardsOf),
          <- (straightValue_ranks _ _ same_as_cardsOf),
          <- (isWheel_ranks _ _ same_as_cardsOf),
          <- (isRoyal_ranks _ _ same_as_cardsOf) in H.
  apply andb_prop in H. destruct H as [H Paired].
  apply andb_prop in H. destruct H as [H Straights].
  apply andb_prop in H. destruct H as [HS HC].
  apply Bool.eqb_prop in HS. apply list_eqb_eq in HC.
  split; [split|split].
  - rewrite HS, Parts_isStraight_values. reflexivity.
  - rewrite HC. reflexivity.
  - intros S. rewrite S in Straights.
    apply andb_prop in Straights. destruct Straights as [R K].
    apply Bool.eqb_prop in R. split; [exact R|].
    destruct (keyOf Straight hand) as [[|v [|]]|]; try discriminate K.
    apply andb_prop in K. destruct K as [V W]. apply Z.eqb_eq in V. subst v.
    split; [reflexivity|]. intros NW. rewrite NW in W. simpl in W.
    apply Z.leb_le. exact W.
  - intros category. destruct category; try tauto; intros E; rewrite E in Paired;
      exact Paired.
Qed.
End CheckedHand.

Lemma category_shape (isFlush : bool) (ranks : list Rank) :
  match categoryOf isFlush ranks with
  | FourOfAKind => shapeOf ranks = [4; 1]
  | FullHouse => shapeOf ranks = [3; 2]
  | ThreeOfAKind => shapeOf ranks = [3; 1; 1]
  | TwoPair => shapeOf ranks = [2; 2; 1]
  | OnePair => shapeOf ranks = [2; 1; 1; 1]
  | _ => True
  end.
Proof.
  rewrite categoryOf_precedence. unfold Parts.precedence.
  destruct (isFlush && checkStraight ranks && isRoyalFlush ranks); [exact I|].
  destruct (isFlush && checkStraight ranks); [exact I|].
  destruct (list_eqb (shapeOf ranks) [4; 1]) eqn:E1; [exact (list_eqb_eq _ _ E1)|].
  destruct (list_eqb (shapeOf ranks) [3; 2]) eqn:E2; [exact (list_eqb_eq _ _ E2)|].
  destruct isFlush; [exact I|].
  destruct (checkStraight ranks); [exact I|].
  destruct (list_eqb (shapeOf ranks) [3; 1; 1]) eqn:E3; [exact (list_eqb_eq _ _ E3)|].
  destruct (list_eqb (shapeOf ranks) [2; 2; 1]) eqn:E4; [exact (list_eqb_eq _ _ E4)|].
  destruct (list_eqb (shapeOf ranks) [2; 1; 1; 1]) eqn:E5;
    [exact (list_eqb_eq _ _ E5) | exact I].
Qed.

Lemma category_straight (isFlush : bool) (ranks : list Rank) :
  categoryOf isFlush ranks = Straight \/ categoryOf isFlush ranks = StraightFlush ->
  checkStraight ranks = true.
Proof.
  rewrite categoryOf_precedence. unfold Parts.precedence.
  destruct (checkStraight ranks); [reflexivity|].
  rewrite !andb_false_r.
  repeat match goal with
         | |- context [if ?b then _ else _] => destruct b
         end; intros [H | H]; discriminate H.
Qed.

(** Every 5-card hand has the tie-break key of its own category. *)
Lemma key_defined (hand : list Card) :
  length hand = 5%nat -> exists k, keyOf (evaluateHand hand) hand = Some k.
Proof.
  intros L.
  destruct (handCheck_parts hand L) as (_ & _ & Paired).
  pose proof (category_shape (flushBit hand) (map rank hand)) as Shape.
  rewrite <- evaluateHand_categoryOf in Shape.
  assert (Straights : exists k, keyOf Straight hand = Some k).
  { unfold keyOf.
    destruct (getStraightHighCard_cases hand) as [[high ->] | [_ ->]];
      [eexists; reflexivity | discriminate L]. }
  assert (Highs : exists k, keyOf HighCard hand = Some k).
  { unfold keyOf, ofLength. rewrite length_sort, length_map, L. simpl.
    eexists; reflexivity. }
  specialize (Paired (evaluateHand hand)).
  destruct (evaluateHand hand); try exact Straights; try exact Highs;
    try (specialize (Paired Shape);
         destruct (keyOf _ hand) as [k|]; [exists k; reflexivity | discriminate Paired]).
  exists []. reflexivity.
Qed.

(** Two 5-card hands of one category are compared by their keys. *)
Lemma compare_same_category (hand1 hand2 : list Card) (category : HandRank) :
  length hand1 = 5%nat -> length hand2 = 5%nat ->
  evaluateHand hand1 = category -> evaluateHand hand2 = category ->
  exists k1 k2,
    keyOf category hand1 = Some k1 /\ keyOf category hand2 = Some k2
    /\ length k1 = length k2
    /\ compareHighHands hand1 hand2 category = Ok (lexCompare k1 k2).
Proof.
  intros L1 L2 E1 E2.
  destruct (key_defined hand1 L1) as [k1 K1], (key_defined hand2 L2) as [k2 K2].
  rewrite E1 in K1. rewrite E2 in K2.
  destruct (compare_by_key _ _ _ _ _ K1 K2) as [C L].
  exists k1, k2. auto.
Qed.

Lemma Math_max_nonempty (values : list Z) (k : Z) :
  Math_max values = Num k -> values <> [].
Proof. intros H ->. discriminate H. Qed.

Lemma key_extractionSafe (category : HandRank) (hand : list Card) (k : list Z) :
  keyOf category hand = Some k -> extractionSafe category hand.
Proof.
  destruct category; unfold keyOf, extractionSafe; intros K; try exact I.
  - destruct (getRepeatedRank hand 2) as [p|]; [|discriminate]. eauto.
  - destruct (getTwoPairRanks hand) as [[hi|] [lo|]]; try discriminate.
    destruct (Math_max _) as [| |x] eqn:M; try discriminate.
    exists hi, lo. split; [reflexivity|]. exact (Math_max_nonempty _ _ M).
  - destruct (getRepeatedRank hand 3) as [p|]; [|discriminate]. eauto.
  - destruct (getRepeatedRank hand 3) as [t|]; [|discriminate].
    destruct (getRepeatedRank hand 2) as [p|]; [|discriminate]. eauto.
  - destruct (getRepeatedRank hand 4) as [q|]; [|discriminate].
    destruct (Math_max _) as [| |x] eqn:M; try discriminate.
    exists q. split; [reflexivity|]. exact (Math_max_nonempty _ _ M).
Qed.

(* ================================================================= *)
(** ** Well-formedness of the example hands *)

Ltac wellFormed_hand :=
  split;
  [ reflexivity
  | vm_compute; repeat (constructor; [simpl; intuition discriminate|]); constructor ].

(* ================================================================= *)
(** ** The comparator on hands of one category *)

(** C10. For all well-formed 5-card hands [hand1], [hand2] that both
    classify to [category], [compareHighHands hand1 hand2 category] returns
    (no exception) a value in {-1, 0, 1}; on either hand the calls of
    [getRepeatedRank] made for that category return a rank, both pair ranks
    of a TwoPair exist, and the kicker list handed to [Math.max] in the
    FourOfAKind and TwoPair branches is not empty. *)
Theorem compareHighHands_safe (hand1 hand2 : list Card) (category : HandRank) :
  wellFormed hand1 -> wellFormed hand2 ->
  evaluateHand hand1 = category -> evaluateHand hand2 = category ->
  (exists z, compareHighHands hand1 hand2 category = Ok z
             /\ (z = -1 \/ z = 0 \/ z = 1))
  /\ extractionSafe category hand1
  /\ extractionSafe category hand2.
Proof.
  intros [L1 _] [L2 _] E1 E2.
  destruct (compare_same_category _ _ _ L1 L2 E1 E2) as (k1 & k2 & K1 & K2 & _ & C).
  split; [|split].
  - exists (lexCompare k1 k2). split; [exact C | apply lexCompare_range].
  - exact (key_extractionSafe _ _ _ K1).
  - exact (key_extractionSafe _ _ _ K2).
Qed.

Lemma compareHighHands_safe_witness :
  (exists z, compareHighHands pairOfAces pairOfKings OnePair = Ok z
             /\ (z = -1 \/ z = 0 \/ z = 1))
  /\ extractionSafe OnePair pairOfAces
  /\ extractionSafe OnePair pairOfKings.
Proof.
  apply (compareHighHands_safe pairOfAces pairOfKings OnePair).
  - wellFormed_hand.
  - wellFormed_hand.
  - reflexivity.
  - reflexivity.
Defined.

(** C7. On well-formed 5-card hands [A], [B], [C] that classify to the same
    [category]: if [compareHighHands A B category = -1] and
    [compareHighHands B C category = -1] then
    [compareHighHands A C category = -1]; and
    [compareHighHands A A category = 0]. *)
Theorem compareHighHands_strict_order (A B C : list Card) (category : HandRank) :
  wellFormed A -> wellFormed B -> wellFormed C ->
  evaluateHand A = category -> evaluateHand B = category ->
  evaluateHand C = category ->
  (compareHighHands A B category = Ok (-1) ->
   compareHighHands B C category = Ok (-1) ->
   compareHighHands A C category = Ok (-1))
  /\ compareHighHands A A category = Ok 0.
Proof.
  intros [LA _] [LB _] [LC _] EA EB EC.
  destruct (compare_same_category _ _ _ LA LB EA EB) as (ka & kb & KA & KB & Lab & Cab).
  destruct (compare_same_category _ _ _ LB LC EB EC) as (kb' & kc & KB' & KC & Lbc & Cbc).
  assert (kb' = kb) by congruence. subst kb'.
  destruct (compare_by_key _ _ _ _ _ KA KC) as [Cac _].
  destruct (compare_by_key _ _ _ _ _ KA KA) as [Caa _].
  split.
  - rewrite Cab, Cbc, Cac. intros H1 H2. f_equal.
    apply (lexCompare_trans ka kb kc); congruence.
  - rewrite Caa, lexCompare_refl. reflexivity.
Qed.

Lemma compareHighHands_strict_order_witness :
  compareHighHands pairOfAces pairOfKings OnePair = Ok (-1)
  /\ compareHighHands pairOfKings pairOfQueens OnePair = Ok (-1)
  /\ compareHighHands pairOfAces pairOfQueens OnePair = Ok (-1)
  /\ compareHighHands pairOfAces pairOfAces OnePair = Ok 0.
Proof.
  destruct (compareHighHands_strict_order pairOfAces pairOfKings pairOfQueens OnePair)
    as [transitive reflexive].
  - wellFormed_hand.
  - wellFormed_hand.
  - wellFormed_hand.
  - reflexivity.
  - reflexivity.
  - reflexivity.
  - split; [reflexivity|]. split; [reflexivity|].
    split; [apply transitive; reflexivity | exact reflexive].
Defined.

(* ================================================================= *)
(** ** Straights *)

(** The key of a straight is its high-card value, 5 for the wheel and at
    least 6 otherwise. *)
Lemma straight_key (hand : list Card) (category : HandRank) :
  length hand = 5%nat ->
  evaluateHand hand = category ->
  category = Straight \/ category = StraightFlush ->
  keyOf category hand = Some [Spec.straightValue hand]
  /\ (Spec.isWheel hand = false -> 6 <= Spec.straightValue hand).
Proof.
  intros L E Hc.
  destruct (handCheck_parts hand L) as (_ & Straights & _).
  assert (S : checkStraight (map rank hand) = true).
  { apply (category_straight (flushBit hand)).
    rewrite <- evaluateHand_categoryOf, E. exact Hc. }
  destruct (Straights S) as (_ & K & W).
  split; [|exact W]. destruct Hc as [-> | ->]; exact K.
Qed.

Lemma lexCompare_single (a b : Z) : lexCompare [a] [b] = Spec.threeWay a b.
Proof. reflexivity. Qed.

Lemma straightValue_wheel (hand : list Card) :
  Spec.isWheel hand = true -> Spec.straightValue hand = 5.
Proof. intros W. unfold Spec.straightValue. rewrite W. reflexivity. Qed.

(** C4. For well-formed 5-card hands [hand1], [hand2] that are both
    Straights or both StraightFlushes, [compareHighHands] is the three-way
    comparison of the straights' high-card values, the value of the wheel
    A-2-3-4-5 being 5 and its high card the rank-5 card; so the wheel loses
    to every other straight, in either argument order, and straights of
    equal high-card value compare as 0. *)
Theorem straights_compare_by_high_card (hand1 hand2 : list Card) (category : HandRank) :
  wellFormed hand1 -> wellFormed hand2 ->
  category = Straight \/ category = StraightFlush ->
  evaluateHand hand1 = category -> evaluateHand hand2 = category ->
  compareHighHands hand1 hand2 category
  = Ok (Spec.threeWay (Spec.straightValue hand1) (Spec.straightValue hand2))
  /\ (Spec.isWheel hand1 = true ->
      (exists five, getStraightHighCard hand1 = Ok (Some five) /\ rank five = R5)
      /\ Spec.straightValue hand1 = 5)
  /\ (Spec.isWheel hand1 = true -> Spec.isWheel hand2 = false ->
      compareHighHands hand1 hand2 category = Ok 1
      /\ compareHighHands hand2 hand1 category = Ok (-1))
  /\ (Spec.straightValue hand1 = Spec.straightValue hand2 ->
      compareHighHands hand1 hand2 category = Ok 0).
Proof.
  intros [L1 _] [L2 _] Hc E1 E2.
  destruct (straight_key _ _ L1 E1 Hc) as [K1 _].
  destruct (straight_key _ _ L2 E2 Hc) as [K2 N2].
  destruct (compare_by_key _ _ _ _ _ K1 K2) as [C12 _].
  destruct (compare_by_key _ _ _ _ _ K2 K1) as [C21 _].
  rewrite lexCompare_single in C12, C21.
  split; [exact C12|]. split; [|split].
  - intros W. split; [|apply straightValue_wheel; exact W].
    pose proof (straightValue_wheel _ W) as V. rewrite V in K1.
    destruct Hc as [-> | ->]; unfold keyOf in K1;
      (destruct (getStraightHighCard hand1) as [[high|]|]; try discriminate K1;
       exists high; split; [reflexivity|];
       injection K1 as K1; apply rankToValue_inj; exact K1).
  - intros W1 W2. rewrite C12, C21, (straightValue_wheel _ W1).
    specialize (N2 W2). unfold Spec.threeWay.
    destruct (Spec.straightValue hand2 <? 5) eqn:A; [apply Z.ltb_lt in A; lia|].
    destruct (5 <? Spec.straightValue hand2) eqn:B; [|apply Z.ltb_ge in B; lia].
    split; reflexivity.
  - intros V. rewrite C12, V. unfold Spec.threeWay. rewrite Z.ltb_irrefl. reflexivity.
Qed.

Lemma straights_compare_by_high_card_witness :
  compareHighHands wheel sixHighStraight Straight = Ok 1
  /\ compareHighHands sixHighStraight wheel Straight = Ok (-1).
Proof.
  assert (W : wellFormed wheel) by wellFormed_hand.
  assert (S : wellFormed sixHighStraight) by wellFormed_hand.
  destruct (straights_compare_by_high_card wheel sixHighStraight Straight W S
              (or_introl eq_refl) eq_refl eq_refl) as (_ & _ & loses & _).
  apply loses; reflexivity.
Defined.

(* ================================================================= *)
(** ** The classifier's tests on the hand *)

(** [new Set(suits).size === 1] says that all suits are identical. *)
Lemma Set_of_one_suit (s : Suit) (suits : list Suit) :
  forall seen,
    (2 <= length seen)%nat ->
    (2 <= length (fold_left
                    (fun acc x => if existsb (Suit_eqb x) acc then acc else acc ++ [x])
                    suits seen))%nat.
Proof.
  induction suits as [|x suits IH]; intros seen H; simpl; [exact H|].
  apply IH. destruct (existsb (Suit_eqb x) seen); [exact H|].
  rewrite length_app. simpl. lia.
Qed.

Lemma flushBit_spec (first : Card) (rest : list Card) :
  flushBit (first :: rest) = Parts.isFlush (first :: rest).
Proof.
  unfold flushBit, Set_of, Parts.isFlush. simpl.
  induction rest as [|x rest IH]; simpl; [reflexivity|].
  destruct (Suit_eqb (suit x) (suit first)) eqn:E; simpl.
  - exact IH.
  - pose proof (Set_of_one_suit (suit first) (map suit rest) [suit first; suit x]) as H.
    simpl in H. specialize (H (le_n 2)).
    destruct (Nat.eqb_spec
                (length (fold_left
                           (fun acc x0 =>
                              if existsb (Suit_eqb x0) acc then acc else acc ++ [x0])
                           (map suit rest) [suit first; suit x])) 1);
      [lia | reflexivity].
Qed.

Lemma precedence_royal (isFlush isStraight r r' : bool) (shape : list Z) :
  (isStraight = true -> r = r') ->
  Parts.precedence isFlush isStraight r shape = Parts.precedence isFlush isStraight r' shape.
Proof.
  destruct isStraight; intros H.
  - rewrite (H eq_refl). reflexivity.
  - unfold Parts.precedence. rewrite !andb_false_r. reflexivity.
Qed.

Lemma evaluateHand_refines (hand : list Card) :
  length hand = 5%nat -> evaluateHand hand = Parts.classify hand.
Proof.
  intros L.
  destruct (handCheck_parts hand L) as ((S & C) & R & _).
  rewrite evaluateHand_categoryOf, categoryOf_precedence. unfold Parts.classify.
  rewrite <- S, <- C.
  destruct hand as [|first rest]; [discriminate L|].
  rewrite flushBit_spec.
  apply precedence_royal. intros St. exact (proj1 (R St)).
Qed.

(* ================================================================= *)
(** ** Suits of five cards *)

Lemma every_suit_listed (s : Suit) : In s ALL_SUITS.
Proof. destruct s; simpl; tauto. Qed.

(** There are four suits: among five cards two have the same suit, so no
    5-card hand has pairwise distinct suits. *)
Lemma five_cards_repeat_a_suit (hand : list Card) :
  length hand = 5%nat -> ~ NoDup (map suit hand).
Proof.
  intros L distinct.
  assert (H : (length (map suit hand) <= length ALL_SUITS)%nat).
  { apply NoDup_incl_length; [exact distinct|].
    intros s _. apply every_suit_listed. }
  rewrite length_map, L in H. simpl in H. lia.
Qed.

(* ================================================================= *)
(** ** Qualifying low hands *)

Section SetSize.
Context {A : Type}.
Variable eqb : A -> A -> bool.
Hypothesis eqb_eq : forall x y, eqb x y = true <-> x = y.

Lemma existsb_eqb_In (x : A) (seen : list A) :
  existsb (eqb x) seen = true <-> In x seen.
Proof.
  rewrite existsb_exists. split.
  - intros (y & Hy & E). apply eqb_eq in E. subst y. exact Hy.
  - intros H. exists x. split; [exact H | apply eqb_eq; reflexivity].
Qed.

Lemma add_all_length_le (xs : list A) :
  forall seen, (length (fold_left (addOnce eqb) xs seen) <= length seen + length xs)%nat.
Proof.
  induction xs as [|x xs IH]; intros seen; simpl; [lia|].
  specialize (IH (addOnce eqb seen x)).
  assert (Hadd : (length (addOnce eqb seen x) <= length seen + 1)%nat).
  { unfold addOnce. destruct (existsb (eqb x) seen); [lia|].
    rewrite length_app. simpl. lia. }
  lia.
Qed.

Lemma add_all_length_eq (xs : list A) :
  forall seen,
    length (fold_left (addOnce eqb) xs seen) = (length seen + length xs)%nat
    <-> NoDup xs /\ (forall x, In x xs -> ~ In x seen).
Proof.
  induction xs as [|x xs IH]; intros seen; simpl.
  - split; [intros _; split; [constructor | intros x []] | intros _; lia].
  - pose proof (add_all_length_le xs (addOnce eqb seen x)) as Hle.
    specialize (IH (addOnce eqb seen x)).
    assert (Hadd : addOnce eqb seen x = if existsb (eqb x) seen then seen else seen ++ [x])
      by reflexivity.
    destruct (existsb (eqb x) seen) eqn:E; rewrite Hadd in *; clear Hadd.
    + apply existsb_eqb_In in E. split; [intros H; lia|].
      intros [_ H]. exfalso. apply (H x); [left; reflexivity | exact E].
    + assert (Hx : ~ In x seen).
      { intros H. apply existsb_eqb_In in H. congruence. }
      rewrite length_app in IH. simpl in IH.
      replace (length seen + S (length xs))%nat
        with (length seen + 1 + length xs)%nat by lia.
      rewrite IH. split.
      * intros [ND Hd]. split.
        -- constructor; [|exact ND].
           intros Hin. apply (Hd x Hin). apply in_or_app. right. left. reflexivity.
        -- intros y [<- | Hy]; [exact Hx|].
           intros Hs. apply (Hd y Hy). apply in_or_app. left. exact Hs.
      * intros [ND Hd]. inversion ND as [|? ? Hnx ND']; subst. split; [exact ND'|].
        intros y Hy Hs. apply in_app_or in Hs. destruct Hs as [Hs | [<- | []]].
        -- apply (Hd y); [right; exact Hy | exact Hs].
        -- exact (Hnx Hy).
Qed.

(** The set has as many elements as the array iff the array has no
    duplicate. *)
Lemma Set_of_size (xs : list A) :
  length (Set_of eqb xs) = length xs <-> NoDup xs.
Proof.
  unfold Set_of. pose proof (add_all_length_eq xs []) as H. simpl in H.
  unfold addOnce in H. rewrite H. split; [tauto|].
  intros ND. split; [exact ND | intros x _ []].
Qed.
End SetSize.

Lemma filter_keeps_all {A : Type} (p : A -> bool) (xs : list A) :
  length (filter p xs) = length xs <-> Forall (fun x => p x = true) xs.
Proof.
  induction xs as [|x xs IH]; simpl.
  - split; [constructor | reflexivity].
  - pose proof (filter_length_le p xs) as Hle.
    destruct (p x) eqn:E; simpl.
    + split.
      * intros H. constructor; [exact E | apply IH; lia].
      * intros H. inversion H; subst. f_equal. apply IH. assumption.
    + split; [lia|]. intros H. inversion H; subst. congruence.
Qed.

Lemma isQualifyingLow_ranks (hand hand' : list Card) :
  map rank hand = map rank hand' -> isQualifyingLow hand = isQualifyingLow hand'.
Proof.
  intros same. unfold isQualifyingLow. cbv zeta.
  rewrite <- (length_map (fun card => rank card)
                (filter (fun card => rankToLowValue (rank card) <=? 8) hand)).
  rewrite <- (length_map (fun card => rank card)
                (filter (fun card => rankToLowValue (rank card) <=? 8) hand')).
  rewrite !(map_filter_rank (fun r => r) (fun r => rankToLowValue r <=? 8)), same.
  reflexivity.
Qed.

Lemma lowValue_rankToLowValue (r : Rank) : rankToLowValue r = Spec.lowValue r.
Proof. destruct r; reflexivity. Qed.

Lemma isQualifyingLow_iff (hand : list Card) :
  length hand = 5%nat ->
  isQualifyingLow hand = true
  <-> Forall (fun card => rankToLowValue (rank card) <= 8) hand
      /\ NoDup (map rank hand).
Proof.
  intros L. unfold isQualifyingLow. cbv zeta.
  pose proof (filter_keeps_all (fun card => rankToLowValue (rank card) <=? 8) hand) as F.
  rewrite L in F.
  pose proof (Set_of_size Rank_eqb Rank_eqb_eq (map rank hand)) as S.
  rewrite length_map, L in S.
  assert (B : Forall (fun card => rankToLowValue (rank card) <= 8) hand
              <-> Forall (fun card => (rankToLowValue (rank card) <=? 8) = true) hand).
  { rewrite !Forall_forall. split; intros H card Hin; apply Z.leb_le, H, Hin. }
  destruct (Nat.eqb_spec
              (length (filter (fun card => rankToLowValue (rank card) <=? 8) hand)) 5)
    as [E|E]; simpl.
  - rewrite Nat.eqb_eq. tauto.
  - split; [discriminate | tauto].
Qed.

(** C6. For every well-formed 5-card hand, [isQualifyingLow] returns true
    if and only if every card has low value (Ace = 1) at most 8 and the five
    ranks are pairwise distinct; suits play no role: any hand with the same
    ranks in the same order gets the same answer.  The low value is the
    specification's own table [Spec.lowValue], not the engine's
    [rankToLowValue]. *)
Theorem isQualifyingLow_correct (hand : list Card) :
  wellFormed hand ->
  (isQualifyingLow hand = true
   <-> Forall (fun card => Spec.lowValue (rank card) <= 8) hand
       /\ NoDup (map rank hand))
  /\ (forall hand', map rank hand' = map rank hand ->
                    isQualifyingLow hand' = isQualifyingLow hand).
Proof.
  intros [L _]. split.
  - rewrite (isQualifyingLow_iff hand L).
    assert (Same : Forall (fun card => rankToLowValue (rank card) <= 8) hand
                   <-> Forall (fun card => Spec.lowValue (rank card) <= 8) hand).
    { rewrite !Forall_forall.
      split; intros H card Hin; specialize (H card Hin);
        [rewrite <- lowValue_rankToLowValue | rewrite lowValue_rankToLowValue];
        exact H. }
    tauto.
  - intros hand' same. apply isQualifyingLow_ranks. exact same.
Qed.

Lemma isQualifyingLow_correct_witness :
  isQualifyingLow mixedWheel = true
  /\ isQualifyingLow pairedSevens = false
  /\ isQualifyingLow royalFlush = false.
Proof.
  assert (W : wellFormed mixedWheel) by wellFormed_hand.
  assert (P : wellFormed pairedSevens) by wellFormed_hand.
  assert (R : wellFormed royalFlush) by wellFormed_hand.
  split; [|split].
  - apply (proj1 (isQualifyingLow_correct mixedWheel W)). split.
    + repeat constructor; vm_compute; discriminate.
    + vm_compute. repeat (constructor; [simpl; intuition discriminate|]). constructor.
  - destruct (isQualifyingLow pairedSevens) eqn:E; [|reflexivity].
    apply (proj1 (isQualifyingLow_correct pairedSevens P)) in E.
    destruct E as [_ ND]. vm_compute in ND. inversion ND as [|? ? Hnot _]; subst.
    exfalso. apply Hnot. left. reflexivity.
  - destruct (isQualifyingLow royalFlush) eqn:E; [|reflexivity].
    apply (proj1 (isQualifyingLow_correct royalFlush R)) in E.
    destruct E as [Low _]. rewrite Forall_forall in Low.
    assert (King : Spec.lowValue RK <= 8)
      by (apply (Low (card Spades RK)); simpl; tauto).
    vm_compute in King. exfalso. apply King. reflexivity.
Defined.

(* ================================================================= *)
(** ** The combination generator *)

Lemma combinations_S {T : Type} (items : list T) (k : nat) :
  combinations items (S k)
  = if (length items <? S k)%nat then []
    else if (S k =? length items)%nat then [items]
    else flat_map
           (fun i =>
              match nth_error items i with
              | Some head => map (cons head) (combinations (skipn (i + 1) items) k)
              | None => []
              end)
           (seq 0 (length items - S k + 1)).
Proof. reflexivity. Qed.

Lemma combinations_too_few {T : Type} (items : list T) (k : nat) :
  (length items < k)%nat -> combinations items k = [].
Proof.
  destruct k as [|k]; [lia|]. intros H. rewrite combinations_S.
  destruct (Nat.ltb_spec (length items) (S k)); [reflexivity | lia].
Qed.

Lemma combinations_length {T : Type} (k : nat) :
  forall (items subset : list T),
    In subset (combinations items k) -> length subset = k.
Proof.
  induction k as [|k IH]; intros items subset.
  - intros [<- | []]. reflexivity.
  - rewrite combinations_S.
    destruct (length items <? S k)%nat; [intros []|].
    destruct (Nat.eqb_spec (S k) (length items)) as [E|E].
    + intros [<- | []]. symmetry. exact E.
    + rewrite in_flat_map. intros (i & _ & H).
      destruct (nth_error items i) as [head|]; [|destruct H].
      apply in_map_iff in H. destruct H as (sub & <- & Hsub).
      simpl. f_equal. exact (IH _ _ Hsub).
Qed.

Lemma combinations_map {T U : Type} (g : T -> U) (k : nat) :
  forall items : list T,
    combinations (map g items) k = map (map g) (combinations items k).
Proof.
  induction k as [|k IH]; intros items; [reflexivity|].
  rewrite !combinations_S, length_map.
  destruct (length items <? S k)%nat; [reflexivity|].
  destruct (S k =? length items)%nat; [reflexivity|].
  rewrite !flat_map_concat_map, concat_map, map_map. f_equal.
  apply map_ext. intros i.
  rewrite nth_error_map. destruct (nth_error items i) as [head|]; [|reflexivity].
  cbn [option_map]. rewrite skipn_map, IH, !map_map. reflexivity.
Qed.

Lemma pairUp_nil_r (holeCombos : list (list Card)) : pairUp holeCombos [] = [].
Proof.
  unfold pairUp. induction holeCombos as [|h rest IH]; simpl; [reflexivity | exact IH].
Qed.

Lemma pairUp_In (holeCombos boardCombos : list (list Card)) (combo : list Card * list Card) :
  In combo (pairUp holeCombos boardCombos) ->
  In (fst combo) holeCombos /\ In (snd combo) boardCombos.
Proof.
  unfold pairUp. rewrite in_flat_map. intros (h & Hh & H).
  apply in_map_iff in H. destruct H as (b & <- & Hb). simpl. auto.
Qed.

Lemma pairUp_map (g : Card -> Card) (holeCombos boardCombos : list (list Card)) :
  pairUp (map (map g) holeCombos) (map (map g) boardCombos)
  = map (fun combo => (map g (fst combo), map g (snd combo)))
        (pairUp holeCombos boardCombos).
Proof.
  unfold pairUp. induction holeCombos as [|h rest IH]; simpl; [reflexivity|].
  rewrite map_app, IH, !map_map. reflexivity.
Qed.

(** Every candidate hand has five cards. *)
Lemma allCombinations_five (holeCards communityCards : list Card) (cardCount : Z)
      (combo : list Card * list Card) :
  In combo (allCombinations holeCards communityCards cardCount) ->
  length (fst combo ++ snd combo) = 5%nat.
Proof.
  unfold allCombinations. rewrite length_app.
  destruct (cardCount =? 2); [rewrite in_app_iff; intros [H | H] | intros H];
    apply pairUp_In in H; destruct H as [Hh Hb];
    apply combinations_length in Hh, Hb; lia.
Qed.

(* ================================================================= *)
(** ** The search returns *)

Lemma handRankValue_inj (a b : HandRank) : handRankValue a = handRankValue b -> a = b.
Proof. destruct a, b; simpl; intros H; try reflexivity; discriminate H. Qed.

Lemma considerCombination_returns (best : HandEvaluation) (combo : list Card * list Card) :
  searchState best ->
  length (fst combo ++ snd combo) = 5%nat ->
  exists best', considerCombination best combo = Ok best' /\ searchState best'.
Proof.
  intros Inv L. unfold considerCombination. cbv zeta.
  set (five := fst combo ++ snd combo) in *.
  assert (High : exists best1,
    (if (length (bestHighHand best) =? 0)%nat
     then Ok (mkEval five (evaluateHand five) (bestLowHand best))
     else if handRankValue (evaluateHand five) >? handRankValue (bestHighRank best)
     then Ok (mkEval five (evaluateHand five) (bestLowHand best))
     else if handRankValue (evaluateHand five) =? handRankValue (bestHighRank best)
     then (let* comparison :=
             compareHighHands five (bestHighHand best) (evaluateHand five)
           in if comparison <? 0
              then Ok (mkEval five (bestHighRank best) (bestLowHand best))
              else Ok best)
     else Ok best) = Ok best1 /\ searchState best1).
  { destruct Inv as [Empty | [L' E']].
    - rewrite Empty. simpl. eexists. split; [reflexivity|]. right. simpl. auto.
    - rewrite L'. simpl.
      destruct (_ >? _); [eexists; split; [reflexivity|]; right; simpl; auto|].
      destruct (_ =? _) eqn:Same;
        [|eexists; split; [reflexivity|]; right; simpl; auto].
      apply Z.eqb_eq, handRankValue_inj in Same.
      destruct (compare_same_category five (bestHighHand best) (evaluateHand five)
                  L L' eq_refl) as (k1 & k2 & _ & _ & _ & C); [congruence|].
      rewrite C. simpl.
      destruct (_ <? 0); eexists; (split; [reflexivity|]); right; simpl; auto. }
  destruct High as (best1 & -> & Inv1). simpl. eexists. split; [reflexivity|].
  destruct (isQualifyingLow five); [|exact Inv1].
  destruct (bestLowHand best1) as [low|]; [destruct (_ <? 0)|]; exact Inv1.
Qed.

Lemma evaluateAll_returns (combos : list (list Card * list Card)) :
  forall best,
    searchState best ->
    (forall combo, In combo combos -> length (fst combo ++ snd combo) = 5%nat) ->
    exists final, evaluateAll best combos = Ok final.
Proof.
  induction combos as [|combo rest IH]; intros best Inv All; simpl.
  - eexists. reflexivity.
  - destruct (considerCombination_returns best combo Inv) as (best' & -> & Inv').
    + apply All. left. reflexivity.
    + simpl. apply IH; [exact Inv'|]. intros x Hx. apply All. right. exact Hx.
Qed.

(** [findBestHand] throws on no input. *)
Theorem findBestHand_returns (holeCards communityCards : list Card) (cardCount : Z) :
  exists evaluation, findBestHand holeCards communityCards cardCount = Ok evaluation.
Proof.
  unfold findBestHand. apply evaluateAll_returns.
  - left. reflexivity.
  - intros combo. apply allCombinations_five.
Qed.

(* ================================================================= *)
(** ** The card identity plays no role *)

Section Renaming.
(** A change of the cards that keeps suit and rank, such as a change of
    the [id]s. *)
Variable g : Card -> Card.
Hypothesis g_rank : forall card, rank (g card) = rank card.
Hypothesis g_suit : forall card, suit (g card) = suit card.

Lemma map_rank_g (hand : list Card) : map rank (map g hand) = map rank hand.
Proof. rewrite map_map. apply map_ext. exact g_rank. Qed.

Lemma map_suit_g (hand : list Card) : map suit (map g hand) = map suit hand.
Proof. rewrite map_map. apply map_ext. exact g_suit. Qed.

Lemma evaluateHand_g (hand : list Card) : evaluateHand (map g hand) = evaluateHand hand.
Proof. unfold evaluateHand. rewrite map_rank_g, map_suit_g. reflexivity. Qed.

Lemma compareHighHands_g (hand1 hand2 : list Card) (category : HandRank) :
  compareHighHands (map g hand1) (map g hand2) category
  = compareHighHands hand1 hand2 category.
Proof. apply compareHighHands_ranks; apply map_rank_g. Qed.

Lemma isQualifyingLow_g (hand : list Card) :
  isQualifyingLow (map g hand) = isQualifyingLow hand.
Proof. apply isQualifyingLow_ranks, map_rank_g. Qed.

Lemma compareLowHands_g (hand1 hand2 : list Card) :
  compareLowHands (map g hand1) (map g hand2) = compareLowHands hand1 hand2.
Proof.
  unfold compareLowHands.
  rewrite (lowValues_ranks _ _ (map_rank_g hand1)),
          (lowValues_ranks _ _ (map_rank_g hand2)).
  reflexivity.
Qed.

Lemma considerCombination_g (best : HandEvaluation) (combo : list Card * list Card) :
  considerCombination (mapEvaluation g best) (map g (fst combo), map g (snd combo))
  = result_map (mapEvaluation g) (considerCombination best combo).
Proof.
  unfold considerCombination. cbv zeta. simpl fst. simpl snd.
  rewrite <- map_app. set (five := fst combo ++ snd combo).
  rewrite evaluateHand_g, isQualifyingLow_g.
  destruct best as [high category low]. unfold mapEvaluation.
  cbn [bestHighHand bestHighRank bestLowHand].
  rewrite length_map, compareHighHands_g.
  destruct (length high =? 0)%nat; cbn [bind result_map].
  - destruct (isQualifyingLow five); [|reflexivity].
    cbn [bestHighHand bestHighRank bestLowHand].
    destruct low as [low|]; cbn [option_map]; [|reflexivity].
    rewrite compareLowHands_g. destruct (_ <? 0); reflexivity.
  - destruct (_ >? _); cbn [bind result_map].
    + destruct (isQualifyingLow five); [|reflexivity].
      cbn [bestHighHand bestHighRank bestLowHand].
      destruct low as [low|]; cbn [option_map]; [|reflexivity].
      rewrite compareLowHands_g. destruct (_ <? 0); reflexivity.
    + destruct (_ =? _); cbn [bind result_map].
      * destruct (compareHighHands five high (evaluateHand five)) as [z|e];
          cbn [bind result_map]; [|reflexivity].
        destruct (z <? 0); cbn [bind result_map];
          (destruct (isQualifyingLow five); [|reflexivity]);
          cbn [bestHighHand bestHighRank bestLowHand];
          (destruct low as [low|]; cbn [option_map]; [|reflexivity]);
          rewrite compareLowHands_g; destruct (_ <? 0); reflexivity.
      * destruct (isQualifyingLow five); [|reflexivity].
        cbn [bestHighHand bestHighRank bestLowHand].
        destruct low as [low|]; cbn [option_map]; [|reflexivity].
        rewrite compareLowHands_g. destruct (_ <? 0); reflexivity.
Qed.

Lemma evaluateAll_g (combos : list (list Card * list Card)) :
  forall best,
    evaluateAll (mapEvaluation g best)
                (map (fun combo => (map g (fst combo), map g (snd combo))) combos)
    = result_map (mapEvaluation g) (evaluateAll best combos).
Proof.
  induction combos as [|combo rest IH]; intros best; simpl; [reflexivity|].
  rewrite considerCombination_g.
  destruct (considerCombination best combo) as [best'|e]; simpl; [apply IH | reflexivity].
Qed.

Lemma allCombinations_g (holeCards communityCards : list Card) (cardCount : Z) :
  allCombinations (map g holeCards) (map g communityCards) cardCount
  = map (fun combo => (map g (fst combo), map g (snd combo)))
        (allCombinations holeCards communityCards cardCount).
Proof.
  unfold allCombinations. rewrite !combinations_map, !pairUp_map.
  destruct (cardCount =? 2); [rewrite map_app|]; reflexivity.
Qed.

Lemma findBestHand_g (holeCards communityCards : list Card) (cardCount : Z) :
  findBestHand (map g holeCards) (map g communityCards) cardCount
  = result_map (mapEvaluation g) (findBestHand holeCards communityCards cardCount).
Proof.
  unfold findBestHand. rewrite allCombinations_g.
  exact (evaluateAll_g _ (mkEval [] HighCard None)).
Qed.
End Renaming.

Lemma anonymous_content (cards cards' : list Card) :
  map content cards = map content cards' -> map anonymous cards = map anonymous cards'.
Proof.
  intros H.
  assert (E : forall l, map anonymous l
                        = map (fun sr => mkCard EmptyString (fst sr) (snd sr)) (map content l)).
  { intros l. rewrite map_map. reflexivity. }
  rewrite !E, H. reflexivity.
Qed.

Lemma evaluationContent_anonymous (e : HandEvaluation) :
  evaluationContent (mapEvaluation anonymous e) = evaluationContent e.
Proof.
  destruct e as [high category low]. unfold evaluationContent, mapEvaluation. simpl.
  rewrite map_map. destruct low as [low|]; simpl; [rewrite map_map|]; reflexivity.
Qed.

(** C9. Two calls of [findBestHand] whose hole cards and community cards
    are pointwise equal in suit and rank, whatever the ids, both return, and
    their Evaluations are equal by value: same category, same (Suit, Rank)
    sequence of the best high hand, same best low hand or none in both.  In
    particular the same call twice gives the same Evaluation. *)
Theorem findBestHand_ignores_id
        (holeCards holeCards' communityCards communityCards' : list Card) (cardCount : Z) :
  map content holeCards = map content holeCards' ->
  map content communityCards = map content communityCards' ->
  exists e e',
    findBestHand holeCards communityCards cardCount = Ok e
    /\ findBestHand holeCards' communityCards' cardCount = Ok e'
    /\ evaluationContent e = evaluationContent e'.
Proof.
  intros Hh Hc.
  destruct (findBestHand_returns holeCards communityCards cardCount) as [e E].
  destruct (findBestHand_returns holeCards' communityCards' cardCount) as [e' E'].
  exists e, e'. split; [exact E|]. split; [exact E'|].
  pose proof (findBestHand_g anonymous (fun _ => eq_refl) (fun _ => eq_refl)
                holeCards communityCards cardCount) as G.
  pose proof (findBestHand_g anonymous (fun _ => eq_refl) (fun _ => eq_refl)
                holeCards' communityCards' cardCount) as G'.
  rewrite (anonymous_content _ _ Hh), (anonymous_content _ _ Hc), G', E, E' in G.
  cbn [result_map] in G.
  assert (Same : mapEvaluation anonymous e = mapEvaluation anonymous e') by congruence.
  rewrite <- (evaluationContent_anonymous e), <- (evaluationContent_anonymous e'), Same.
  reflexivity.
Qed.

Lemma findBestHand_ignores_id_witness :
  exists e e',
    findBestHand holeA board 2 = Ok e
    /\ findBestHand holeB board 2 = Ok e'
    /\ evaluationContent e = evaluationContent e'.
Proof.
  apply (findBestHand_ignores_id holeA holeB board board 2); reflexivity.
Defined.

(* ================================================================= *)
(** ** Too few cards *)

Lemma pairUp_none (holeCards communityCards : list Card) (m n : nat) :
  ~ (m <= length holeCards /\ n <= length communityCards)%nat ->
  pairUp (combinations holeCards m) (combinations communityCards n) = [].
Proof.
  intros H.
  destruct (Nat.le_gt_cases m (length holeCards)) as [Hm | Hm].
  - rewrite (combinations_too_few communityCards n) by lia. apply pairUp_nil_r.
  - rewrite (combinations_too_few holeCards m) by lia. reflexivity.
Qed.

(** C1 fails: one hole card and three community cards in an Omaha game
    (two hole cards required) give no error but the empty Evaluation. *)
Lemma insufficient_cards_counterexample :
  insufficientCards [card Spades RA] [card Diamonds RA; card Clubs RA; card Spades RK] 4
  /\ findBestHand [card Spades RA] [card Diamonds RA; card Clubs RA; card Spades RK] 4
     = Ok (mkEval [] HighCard None).
Proof.
  split; [|reflexivity].
  unfold insufficientCards. simpl. lia.
Qed.

(** C1, amended. Whenever the hole cards and community cards supply no
    legal split for the card count, [findBestHand] raises no error and
    returns the Evaluation with an empty best high hand, category HighCard
    and no low hand. *)
Theorem findBestHand_insufficient (holeCards communityCards : list Card) (cardCount : Z) :
  insufficientCards holeCards communityCards cardCount ->
  findBestHand holeCards communityCards cardCount = Ok (mkEval [] HighCard None).
Proof.
  unfold insufficientCards, findBestHand, allCombinations.
  destruct (cardCount =? 2).
  - intros [H14 H23]. rewrite (pairUp_none _ _ 1 4 H14), (pairUp_none _ _ 2 3 H23).
    reflexivity.
  - intros H23. rewrite (pairUp_none _ _ 2 3 H23). reflexivity.
Qed.

Lemma findBestHand_insufficient_witness :
  findBestHand [card Clubs R2; card Diamonds R7] [card Spades R3; card Spades R4] 2
  = Ok (mkEval [] HighCard None).
Proof.
  apply (findBestHand_insufficient
           [card Clubs R2; card Diamonds R7] [card Spades R3; card Spades R4] 2).
  unfold insufficientCards. simpl. lia.
Defined.

(* ================================================================= *)
(** ** The 2-7 example *)

(** C2 fails: the best high hand is the straight to the 7, which holds no
    2, and the low hand is not rendered as 76542. *)
Lemma straight_to_the_seven_counterexample :
  (exists e, findBestHand hole27 board 2 = Ok e
             /\ map rank (bestHighHand e) = [R7; R3; R4; R5; R6]
             /\ ~ In R2 (map rank (bestHighHand e)))
  /\ getLowHandDescription hole27 board 2 <> Ok "76542"%string.
Proof.
  split.
  - exists (mkEval
              [card Diamonds R7; card Spades R3; card Spades R4; card Spades R5;
               card Spades R6]
              Straight
              (Some [card Clubs R2; card Spades R3; card Spades R4; card Spades R5;
                     card Spades R6])).
    split; [vm_compute; reflexivity|]. split; [reflexivity|].
    simpl. intuition discriminate.
  - vm_compute. discriminate.
Qed.

(** C2, amended. On hole cards 2c 7d and board 3s 4s 5s 6s 9h with card
    count 2, the candidates are the 10 hands of one hole card with four
    board cards followed by the 10 hands of both hole cards with three board
    cards; the best high hand is the straight 3-4-5-6-7 (7d 3s 4s 5s 6s),
    category Straight; the best low hand is 2c 3s 4s 5s 6s and renders as
    65432. *)
Theorem findBestHand_hole27 :
  map (fun combo => (length (fst combo), length (snd combo)))
      (allCombinations hole27 board 2)
  = repeat (1%nat, 4%nat) 10 ++ repeat (2%nat, 3%nat) 10
  /\ findBestHand hole27 board 2
     = Ok (mkEval
             [card Diamonds R7; card Spades R3; card Spades R4; card Spades R5;
              card Spades R6]
             Straight
             (Some [card Clubs R2; card Spades R3; card Spades R4; card Spades R5;
                    card Spades R6]))
  /\ getLowHandDescription hole27 board 2 = Ok "65432"%string.
Proof. repeat split; vm_compute; reflexivity. Qed.

(* ================================================================= *)
(** ** Hands that are not five distinct cards *)

Lemma compareFrom_range (better : jsnum -> jsnum -> bool) (n : nat) :
  forall i values1 values2,
    let z := compareFrom better n i values1 values2 in z = -1 \/ z = 0 \/ z = 1.
Proof.
  induction n as [|n IH]; intros i values1 values2; simpl; [auto|].
  destruct (better _ _); [auto|]. destruct (better _ _); [auto|]. apply IH.
Qed.

Lemma decide_range (v1 v2 : jsnum) (otherwise : result Z) :
  inRange otherwise -> inRange (decide v1 v2 otherwise).
Proof.
  intros H. unfold decide.
  destruct (js_gt v1 v2); [exists (-1); auto|].
  destruct (js_lt v1 v2); [exists 1; auto | exact H].
Qed.

Lemma decide_throws (v1 v2 : jsnum) (otherwise : result Z) (e : exn) :
  decide v1 v2 otherwise = Throw e -> otherwise = Throw e.
Proof.
  unfold decide. destruct (js_gt v1 v2); [discriminate|].
  destruct (js_lt v1 v2); [discriminate | tauto].
Qed.

Lemma getRepeatedRank_throws (hand : list Card) (count : Z) (e : exn) :
  getRepeatedRank hand count = Throw e -> e = NoRankWithCount count.
Proof.
  unfold getRepeatedRank. destruct (find _ _) as [[r n]|]; [discriminate|].
  intros H. injection H as <-. reflexivity.
Qed.

(** C8 fails: the empty hand, a 4-card hand and a hand of one card five
    times are classified, and compared, without any error. *)
Lemma malformed_hand_counterexample :
  evaluateHand [] = Straight
  /\ evaluateHand fourSpades = StraightFlush
  /\ evaluateHand fiveTimesAceOfSpades = Flush
  /\ compareHighHands [] [] HighCard = Ok 0
  /\ compareHighHands fourSpades [] HighCard = Ok 0
  /\ compareHighHands fiveTimesAceOfSpades fourSpades Flush = Ok (-1).
Proof. repeat split; vm_compute; reflexivity. Qed.

(** The calls of [getRepeatedRank] at the head of a case of the
    comparator: what is thrown is its error for [count], or comes from what
    follows. *)
Lemma repeated_ranks_throw {A : Type} (hand1 hand2 : list Card) (count : Z)
      (continue : Rank -> Rank -> result A) (e : exn) :
  (let* r1 := getRepeatedRank hand1 count in
   let* r2 := getRepeatedRank hand2 count in
   continue r1 r2) = Throw e ->
  e = NoRankWithCount count \/ exists r1 r2, continue r1 r2 = Throw e.
Proof.
  destruct (getRepeatedRank hand1 count) as [r1|e1] eqn:E1; cbn [bind].
  - destruct (getRepeatedRank hand2 count) as [r2|e2] eqn:E2; cbn [bind].
    + intros H. right. exists r1, r2. exact H.
    + intros H. injection H as <-. left. exact (getRepeatedRank_throws _ _ _ E2).
  - intros H. injection H as <-. left. exact (getRepeatedRank_throws _ _ _ E1).
Qed.

(** C8, amended. The classifier and the comparator do not check that a
    hand is five distinct cards.  [evaluateHand] returns a category for every
    sequence of cards (Straight for the empty one).  For every two sequences
    of cards [compareHighHands] returns a value in {-1, 0, 1} in the
    categories RoyalFlush, Flush, HighCard and TwoPair.  In the other
    categories it can raise, as it does when the first hand is empty, and
    then only: for Straight and StraightFlush the error of taking the high
    card of an empty hand, one of the hands being empty; for FourOfAKind,
    ThreeOfAKind and OnePair the error of [getRepeatedRank] for the count 4,
    3 and 2; for FullHouse that error for the count 3 or the count 2. *)
Theorem comparator_does_not_validate (hand1 hand2 : list Card) :
  (forall category,
     category = RoyalFlush \/ category = Flush \/ category = HighCard
     \/ category = TwoPair ->
     inRange (compareHighHands hand1 hand2 category))
  /\ (forall category e,
        category = Straight \/ category = StraightFlush ->
        compareHighHands hand1 hand2 category = Throw e ->
        e = ReduceOfEmptyArray /\ (hand1 = [] \/ hand2 = []))
  /\ (forall e, compareHighHands hand1 hand2 FourOfAKind = Throw e ->
                e = NoRankWithCount 4)
  /\ (forall e, compareHighHands hand1 hand2 FullHouse = Throw e ->
                e = NoRankWithCount 3 \/ e = NoRankWithCount 2)
  /\ (forall e, compareHighHands hand1 hand2 ThreeOfAKind = Throw e ->
                e = NoRankWithCount 3)
  /\ (forall e, compareHighHands hand1 hand2 OnePair = Throw e ->
                e = NoRankWithCount 2)
  /\ (compareHighHands [] hand2 Straight = Throw ReduceOfEmptyArray
      /\ compareHighHands [] hand2 StraightFlush = Throw ReduceOfEmptyArray
      /\ compareHighHands [] hand2 FourOfAKind = Throw (NoRankWithCount 4)
      /\ compareHighHands [] hand2 FullHouse = Throw (NoRankWithCount 3)
      /\ compareHighHands [] hand2 ThreeOfAKind = Throw (NoRankWithCount 3)
      /\ compareHighHands [] hand2 OnePair = Throw (NoRankWithCount 2))
  /\ evaluateHand [] = Straight.
Proof.
  split; [|split; [|split; [|split; [|split; [|split; [|split]]]]]].
  - intros category [-> | [-> | [-> | ->]]]; unfold compareHighHands; cbv zeta.
    + exists 0. auto.
    + eexists. split; [reflexivity | apply compareFrom_range].
    + eexists. split; [reflexivity | apply compareFrom_range].
    + repeat apply decide_range. exists 0. auto.
  - assert (Straights : forall e,
      compareHighHands hand1 hand2 Straight = Throw e ->
      e = ReduceOfEmptyArray /\ (hand1 = [] \/ hand2 = [])).
    { intros e. unfold compareHighHands.
      destruct (getStraightHighCard_cases hand1) as [[h1 ->] | [-> E1]];
        cbn [bind]; [|intros H; injection H as <-; auto].
      destruct (getStraightHighCard_cases hand2) as [[h2 ->] | [-> E2]];
        cbn [bind rankOf]; [|intros H; injection H as <-; auto].
      intros H. apply decide_throws in H. discriminate H. }
    intros category e [-> | ->]; exact (Straights e).
  - intros e H. unfold compareHighHands in H.
    apply repeated_ranks_throw in H. destruct H as [E | (quad1 & quad2 & H)]; [exact E|].
    cbv zeta in H. repeat apply decide_throws in H. discriminate H.
  - intros e H. unfold compareHighHands in H.
    apply repeated_ranks_throw in H. destruct H as [E | (trip1 & trip2 & H)]; [left; exact E|].
    apply decide_throws in H.
    apply repeated_ranks_throw in H. destruct H as [E | (pair1 & pair2 & H)]; [right; exact E|].
    apply decide_throws in H. discriminate H.
  - intros e H. unfold compareHighHands in H.
    apply repeated_ranks_throw in H. destruct H as [E | (trip1 & trip2 & H)]; [exact E|].
    cbv zeta in H. apply decide_throws in H. discriminate H.
  - intros e H. unfold compareHighHands in H.
    apply repeated_ranks_throw in H. destruct H as [E | (pair1 & pair2 & H)]; [exact E|].
    cbv zeta in H. apply decide_throws in H. discriminate H.
  - repeat split; reflexivity.
  - reflexivity.
Qed.

Lemma comparator_does_not_validate_witness :
  inRange (compareHighHands fourSpades [] HighCard)
  /\ compareHighHands [] fourSpades FourOfAKind = Throw (NoRankWithCount 4)
  /\ compareHighHands [] fourSpades Straight = Throw ReduceOfEmptyArray.
Proof.
  split; [|split].
  - apply (proj1 (comparator_does_not_validate fourSpades [])). tauto.
  - apply (comparator_does_not_validate [] fourSpades).
  - apply (comparator_does_not_validate [] fourSpades).
Defined.

(* ================================================================= *)
(** ** The combination generator as Pascal's recursion *)

Lemma combinations_all {T : Type} (items : list T) :
  combinations items (length items) = [items].
Proof.
  destruct items as [|x rest]; [reflexivity|].
  cbn [length]. rewrite combinations_S. cbn [length].
  rewrite Nat.ltb_irrefl, Nat.eqb_refl. reflexivity.
Qed.

(** The body of the loop over [i]. *)
Lemma combinations_loop {T : Type} (items : list T) (k : nat) :
  (S k <= length items)%nat ->
  combinations items (S k)
  = flat_map
      (fun i =>
         match nth_error items i with
         | Some head => map (cons head) (combinations (skipn (i + 1) items) k)
         | None => []
         end)
      (seq 0 (length items - S k + 1)).
Proof.
  intros H. rewrite combinations_S.
  destruct (Nat.ltb_spec (length items) (S k)); [lia|].
  destruct (Nat.eqb_spec (S k) (length items)) as [E|E]; [|reflexivity].
  rewrite <- E, Nat.sub_diag. simpl.
  destruct items as [|head tail]; [discriminate E|]. simpl.
  injection E as E. rewrite E, combinations_all. reflexivity.
Qed.

Lemma combinations_cons {T : Type} (x : T) (rest : list T) (k : nat) :
  combinations (x :: rest) (S k)
  = map (cons x) (combinations rest k) ++ combinations rest (S k).
Proof.
  destruct (Nat.lt_ge_cases (length rest) k) as [Few | Enough].
  - rewrite (combinations_too_few (x :: rest) (S k)) by (simpl; lia).
    rewrite (combinations_too_few rest k) by lia.
    rewrite (combinations_too_few rest (S k)) by lia. reflexivity.
  - rewrite combinations_loop by (simpl; lia).
    cbn [length].
    replace (S (length rest) - S k + 1)%nat with (S (length rest - k)) by lia.
    rewrite <- cons_seq, <- seq_shift. cbn [flat_map nth_error].
    change (skipn (0 + 1) (x :: rest)) with rest. f_equal.
    rewrite flat_map_concat_map, map_map, <- flat_map_concat_map.
    destruct (Nat.eq_dec (length rest) k) as [E | NE].
    + rewrite (combinations_too_few rest (S k)) by lia.
      rewrite E, Nat.sub_diag. reflexivity.
    + rewrite (combinations_loop rest k) by lia.
      replace (length rest - S k + 1)%nat with (length rest - k)%nat by lia.
      apply flat_map_ext. intros i. reflexivity.
Qed.

(** X1. [combinations] obeys Pascal's recursion: the subsets of size
    [k + 1] of [x :: rest] are those of size [k] of [rest] with [x] in
    front, followed by those of size [k + 1] of [rest]; size 0 gives the one
    empty subset and the empty array has no subset of positive size. *)
Theorem combinations_pascal {T : Type} (x : T) (rest : list T) (k : nat) :
  combinations (x :: rest) (S k)
  = map (cons x) (combinations rest k) ++ combinations rest (S k)
  /\ combinations rest 0 = [[]]
  /\ combinations (@nil T) (S k) = [].
Proof.
  split; [apply combinations_cons | split; reflexivity].
Qed.

(** X2. [combinations(items, k)] has as many subsets as the binomial
    coefficient of [items.length] and [k]. *)
Theorem combinations_count {T : Type} (items : list T) :
  forall k, length (combinations items k) = choose (length items) k.
Proof.
  induction items as [|x rest IH]; intros [|k]; try reflexivity.
  rewrite combinations_cons, length_app, length_map, !IH. reflexivity.
Qed.

Lemma Subsequence_length {T : Type} (sub items : list T) :
  Subsequence sub items -> (length sub <= length items)%nat.
Proof. induction 1; simpl; lia. Qed.

Lemma Subsequence_In {T : Type} (sub items : list T) :
  Subsequence sub items -> forall y, In y sub -> In y items.
Proof.
  induction 1 as [|x sub items _ IH|x sub items _ IH]; intros y Hy.
  - exact Hy.
  - destruct Hy as [<- | Hy]; [left; reflexivity | right; exact (IH y Hy)].
  - right. exact (IH y Hy).
Qed.

Lemma Subsequence_nil_l {T : Type} (items : list T) : Subsequence [] items.
Proof. induction items; constructor; assumption. Qed.

Lemma combinations_In_iff {T : Type} (items : list T) :
  forall k sub,
    In sub (combinations items k) <-> Subsequence sub items /\ length sub = k.
Proof.
  induction items as [|x rest IH]; intros [|k] sub.
  - simpl. split.
    + intros [<- | []]. split; [constructor | reflexivity].
    + intros [_ L]. destruct sub; [left; reflexivity | discriminate L].
  - simpl. split; [intros [] | intros [S L]]. inversion S; subst. discriminate L.
  - change (combinations (x :: rest) 0) with [@nil T]. split.
    + intros [<- | []]. split; [apply Subsequence_nil_l | reflexivity].
    + intros [_ L]. destruct sub; [left; reflexivity | discriminate L].
  - rewrite combinations_cons, in_app_iff, in_map_iff. split.
    + intros [(sub' & <- & H) | H].
      * apply IH in H. destruct H as [S L]. split; [constructor; exact S | simpl; lia].
      * apply IH in H. destruct H as [S L]. split; [constructor; exact S | exact L].
    + intros [S L]. inversion S as [|y sub' items' S' |y sub' items' S']; subst.
      * left. exists sub'. split; [reflexivity|]. apply IH. split; [exact S'|].
        simpl in L. lia.
      * right. apply IH. split; assumption.
Qed.

(** X3. The subsets that [combinations(items, k)] returns are exactly the
    subsequences of [items] (elements left out, order kept) of length [k]. *)
Theorem combinations_exact {T : Type} (items : list T) (k : nat) (sub : list T) :
  In sub (combinations items k) <-> Subsequence sub items /\ length sub = k.
Proof. apply combinations_In_iff. Qed.

Lemma NoDup_map_cons {T : Type} (x : T) (subsets : list (list T)) :
  NoDup subsets -> NoDup (map (cons x) subsets).
Proof.
  induction 1 as [|sub subsets Hnot _ IH]; simpl; constructor; [|exact IH].
  intros Hin. apply in_map_iff in Hin. destruct Hin as (sub' & E & Hin').
  injection E as ->. exact (Hnot Hin').
Qed.

(** X4. On an array without duplicates no subset is returned twice. *)
Theorem combinations_NoDup {T : Type} (items : list T) :
  NoDup items -> forall k, NoDup (combinations items k).
Proof.
  induction items as [|x rest IH]; intros ND [|k].
  - repeat constructor. intros [].
  - constructor.
  - repeat constructor. intros [].
  - inversion ND as [|? ? Hx ND']; subst.
    rewrite combinations_cons. apply NoDup_app.
    + apply NoDup_map_cons, IH. exact ND'.
    + apply IH. exact ND'.
    + intros sub Hin1 Hin2. apply in_map_iff in Hin1. destruct Hin1 as (sub' & <- & _).
      apply combinations_In_iff in Hin2. destruct Hin2 as [S _].
      apply Hx. apply (Subsequence_In _ _ S). left. reflexivity.
Qed.

Lemma combinations_NoDup_witness : NoDup (combinations [1; 2; 3; 4; 5] 3).
Proof.
  apply (combinations_NoDup [1; 2; 3; 4; 5]).
  repeat (constructor; [simpl; intuition discriminate|]). constructor.
Defined.

(* ================================================================= *)
(** ** The comparators as orders *)

Lemma lexCompare_antisym (k1 : list Z) :
  forall k2, lexCompare k2 k1 = - lexCompare k1 k2.
Proof.
  induction k1 as [|a k1 IH]; intros [|b k2]; simpl; try reflexivity.
  destruct (Z.ltb_spec b a), (Z.ltb_spec a b); try lia; try reflexivity.
  apply IH.
Qed.

Lemma lexCompare_eq (k1 : list Z) :
  forall k2, length k1 = length k2 -> lexCompare k1 k2 = 0 -> k1 = k2.
Proof.
  induction k1 as [|a k1 IH]; intros [|b k2] L; simpl in *; try discriminate;
    [reflexivity|].
  destruct (Z.ltb_spec b a) as [Hba|Hba]; [discriminate|].
  destruct (Z.ltb_spec a b) as [Hab|Hab]; [discriminate|].
  intros Hz. f_equal; [lia | apply IH; [lia | exact Hz]].
Qed.

(** [0 <= lexCompare k1 k2] says that [k1] is at most [k2]. *)
Lemma lexCompare_le_trans (k1 : list Z) :
  forall k2 k3,
    length k1 = length k2 -> length k2 = length k3 ->
    0 <= lexCompare k1 k2 -> 0 <= lexCompare k2 k3 -> 0 <= lexCompare k1 k3.
Proof.
  induction k1 as [|a k1 IH]; intros [|b k2] [|d k3] L12 L23; simpl in *;
    try discriminate; try lia.
  destruct (Z.ltb_spec b a), (Z.ltb_spec a b), (Z.ltb_spec d b), (Z.ltb_spec b d),
           (Z.ltb_spec d a), (Z.ltb_spec a d); try lia.
  apply (IH k2 k3); lia.
Qed.

Lemma compareFrom_swap (better : jsnum -> jsnum -> bool) (n : nat) :
  (forall a b, better a b = true -> better b a = false) ->
  forall i values1 values2,
    compareFrom better n i values2 values1 = - compareFrom better n i values1 values2.
Proof.
  intros asym. induction n as [|n IH]; intros i values1 values2; simpl; [reflexivity|].
  destruct (better (index values1 i) (index values2 i)) eqn:A.
  - rewrite (asym _ _ A). reflexivity.
  - destruct (better (index values2 i) (index values1 i)); [reflexivity | apply IH].
Qed.

Lemma compareFrom_same (better : jsnum -> jsnum -> bool) (n : nat) :
  (forall a, better a a = false) ->
  forall i values, compareFrom better n i values values = 0.
Proof.
  intros irrefl. induction n as [|n IH]; intros i values; simpl; [reflexivity|].
  rewrite irrefl. apply IH.
Qed.

Lemma js_lt_asym (a b : jsnum) : js_lt a b = true -> js_lt b a = false.
Proof.
  destruct a as [| |x], b as [| |y]; simpl; try discriminate; try reflexivity.
  intros H. apply Z.ltb_lt in H. apply Z.ltb_ge. lia.
Qed.

Lemma js_lt_irrefl (a : jsnum) : js_lt a a = false.
Proof. destruct a; simpl; try reflexivity. apply Z.ltb_irrefl. Qed.

Lemma compareFrom_lt_gt (n : nat) :
  forall i values1 values2,
    compareFrom js_lt n i values1 values2 = compareFrom js_gt n i values2 values1.
Proof.
  induction n as [|n IH]; intros i values1 values2; simpl; [reflexivity|].
  unfold js_gt. rewrite IH. reflexivity.
Qed.

Lemma length_lowValues (hand : list Card) : length (lowValues hand) = length hand.
Proof. unfold lowValues. rewrite length_sort, length_map. reflexivity. Qed.

(** On 5-card hands [compareLowHands] compares the low values, highest
    first, lexicographically. *)
Lemma compareLowHands_lex (hand1 hand2 : list Card) :
  length hand1 = 5%nat -> length hand2 = 5%nat ->
  compareLowHands hand1 hand2 = lexCompare (lowValues hand2) (lowValues hand1).
Proof.
  intros L1 L2. unfold compareLowHands. cbv zeta.
  fold (lowValues hand1). fold (lowValues hand2).
  rewrite compareFrom_lt_gt.
  apply (compareFrom_lex 5); rewrite length_lowValues; assumption.
Qed.

Lemma compareLowHands_swap (hand1 hand2 : list Card) :
  compareLowHands hand2 hand1 = - compareLowHands hand1 hand2
  /\ compareLowHands hand1 hand1 = 0.
Proof.
  unfold compareLowHands. cbv zeta. split.
  - apply compareFrom_swap. exact js_lt_asym.
  - apply compareFrom_same. exact js_lt_irrefl.
Qed.

(** X5. For all hands, of any size, [compareLowHands] is antisymmetric,
    the result for swapped arguments being the negated one, and a hand
    compares as 0 with itself. *)
Theorem compareLowHands_antisymmetric (hand1 hand2 : list Card) :
  compareLowHands hand2 hand1 = - compareLowHands hand1 hand2
  /\ compareLowHands hand1 hand1 = 0.
Proof. apply compareLowHands_swap. Qed.

(** X6. On 5-card hands [compareLowHands] is a total preorder read off
    the low values sorted highest first: -1 is transitive, the result is 0
    exactly when the two sorted lists of low values are equal, which is
    also what [areLowHandsEqual] tests, and a hand that ties with another
    compares with every third hand as the other does. *)
Theorem compareLowHands_order (A B C : list Card) :
  length A = 5%nat -> length B = 5%nat -> length C = 5%nat ->
  (compareLowHands A B = -1 -> compareLowHands B C = -1 -> compareLowHands A C = -1)
  /\ (compareLowHands A B = 0 <-> lowValues A = lowValues B)
  /\ (areLowHandsEqual A B = true <-> lowValues A = lowValues B)
  /\ (compareLowHands A B = 0 -> compareLowHands A C = compareLowHands B C).
Proof.
  intros LA LB LC.
  assert (Zero : compareLowHands A B = 0 <-> lowValues A = lowValues B).
  { rewrite compareLowHands_lex by assumption. split.
    - intros H. symmetry. apply lexCompare_eq; [|exact H].
      rewrite !length_lowValues. congruence.
    - intros ->. apply lexCompare_refl. }
  split; [|split; [exact Zero | split]].
  - rewrite !compareLowHands_lex by assumption. intros H1 H2.
    apply (lexCompare_trans (lowValues C) (lowValues B) (lowValues A));
      rewrite ?length_lowValues; congruence.
  - unfold areLowHandsEqual. rewrite Z.eqb_eq. exact Zero.
  - intros H. apply Zero in H. rewrite !compareLowHands_lex by assumption.
    rewrite H. reflexivity.
Qed.

Lemma compareLowHands_order_witness :
  (compareLowHands mixedWheel suitedStraight = -1 ->
   compareLowHands suitedStraight pairedSevens = -1 ->
   compareLowHands mixedWheel pairedSevens = -1)
  /\ (compareLowHands mixedWheel suitedStraight = 0
      <-> lowValues mixedWheel = lowValues suitedStraight)
  /\ (areLowHandsEqual mixedWheel suitedStraight = true
      <-> lowValues mixedWheel = lowValues suitedStraight)
  /\ (compareLowHands mixedWheel suitedStraight = 0 ->
      compareLowHands mixedWheel pairedSevens
      = compareLowHands suitedStraight pairedSevens).
Proof.
  apply (compareLowHands_order mixedWheel suitedStraight pairedSevens); reflexivity.
Defined.

(** X7. On 5-card hands of one category [compareHighHands] is
    antisymmetric, the result for swapped arguments being the negated one,
    and two hands that tie compare with every third hand of the category
    alike, in either argument position. *)
Theorem compareHighHands_total_preorder (A B C : list Card) (category : HandRank) :
  length A = 5%nat -> length B = 5%nat -> length C = 5%nat ->
  evaluateHand A = category -> evaluateHand B = category ->
  evaluateHand C = category ->
  (exists z, compareHighHands A B category = Ok z
             /\ compareHighHands B A category = Ok (- z))
  /\ (compareHighHands A B category = Ok 0 ->
      compareHighHands A C category = compareHighHands B C category
      /\ compareHighHands C A category = compareHighHands C B category).
Proof.
  intros LA LB LC EA EB EC.
  destruct (compare_same_category _ _ _ LA LB EA EB) as (ka & kb & KA & KB & Lab & Cab).
  destruct (key_defined C LC) as [kc KC]. rewrite EC in KC.
  destruct (compare_by_key _ _ _ _ _ KB KA) as [Cba _].
  destruct (compare_by_key _ _ _ _ _ KA KC) as [Cac _].
  destruct (compare_by_key _ _ _ _ _ KB KC) as [Cbc _].
  destruct (compare_by_key _ _ _ _ _ KC KA) as [Cca _].
  destruct (compare_by_key _ _ _ _ _ KC KB) as [Ccb _].
  split.
  - exists (lexCompare ka kb). split; [exact Cab|].
    rewrite Cba, lexCompare_antisym. reflexivity.
  - rewrite Cab. intros H. injection H as H.
    apply lexCompare_eq in H; [|exact Lab]. subst kb.
    rewrite Cac, Cbc, Cca, Ccb. split; reflexivity.
Qed.

Lemma compareHighHands_total_preorder_witness :
  (exists z, compareHighHands pairOfAces pairOfKings OnePair = Ok z
             /\ compareHighHands pairOfKings pairOfAces OnePair = Ok (- z))
  /\ (compareHighHands pairOfAces pairOfKings OnePair = Ok 0 ->
      compareHighHands pairOfAces pairOfQueens OnePair
      = compareHighHands pairOfKings pairOfQueens OnePair
      /\ compareHighHands pairOfQueens pairOfAces OnePair
         = compareHighHands pairOfQueens pairOfKings OnePair).
Proof.
  apply (compareHighHands_total_preorder pairOfAces pairOfKings pairOfQueens OnePair);
    reflexivity.
Defined.

(* ================================================================= *)
(** ** The search finds the best hands *)

Lemma considerCombination_steps (best : HandEvaluation) (combo : list Card * list Card) :
  considerCombination best combo
  = let* best1 := updateHigh best (fst combo ++ snd combo) in
    Ok (updateLow best1 (fst combo ++ snd combo)).
Proof. reflexivity. Qed.

Lemma notBetterHigh_refl (hand : list Card) :
  length hand = 5%nat -> notBetterHigh hand hand.
Proof.
  intros L. right. split; [reflexivity|].
  destruct (compare_same_category hand hand _ L L eq_refl eq_refl)
    as (k1 & k2 & K1 & K2 & _ & C).
  assert (k2 = k1) by congruence. subst k2.
  exists 0. rewrite C, lexCompare_refl. split; [reflexivity | lia].
Qed.

(** A hand that strictly beats [best] is not beaten by what [best] is not
    beaten by. *)
Lemma notBetterHigh_replace (hand best five : list Card) (z : Z) :
  length hand = 5%nat -> length best = 5%nat -> length five = 5%nat ->
  evaluateHand five = evaluateHand best ->
  compareHighHands five best (evaluateHand five) = Ok z -> z < 0 ->
  notBetterHigh hand best -> notBetterHigh hand five.
Proof.
  intros Lh Lb Lf Same C Neg [Lower | [Eq (zc & Cc & Pos)]].
  - left. rewrite Same. exact Lower.
  - right. split; [congruence|].
    destruct (compare_same_category five best _ Lf Lb eq_refl (eq_sym Same))
      as (kf & kb & Kf & Kb & Lfb & Cfb).
    rewrite Same in Kf, Kb, Cfb, C.
    destruct (key_defined hand Lh) as [kh Kh]. rewrite Eq in Kh.
    destruct (compare_by_key _ _ _ _ _ Kh Kb) as [Chb Lhb].
    destruct (compare_by_key _ _ _ _ _ Kh Kf) as [Chf Lhf].
    rewrite Same. exists (lexCompare kh kf). split; [exact Chf|].
    apply (lexCompare_le_trans kh kb kf); [exact Lhb | congruence | |].
    + rewrite Chb in Cc. injection Cc as <-. exact Pos.
    + rewrite Cfb in C. injection C as <-.
      rewrite (lexCompare_antisym kf kb). lia.
Qed.

Lemma updateHigh_best (seen : list (list Card)) (best : HandEvaluation)
      (five : list Card) :
  (forall hand, In hand seen -> length hand = 5%nat) ->
  length five = 5%nat ->
  bestHighOf seen best ->
  exists best1,
    updateHigh best five = Ok best1
    /\ bestLowHand best1 = bestLowHand best
    /\ bestHighOf (seen ++ [five]) best1.
Proof.
  intros Lseen Lf Inv. unfold updateHigh. cbv zeta.
  destruct Inv as [[-> Empty] | (Hin & Cat & Best)].
  - rewrite Empty. simpl. eexists. split; [reflexivity|]. split; [reflexivity|].
    right. simpl. split; [left; reflexivity|]. split; [reflexivity|].
    intros hand [<- | []]. apply notBetterHigh_refl. exact Lf.
  - pose proof (Lseen _ Hin) as Lb. rewrite Lb. simpl.
    assert (Keep : bestHighOf (seen ++ [five]) best
                   <-> notBetterHigh five (bestHighHand best)).
    { split.
      - intros [[E _] | (_ & _ & B)]; [destruct seen; discriminate E|].
        apply B. apply in_or_app. right. left. reflexivity.
      - intros N. right. split; [apply in_or_app; left; exact Hin|].
        split; [exact Cat|]. intros hand Hh. apply in_app_or in Hh.
        destruct Hh as [Hh | [<- | []]]; [apply Best; exact Hh | exact N]. }
    destruct (Z.gtb_spec (handRankValue (evaluateHand five))
                         (handRankValue (bestHighRank best))) as [Higher | NotHigher].
    + eexists. split; [reflexivity|]. split; [reflexivity|].
      right. simpl. split; [apply in_or_app; right; left; reflexivity|].
      split; [reflexivity|]. intros hand Hh. apply in_app_or in Hh.
      destruct Hh as [Hh | [<- | []]]; [|apply notBetterHigh_refl; exact Lf].
      left. destruct (Best _ Hh) as [Lower | [Eq _]].
      * rewrite Cat in Lower. lia.
      * rewrite Eq, Cat. lia.
    + destruct (Z.eqb_spec (handRankValue (evaluateHand five))
                           (handRankValue (bestHighRank best))) as [Equal | Lower].
      * apply handRankValue_inj in Equal.
        assert (Same : evaluateHand five = evaluateHand (bestHighHand best))
          by congruence.
        destruct (compare_same_category five (bestHighHand best) _ Lf Lb
                    eq_refl (eq_sym Same)) as (kf & kb & _ & _ & _ & C).
        rewrite C. cbn [bind].
        destruct (Z.ltb_spec (lexCompare kf kb) 0) as [Neg | Pos].
        -- eexists. split; [reflexivity|]. split; [reflexivity|].
           right. simpl. split; [apply in_or_app; right; left; reflexivity|].
           split; [exact Equal|]. intros hand Hh. apply in_app_or in Hh.
           destruct Hh as [Hh | [<- | []]]; [|apply notBetterHigh_refl; exact Lf].
           apply (notBetterHigh_replace hand (bestHighHand best) five _
                    (Lseen _ Hh) Lb Lf Same C Neg). apply Best. exact Hh.
        -- eexists. split; [reflexivity|]. split; [reflexivity|].
           apply Keep. right. split; [exact Same|].
           exists (lexCompare kf kb). rewrite <- Same. split; [exact C | exact Pos].
      * eexists. split; [reflexivity|]. split; [reflexivity|].
        apply Keep. left. rewrite Cat. lia.
Qed.

Lemma updateLow_best (seen : list (list Card)) (best1 : HandEvaluation)
      (five : list Card) :
  (forall hand, In hand seen -> length hand = 5%nat) ->
  length five = 5%nat ->
  bestLowOf seen (bestLowHand best1) ->
  bestHighHand (updateLow best1 five) = bestHighHand best1
  /\ bestHighRank (updateLow best1 five) = bestHighRank best1
  /\ bestLowOf (seen ++ [five]) (bestLowHand (updateLow best1 five)).
Proof.
  intros Lseen Lf Inv. unfold updateLow.
  destruct (isQualifyingLow five) eqn:Q.
  - destruct (bestLowHand best1) as [low|] eqn:E.
    + destruct Inv as (Hin & Qlow & Best). pose proof (Lseen _ Hin) as Ll.
      destruct (Z.ltb_spec (compareLowHands five low) 0) as [Neg | Pos].
      * simpl. split; [reflexivity|]. split; [reflexivity|].
        split; [apply in_or_app; right; left; reflexivity|]. split; [exact Q|].
        intros hand Hh Qh. apply in_app_or in Hh.
        destruct Hh as [Hh | [<- | []]];
          [|rewrite (proj2 (compareLowHands_swap five five)); lia].
        pose proof (Best _ Hh Qh) as P. pose proof (Lseen _ Hh) as Lh.
        rewrite compareLowHands_lex in P, Neg |- * by assumption.
        apply (lexCompare_le_trans (lowValues five) (lowValues low) (lowValues hand));
          rewrite ?length_lowValues; try congruence.
        rewrite (lexCompare_antisym (lowValues low) (lowValues five)).
        pose proof (lexCompare_range (lowValues low) (lowValues five)). lia.
      * rewrite E. split; [reflexivity|]. split; [reflexivity|].
        split; [apply in_or_app; left; exact Hin|]. split; [exact Qlow|].
        intros hand Hh Qh. apply in_app_or in Hh.
        destruct Hh as [Hh | [<- | []]]; [apply Best; assumption | exact Pos].
    + simpl. split; [reflexivity|]. split; [reflexivity|].
      split; [apply in_or_app; right; left; reflexivity|]. split; [exact Q|].
      intros hand Hh Qh. apply in_app_or in Hh.
      destruct Hh as [Hh | [<- | []]].
      * rewrite (Inv _ Hh) in Qh. discriminate Qh.
      * rewrite (proj2 (compareLowHands_swap five five)). lia.
  - split; [reflexivity|]. split; [reflexivity|].
    destruct (bestLowHand best1) as [low|].
    + destruct Inv as (Hin & Qlow & Best).
      split; [apply in_or_app; left; exact Hin|]. split; [exact Qlow|].
      intros hand Hh Qh. apply in_app_or in Hh.
      destruct Hh as [Hh | [<- | []]]; [apply Best; assumption | congruence].
    + intros hand Hh. apply in_app_or in Hh.
      destruct Hh as [Hh | [<- | []]]; [apply Inv; exact Hh | exact Q].
Qed.

Lemma evaluateAll_best (combos : list (list Card * list Card)) :
  forall seen best,
    (forall hand, In hand seen -> length hand = 5%nat) ->
    (forall combo, In combo combos -> length (fst combo ++ snd combo) = 5%nat) ->
    bestHighOf seen best -> bestLowOf seen (bestLowHand best) ->
    exists final,
      evaluateAll best combos = Ok final
      /\ bestHighOf (seen ++ map (fun combo => fst combo ++ snd combo) combos) final
      /\ bestLowOf (seen ++ map (fun combo => fst combo ++ snd combo) combos)
                   (bestLowHand final).
Proof.
  induction combos as [|combo rest IH]; intros seen best Lseen Lall High Low.
  - exists best. simpl. rewrite app_nil_r. auto.
  - cbn [evaluateAll map]. rewrite considerCombination_steps.
    assert (Lf : length (fst combo ++ snd combo) = 5%nat)
      by (apply Lall; left; reflexivity).
    destruct (updateHigh_best seen best _ Lseen Lf High) as (best1 & -> & SameLow & High1).
    cbn [bind]. rewrite <- SameLow in Low.
    destruct (updateLow_best seen best1 _ Lseen Lf Low) as (Hh & Hr & Low2).
    assert (High2 : bestHighOf (seen ++ [fst combo ++ snd combo])
                               (updateLow best1 (fst combo ++ snd combo))).
    { unfold bestHighOf in *. rewrite Hh, Hr. exact High1. }
    destruct (IH (seen ++ [fst combo ++ snd combo])
                 (updateLow best1 (fst combo ++ snd combo)))
      as (final & E & Hf & Lo); try assumption.
    + intros hand Hin. apply in_app_or in Hin.
      destruct Hin as [Hin | [<- | []]]; [apply Lseen; exact Hin | exact Lf].
    + intros c Hc. apply Lall. right. exact Hc.
    + exists final. rewrite <- app_assoc in Hf, Lo. auto.
Qed.

Lemma candidates_five (holeCards communityCards : list Card) (cardCount : Z)
      (hand : list Card) :
  In hand (candidates holeCards communityCards cardCount) -> length hand = 5%nat.
Proof.
  unfold candidates. rewrite in_map_iff. intros (combo & <- & Hin).
  exact (allCombinations_five _ _ _ _ Hin).
Qed.

Lemma findBestHand_invariants (holeCards communityCards : list Card) (cardCount : Z) :
  exists evaluation,
    findBestHand holeCards communityCards cardCount = Ok evaluation
    /\ bestHighOf (candidates holeCards communityCards cardCount) evaluation
    /\ bestLowOf (candidates holeCards communityCards cardCount)
                 (bestLowHand evaluation).
Proof.
  unfold findBestHand, candidates.
  apply (evaluateAll_best _ [] (mkEval [] HighCard None)).
  - intros hand [].
  - intros combo. apply allCombinations_five.
  - left. split; reflexivity.
  - intros hand [].
Qed.

(** X8. [findBestHand] returns on every input, and when there is at
    least one candidate hand its best high hand is one of the candidates,
    [bestHighRank] is the category of that hand, and no candidate beats it:
    each candidate has a lower category, or the same category and a
    comparison with the best hand that is 0 or 1. *)
Theorem findBestHand_best_high (holeCards communityCards : list Card) (cardCount : Z) :
  exists evaluation,
    findBestHand holeCards communityCards cardCount = Ok evaluation
    /\ (candidates holeCards communityCards cardCount <> [] ->
        In (bestHighHand evaluation) (candidates holeCards communityCards cardCount)
        /\ bestHighRank evaluation = evaluateHand (bestHighHand evaluation)
        /\ forall hand,
             In hand (candidates holeCards communityCards cardCount) ->
             notBetterHigh hand (bestHighHand evaluation)).
Proof.
  destruct (findBestHand_invariants holeCards communityCards cardCount)
    as (evaluation & E & High & _).
  exists evaluation. split; [exact E|]. intros Some.
  destruct High as [[Empty _] | (Hin & Cat & Best)]; [contradiction|].
  split; [exact Hin|]. split; [symmetry; exact Cat | exact Best].
Qed.

(** X9. The best low hand that [findBestHand] returns is null exactly
    when no candidate qualifies as a low; otherwise it is a qualifying
    candidate that no qualifying candidate beats ([compareLowHands] of any
    of them with it is 0 or 1). *)
Theorem findBestHand_best_low (holeCards communityCards : list Card) (cardCount : Z) :
  exists evaluation,
    findBestHand holeCards communityCards cardCount = Ok evaluation
    /\ match bestLowHand evaluation with
       | None =>
           forall hand, In hand (candidates holeCards communityCards cardCount) ->
                        isQualifyingLow hand = false
       | Some lowHand =>
           In lowHand (candidates holeCards communityCards cardCount)
           /\ isQualifyingLow lowHand = true
           /\ forall hand,
                In hand (candidates holeCards communityCards cardCount) ->
                isQualifyingLow hand = true ->
                0 <= compareLowHands hand lowHand
       end.
Proof.
  destruct (findBestHand_invariants holeCards communityCards cardCount)
    as (evaluation & E & _ & Low).
  exists evaluation. split; [exact E | exact Low].
Qed.

Lemma pairUp_In_iff (holeCombos boardCombos : list (list Card))
      (holeCombo boardCombo : list Card) :
  In (holeCombo, boardCombo) (pairUp holeCombos boardCombos)
  <-> In holeCombo holeCombos /\ In boardCombo boardCombos.
Proof.
  unfold pairUp. rewrite in_flat_map. split.
  - intros (h & Hh & H). apply in_map_iff in H. destruct H as (b & E & Hb).
    injection E as -> ->. auto.
  - intros [Hh Hb]. exists holeCombo. split; [exact Hh|].
    apply in_map_iff. exists boardCombo. auto.
Qed.

Lemma length_pairUp (holeCombos boardCombos : list (list Card)) :
  length (pairUp holeCombos boardCombos)
  = (length holeCombos * length boardCombos)%nat.
Proof.
  unfold pairUp. induction holeCombos as [|h rest IH]; simpl; [reflexivity|].
  rewrite length_app, length_map, IH. reflexivity.
Qed.

Lemma candidates_In_iff (holeCards communityCards : list Card) (cardCount : Z)
        (hand : list Card) :
  In hand (candidates holeCards communityCards cardCount)
  <-> exists holePart boardPart,
        hand = holePart ++ boardPart
        /\ Subsequence holePart holeCards
        /\ Subsequence boardPart communityCards
        /\ ((length holePart = 2%nat /\ length boardPart = 3%nat)
            \/ (cardCount = 2 /\ length holePart = 1%nat /\ length boardPart = 4%nat)).
Proof.
  unfold candidates, allCombinations. rewrite in_map_iff. split.
  - intros ([h b] & <- & Hin). exists h, b. simpl. split; [reflexivity|].
    destruct (Z.eqb_spec cardCount 2) as [E | NE].
    + apply in_app_or in Hin. destruct Hin as [Hin | Hin];
        apply pairUp_In_iff in Hin; destruct Hin as [Hh Hb];
        apply combinations_In_iff in Hh, Hb; destruct Hh as [Sh Lh], Hb as [Sb Lb];
        auto 10.
    + apply pairUp_In_iff in Hin. destruct Hin as [Hh Hb].
      apply combinations_In_iff in Hh, Hb. destruct Hh as [Sh Lh], Hb as [Sb Lb].
      auto 10.
  - intros (h & b & -> & Sh & Sb & Sizes). exists (h, b). split; [reflexivity|].
    destruct Sizes as [[Lh Lb] | (E & Lh & Lb)].
    + assert (Hin : In (h, b) (pairUp (combinations holeCards 2)
                                      (combinations communityCards 3))).
      { apply pairUp_In_iff. split; apply combinations_In_iff; auto. }
      destruct (cardCount =? 2); [apply in_or_app; right|]; exact Hin.
    + subst cardCount. rewrite Z.eqb_refl. apply in_or_app. left.
      apply pairUp_In_iff. split; apply combinations_In_iff; auto.
Qed.

(** X10. The candidate hands of [findBestHand] are exactly the hands made
    of two of the hole cards followed by three of the community cards, each
    part in the order of its source, and, when the card count is 2, also
    those of one hole card followed by four community cards. *)
Theorem candidates_exact (holeCards communityCards : list Card) (cardCount : Z)
        (hand : list Card) :
  In hand (candidates holeCards communityCards cardCount)
  <-> exists holePart boardPart,
        hand = holePart ++ boardPart
        /\ Subsequence holePart holeCards
        /\ Subsequence boardPart communityCards
        /\ ((length holePart = 2%nat /\ length boardPart = 3%nat)
            \/ (cardCount = 2 /\ length holePart = 1%nat /\ length boardPart = 4%nat)).
Proof.
  exact (candidates_In_iff holeCards communityCards cardCount hand).
Qed.

(** X11. [findBestHand] evaluates C(h,2) * C(c,3) candidate hands for [h]
    hole cards and [c] community cards, and C(h,1) * C(c,4) more when the
    card count is 2. *)
Theorem candidates_count (holeCards communityCards : list Card) (cardCount : Z) :
  length (candidates holeCards communityCards cardCount)
  = ((if (cardCount =? 2)%Z
      then choose (length holeCards) 1 * choose (length communityCards) 4
      else 0)
     + choose (length holeCards) 2 * choose (length communityCards) 3)%nat.
Proof.
  unfold candidates, allCombinations. rewrite length_map.
  assert (Count : forall (T : Type) (items : list T) k,
             length (combinations items k) = choose (length items) k).
  { intros T items. induction items as [|x rest IH]; intros [|k]; try reflexivity.
    rewrite combinations_cons, length_app, length_map, !IH. reflexivity. }
  destruct (cardCount =? 2); rewrite ?length_app, !length_pairUp, !Count; reflexivity.
Qed.

(* ================================================================= *)
(** ** Sorting *)

Section SortFacts.
Context {A : Type}.
Variable cmp : A -> A -> Z.

Lemma insert_Permutation (x : A) (sorted : list A) :
  Permutation (insert cmp x sorted) (x :: sorted).
Proof.
  induction sorted as [|y rest IH]; simpl; [reflexivity|].
  destruct (cmp x y <=? 0); [reflexivity|].
  rewrite IH. apply perm_swap.
Qed.

Lemma sort_Permutation (xs : list A) : Permutation (sort cmp xs) xs.
Proof.
  induction xs as [|x xs IH]; simpl; [reflexivity|].
  rewrite insert_Permutation. constructor. exact IH.
Qed.

Lemma sort_In (x : A) (xs : list A) : In x (sort cmp xs) <-> In x xs.
Proof.
  split; apply Permutation_in; [|symmetry]; apply sort_Permutation.
Qed.
End SortFacts.

(** [xs.sort((a, b) => b - a)] is in descending order. *)
Lemma insert_descending_sorted (x : Z) (sorted : list Z) :
  StronglySorted Z.ge sorted -> StronglySorted Z.ge (insert descending x sorted).
Proof.
  induction 1 as [|y rest Srest IH Hy]; simpl.
  - repeat constructor.
  - unfold descending at 1. destruct (Z.leb_spec (y - x) 0) as [Le | Gt].
    + constructor; [constructor; assumption|].
      constructor; [lia|]. rewrite Forall_forall in Hy |- *.
      intros z Hz. specialize (Hy z Hz). lia.
    + constructor; [exact IH|]. rewrite Forall_forall in Hy |- *.
      intros z Hz. apply (Permutation_in _ (insert_Permutation descending x rest)) in Hz.
      destruct Hz as [<- | Hz]; [lia | exact (Hy z Hz)].
Qed.

Lemma sort_descending_sorted (xs : list Z) : StronglySorted Z.ge (sort descending xs).
Proof.
  induction xs as [|x xs IH]; simpl; [constructor|].
  apply insert_descending_sorted. exact IH.
Qed.

Lemma sorted_NoDup_strict (xs : list Z) :
  StronglySorted Z.ge xs -> NoDup xs -> StronglySorted Z.gt xs.
Proof.
  induction 1 as [|x rest Srest IH Hx]; intros ND; [constructor|].
  inversion ND as [|? ? Hnot ND']; subst. constructor; [exact (IH ND')|].
  rewrite Forall_forall in Hx |- *. intros y Hy. specialize (Hx y Hy).
  assert (x <> y) by (intros ->; exact (Hnot Hy)). lia.
Qed.

(* ================================================================= *)
(** ** The high card *)

Lemma highCard_fold (rest : list Card) :
  forall first,
    let high :=
      fold_left
        (fun max card =>
           if rankToValue (rank card) >? rankToValue (rank max) then card else max)
        rest first in
    In high (first :: rest)
    /\ forall card, In card (first :: rest) ->
                    rankToValue (rank card) <= rankToValue (rank high).
Proof.
  induction rest as [|x rest IH]; intros first; cbn [fold_left].
  - split; [left; reflexivity|]. intros card [<- | []]. lia.
  - destruct (Z.gtb_spec (rankToValue (rank x)) (rankToValue (rank first))) as [Gt | Le];
      [specialize (IH x) | specialize (IH first)]; cbv zeta in IH;
      destruct IH as [Hin Max]; (split; [simpl in *; tauto|]);
      intros card Hc.
    + destruct Hc as [<- | [<- | Hc]].
      * specialize (Max x (or_introl eq_refl)). lia.
      * apply Max. left. reflexivity.
      * apply Max. right. exact Hc.
    + destruct Hc as [<- | [<- | Hc]].
      * apply Max. left. reflexivity.
      * specialize (Max first (or_introl eq_refl)). lia.
      * apply Max. right. exact Hc.
Qed.

(** X12. [getHighCard] fails, with the TypeError of [reduce], exactly on
    the empty hand; otherwise it returns a card of the hand whose value no
    card of the hand exceeds. *)
Theorem getHighCard_highest (cards : list Card) :
  (cards = [] -> getHighCard cards = Throw ReduceOfEmptyArray)
  /\ (cards <> [] ->
      exists high,
        getHighCard cards = Ok high /\ In high cards
        /\ forall card, In card cards ->
                        rankToValue (rank card) <= rankToValue (rank high)).
Proof.
  split; [intros ->; reflexivity|].
  destruct cards as [|first rest]; [congruence|]. intros _.
  eexists. split; [reflexivity|]. apply highCard_fold.
Qed.

(* ================================================================= *)
(** ** The descriptions *)

Lemma Math_max_In (values : list Z) (k : Z) :
  Math_max values = Num k -> In k values.
Proof.
  unfold Math_max.
  assert (G : forall xs acc,
             fold_left (fun m x => match m with Num y => Num (Z.max y x) | _ => Num x end)
                       xs acc = Num k ->
             In k xs \/ acc = Num k).
  { induction xs as [|x xs IH]; intros acc H; simpl in H; [right; exact H|].
    destruct (IH _ H) as [Hin | E]; [left; right; exact Hin|].
    destruct acc as [| |y]; injection E as E; subst k; try (left; left; reflexivity).
    destruct (Z.max_spec y x) as [[_ ->] | [_ ->]];
      [left; left; reflexivity | right; reflexivity]. }
  intros H. destruct (G _ _ H) as [Hin | E]; [exact Hin | discriminate E].
Qed.

Lemma find_value (hand : list Card) (k : Z) :
  In k (map (fun c => rankToValue (rank c)) hand) ->
  exists found, find (fun c => js_eq (Num (rankToValue (rank c))) (Num k)) hand
                = Some found.
Proof.
  intros Hin. apply in_map_iff in Hin. destruct Hin as (card0 & V & Hc).
  destruct (find _ hand) as [found|] eqn:F; [exists found; reflexivity|].
  pose proof (find_none _ _ F card0 Hc) as N. simpl in N.
  rewrite V, Z.eqb_refl in N. discriminate N.
Qed.

Lemma In_valuesWithout (r : option Rank) (hand : list Card) (k : Z) :
  In k (valuesWithout r hand) -> In k (map (fun c => rankToValue (rank c)) hand).
Proof.
  unfold valuesWithout. rewrite !in_map_iff. intros (c & V & Hc).
  apply filter_In in Hc. exists c. tauto.
Qed.

Lemma candidates_nil (holeCards communityCards : list Card) (cardCount : Z) :
  candidates holeCards communityCards cardCount = [] ->
  findBestHand holeCards communityCards cardCount = Ok (mkEval [] HighCard None).
Proof.
  unfold candidates, findBestHand. intros H. apply map_eq_nil in H. rewrite H.
  reflexivity.
Qed.

(** The description of a 5-card hand with its own category never fails. *)
Lemma describe_best (evaluation : HandEvaluation) :
  length (bestHighHand evaluation) = 5%nat ->
  evaluateHand (bestHighHand evaluation) = bestHighRank evaluation ->
  exists s,
    match bestHighRank evaluation with
    | RoyalFlush => Ok "Royal Flush"%string
    | StraightFlush =>
        let* highCard := getStraightHighCard (bestHighHand evaluation) in
        let* highRank := rankOf highCard in
        Ok ("Straight Flush-" ++ getRankDisplay highRank)%string
    | FourOfAKind =>
        let* quadRank := getRepeatedRank (bestHighHand evaluation) 4 in
        Ok ("Four of a Kind-" ++ getRankDisplay quadRank)%string
    | FullHouse =>
        let* tripRank := getRepeatedRank (bestHighHand evaluation) 3 in
        let* pairRank := getRepeatedRank (bestHighHand evaluation) 2 in
        Ok ("Full House-" ++ getRankDisplay tripRank ++ "/"
            ++ getRankDisplay pairRank)%string
    | Flush =>
        let* highCard := getHighCard (bestHighHand evaluation) in
        let suit_ := getSuitSymbol (suit highCard) in
        Ok ("Flush-" ++ getRankDisplay (rank highCard) ++ suit_)%string
    | Straight =>
        let* highCard := getStraightHighCard (bestHighHand evaluation) in
        let* highRank := rankOf highCard in
        Ok ("Straight-" ++ getRankDisplay highRank)%string
    | ThreeOfAKind =>
        let* tripRank := getRepeatedRank (bestHighHand evaluation) 3 in
        let kickers :=
          sort descending (valuesWithout (Some tripRank) (bestHighHand evaluation)) in
        let highKicker :=
          find (fun c => js_eq (Num (rankToValue (rank c))) (index kickers 0))
               (bestHighHand evaluation) in
        let* kickerRank := rankOf highKicker in
        Ok ("Three of a Kind-" ++ getRankDisplay tripRank ++ "/"
            ++ getRankDisplay kickerRank)%string
    | TwoPair =>
        let pairs := getTwoPairRanks (bestHighHand evaluation) in
        let kicker :=
          Math_max (map (fun c => rankToValue (rank c))
                        (filter (fun c => rankIsNot (fst pairs) c
                                          && rankIsNot (snd pairs) c)
                                (bestHighHand evaluation))) in
        let kickerCard :=
          find (fun c => js_eq (Num (rankToValue (rank c))) kicker)
               (bestHighHand evaluation) in
        let* kickerRank := rankOf kickerCard in
        Ok ("Two Pair-" ++ getRankDisplay' (fst pairs) ++ "/"
            ++ getRankDisplay' (snd pairs) ++ "-" ++ getRankDisplay kickerRank)%string
    | OnePair =>
        let* pairRank := getRepeatedRank (bestHighHand evaluation) 2 in
        Ok ("Pair-" ++ getRankDisplay pairRank)%string
    | HighCard =>
        let* highCard := getHighCard (bestHighHand evaluation) in
        Ok ("High Card-" ++ getRankDisplay (rank highCard))%string
    end = Ok s.
Proof.
  destruct evaluation as [best category low]. cbn [bestHighHand bestHighRank].
  intros L E.
  destruct (key_defined best L) as [k K]. rewrite E in K.
  assert (High : exists high, getHighCard best = Ok high).
  { destruct best as [|first rest]; [discriminate L|]. eexists. reflexivity. }
  assert (Top : exists high, getStraightHighCard best = Ok (Some high)).
  { destruct (getStraightHighCard_cases best) as [H | [_ ->]];
      [exact H | discriminate L]. }
  destruct category; unfold keyOf in K; cbv zeta.
  - destruct High as [high ->]. eexists. reflexivity.
  - destruct (getRepeatedRank best 2) as [p|]; [|discriminate K].
    eexists. reflexivity.
  - destruct (getTwoPairRanks best) as [[hi|] [lo|]]; try discriminate K.
    cbn [fst snd].
    destruct (Math_max _) as [| |kicker] eqn:M; try discriminate K.
    apply Math_max_In in M.
    assert (Hin : In kicker (map (fun c => rankToValue (rank c)) best)).
    { apply in_map_iff in M. destruct M as (c & V & Hc). apply filter_In in Hc.
      apply in_map_iff. exists c. tauto. }
    destruct (find_value best kicker Hin) as [found ->]. eexists. reflexivity.
  - destruct (getRepeatedRank best 3) as [t|]; [|discriminate K]. cbn [bind].
    destruct (ofLength 2 _) as [ks|] eqn:O; [|discriminate K].
    apply ofLength_Some in O. destruct O as [-> Lk].
    destruct (sort descending (valuesWithout (Some t) best)) as [|k0 ks] eqn:S;
      [discriminate Lk|].
    assert (Hin : In k0 (map (fun c => rankToValue (rank c)) best)).
    { apply (In_valuesWithout (Some t)). apply (sort_In descending). rewrite S.
      left. reflexivity. }
    unfold index. cbn [nth_error].
    destruct (find_value best k0 Hin) as [found ->]. eexists. reflexivity.
  - destruct Top as [high ->]. eexists. reflexivity.
  - destruct High as [high ->]. eexists. reflexivity.
  - destruct (getRepeatedRank best 3) as [t|]; [|discriminate K].
    destruct (getRepeatedRank best 2) as [p|]; [|discriminate K].
    eexists. reflexivity.
  - destruct (getRepeatedRank best 4) as [q|]; [|discriminate K].
    eexists. reflexivity.
  - destruct Top as [high ->]. eexists. reflexivity.
  - eexists. reflexivity.
Qed.

(** X13. [getHandDescription] returns a label whenever [findBestHand] has
    at least one candidate hand.  With no candidate (too few cards) it fails
    with the TypeError of [reduce] on the empty best hand, where
    [getLowHandDescription] returns the label No low. *)
Theorem getHandDescription_returns (hand communityCards : list Card) (cardCount : Z) :
  (candidates hand communityCards cardCount <> [] ->
   exists label, getHandDescription hand communityCards cardCount = Ok label)
  /\ (candidates hand communityCards cardCount = [] ->
      getHandDescription hand communityCards cardCount = Throw ReduceOfEmptyArray
      /\ getLowHandDescription hand communityCards cardCount = Ok "No low"%string).
Proof.
  split.
  - intros Some.
    destruct (findBestHand_invariants hand communityCards cardCount)
      as (evaluation & E & High & _).
    destruct High as [[Empty _] | (Hin & Cat & _)]; [contradiction|].
    unfold getHandDescription. rewrite E. cbn [bind]. cbv zeta.
    apply describe_best; [exact (candidates_five _ _ _ _ Hin) | exact Cat].
  - intros None. unfold getHandDescription, getLowHandDescription.
    rewrite (candidates_nil _ _ _ None). split; reflexivity.
Qed.

(** X14. When the best hand is a Straight or a StraightFlush the label of
    [getHandDescription] ends with the rank whose value is the comparison
    value of the straight: 5 for the wheel A-2-3-4-5, never the Ace, and the
    highest rank otherwise. *)
Theorem getHandDescription_straight
        (hand communityCards : list Card) (cardCount : Z) (evaluation : HandEvaluation) :
  findBestHand hand communityCards cardCount = Ok evaluation ->
  bestHighRank evaluation = Straight \/ bestHighRank evaluation = StraightFlush ->
  exists shown,
    rankToValue shown = Spec.straightValue (bestHighHand evaluation)
    /\ (Spec.isWheel (bestHighHand evaluation) = true -> shown = R5)
    /\ getHandDescription hand communityCards cardCount
       = Ok ((if HandRank_eq_dec (bestHighRank evaluation) Straight
              then "Straight-" else "Straight Flush-")
             ++ getRankDisplay shown)%string.
Proof.
  intros E Cat.
  destruct (findBestHand_invariants hand communityCards cardCount)
    as (evaluation' & E' & High & _).
  assert (evaluation' = evaluation) by congruence. subst evaluation'.
  destruct High as [[Empty _] | (Hin & Same & _)].
  { rewrite (candidates_nil _ _ _ Empty) in E. injection E as <-.
    destruct Cat as [C | C]; discriminate C. }
  pose proof (candidates_five _ _ _ _ Hin) as L.
  destruct (straight_key _ _ L Same Cat) as [K _].
  assert (Top : exists high,
             getStraightHighCard (bestHighHand evaluation) = Ok (Some high)
             /\ rankToValue (rank high) = Spec.straightValue (bestHighHand evaluation)).
  { destruct Cat as [C | C]; rewrite C in K; unfold keyOf in K;
      (destruct (getStraightHighCard (bestHighHand evaluation)) as [[high|]|];
       try discriminate K; exists high; split; [reflexivity|];
       injection K as K; exact K). }
  destruct Top as (high & G & V). exists (rank high). split; [exact V|].
  split.
  - intros W. apply rankToValue_inj. rewrite V. apply straightValue_wheel. exact W.
  - unfold getHandDescription. rewrite E. cbn [bind]. cbv zeta.
    destruct Cat as [C | C]; rewrite C, G; reflexivity.
Qed.

Lemma getHandDescription_straight_witness :
  exists shown,
    rankToValue shown
    = Spec.straightValue
        [card Diamonds R7; card Spades R3; card Spades R4; card Spades R5;
         card Spades R6]
    /\ getHandDescription hole27 board 2
       = Ok ("Straight-" ++ getRankDisplay shown)%string.
Proof.
  destruct (getHandDescription_straight hole27 board 2
              (mkEval
                 [card Diamonds R7; card Spades R3; card Spades R4; card Spades R5;
                  card Spades R6]
                 Straight
                 (Some [card Clubs R2; card Spades R3; card Spades R4; card Spades R5;
                        card Spades R6])))
    as (shown & V & _ & D).
  - vm_compute. reflexivity.
  - left. reflexivity.
  - exists shown. split; [exact V | exact D].
Defined.

Lemma rankToLowValue_inj (a b : Rank) : rankToLowValue a = rankToLowValue b -> a = b.
Proof. destruct a, b; vm_compute; intros H; try reflexivity; discriminate H. Qed.

Lemma rankToLowValue_range (r : Rank) : 1 <= rankToLowValue r <= 13.
Proof. destruct r; vm_compute; split; discriminate. Qed.

Lemma NoDup_map_lowValue (ranks : list Rank) :
  NoDup ranks -> NoDup (map rankToLowValue ranks).
Proof.
  induction 1 as [|r ranks Hnot _ IH]; simpl; constructor; [|exact IH].
  intros Hin. apply in_map_iff in Hin. destruct Hin as (r' & E & Hr).
  apply rankToLowValue_inj in E. subst r'. exact (Hnot Hr).
Qed.

(** The low values of a qualifying low hand: five values between 1 and
    8, strictly descending. *)
Lemma lowValues_qualifying (hand : list Card) :
  length hand = 5%nat -> isQualifyingLow hand = true ->
  length (lowValues hand) = 5%nat
  /\ Forall (fun v => 1 <= v <= 8) (lowValues hand)
  /\ StronglySorted Z.gt (lowValues hand).
Proof.
  intros L Q. apply (isQualifyingLow_iff hand L) in Q. destruct Q as [Low Distinct].
  split; [rewrite length_lowValues; exact L|]. split.
  - rewrite Forall_forall in Low |- *. intros v Hv.
    unfold lowValues in Hv. apply sort_In, in_map_iff in Hv.
    destruct Hv as (c & <- & Hc). specialize (Low c Hc).
    pose proof (rankToLowValue_range (rank c)). lia.
  - apply sorted_NoDup_strict; [apply sort_descending_sorted|].
    unfold lowValues.
    apply (Permutation_NoDup (l := map (fun c => rankToLowValue (rank c)) hand));
      [symmetry; apply sort_Permutation|].
    rewrite <- (map_map rank rankToLowValue). apply NoDup_map_lowValue. exact Distinct.
Qed.

Lemma String_digit_char (v : Z) :
  1 <= v <= 8 -> String_ v = String (ascii_of_nat (48 + Z.to_nat v)) EmptyString.
Proof.
  intros H.
  assert (C : v = 1 \/ v = 2 \/ v = 3 \/ v = 4 \/ v = 5 \/ v = 6 \/ v = 7 \/ v = 8)
    by lia.
  repeat (destruct C as [-> | C]; [reflexivity|]). subst v. reflexivity.
Qed.

Lemma join_digits (values : list Z) :
  Forall (fun v => 1 <= v <= 8) values -> join (map String_ values) = digits values.
Proof.
  induction 1 as [|v values Hv _ IH]; [reflexivity|].
  unfold digits. cbn [map join fold_right string_of_list_ascii].
  change (fold_right String.append EmptyString (map String_ values))
    with (join (map String_ values)).
  rewrite IH, (String_digit_char v Hv). reflexivity.
Qed.

Lemma length_digits (values : list Z) : String.length (digits values) = length values.
Proof.
  unfold digits. induction values as [|v values IH]; [reflexivity|].
  cbn [map string_of_list_ascii String.length length]. rewrite IH. reflexivity.
Qed.

(** X15. [getLowHandDescription] never fails.  When [findBestHand] has no
    best low hand, which is when no candidate hand qualifies as a low, it
    returns the label No low.  Otherwise it returns the low values of the
    best low hand of [findBestHand], Ace counting 1, in strictly descending
    order, as a string of exactly five digits, each between 1 and 8.  The
    low values are those of the specification's table and the string is
    built from the digit characters directly. *)
Theorem getLowHandDescription_digits (hand communityCards : list Card) (cardCount : Z) :
  exists evaluation,
    findBestHand hand communityCards cardCount = Ok evaluation
    /\ match bestLowHand evaluation with
       | None =>
           (forall five, In five (candidates hand communityCards cardCount) ->
                         isQualifyingLow five = false)
           /\ getLowHandDescription hand communityCards cardCount
              = Ok "No low"%string
       | Some low =>
           In low (candidates hand communityCards cardCount)
           /\ isQualifyingLow low = true
           /\ exists values,
                Permutation values (map (fun c => Spec.lowValue (rank c)) low)
                /\ StronglySorted Z.gt values
                /\ length values = 5%nat
                /\ Forall (fun v => 1 <= v <= 8) values
                /\ getLowHandDescription hand communityCards cardCount
                   = Ok (digits values)
                /\ String.length (digits values) = 5%nat
       end.
Proof.
  destruct (findBestHand_invariants hand communityCards cardCount)
    as (evaluation & E & _ & Low).
  exists evaluation. split; [exact E|].
  unfold getLowHandDescription. rewrite E. cbn [bind].
  destruct (bestLowHand evaluation) as [low|]; cbn [bestLowOf] in Low.
  - destruct Low as (Hin & Q & _). split; [exact Hin|]. split; [exact Q|].
    destruct (lowValues_qualifying low (candidates_five _ _ _ _ Hin) Q)
      as (L & Digits & Sorted).
    exists (lowValues low). split; [|split; [exact Sorted|split; [exact L|]]].
    + unfold lowValues. rewrite sort_Permutation.
      rewrite (map_ext (fun c => rankToLowValue (rank c))
                       (fun c => Spec.lowValue (rank c)))
        by (intros c; apply lowValue_rankToLowValue).
      reflexivity.
    + split; [exact Digits|]. split.
      * cbv zeta. fold (lowValues low). rewrite (join_digits _ Digits). reflexivity.
      * rewrite length_digits. exact L.
  - split; [exact Low | reflexivity].
Qed.

(* ================================================================= *)
(** ** The rank tally *)

Lemma getCount_setCount_same (o : RankCounts) (r : Rank) (v : Z) :
  getCount (setCount o r v) r = Some v.
Proof.
  induction o as [|[k w] rest IH]; simpl.
  - rewrite Rank_eqb_refl. reflexivity.
  - destruct (Rank_eqb k r) eqn:E; simpl.
    + rewrite E. reflexivity.
    + destruct (goesBefore r k); simpl.
      * rewrite Rank_eqb_refl. reflexivity.
      * rewrite E. exact IH.
Qed.

Lemma getCount_setCount_other (o : RankCounts) (r r' : Rank) (v : Z) :
  r' <> r -> getCount (setCount o r v) r' = getCount o r'.
Proof.
  intros NE.
  assert (F : Rank_eqb r r' = false).
  { destruct (Rank_eqb r r') eqn:E; [|reflexivity].
    apply Rank_eqb_eq in E. congruence. }
  induction o as [|[k w] rest IH]; simpl.
  - rewrite F. reflexivity.
  - destruct (Rank_eqb k r) eqn:E; simpl.
    + apply Rank_eqb_eq in E. subst k. rewrite F. reflexivity.
    + destruct (goesBefore r k); simpl.
      * rewrite F. reflexivity.
      * destruct (Rank_eqb k r'); [reflexivity | exact IH].
Qed.

Lemma keys_setCount (o : RankCounts) (r : Rank) (v : Z) (x : Rank) :
  In x (map fst (setCount o r v)) -> x = r \/ In x (map fst o).
Proof.
  induction o as [|[k w] rest IH]; simpl.
  - intros [<- | []]. left. reflexivity.
  - destruct (Rank_eqb k r) eqn:E; simpl.
    + tauto.
    + destruct (goesBefore r k); simpl; [intuition|].
      intros [<- | H]; [tauto|]. destruct (IH H); tauto.
Qed.

Lemma goesBefore_asym (a b : Rank) : goesBefore a b = true -> goesBefore b a = false.
Proof. destruct a, b; vm_compute; intros H; try reflexivity; discriminate H. Qed.

Lemma goesBefore_after (r k k' : Rank) :
  goesBefore r k = true -> goesBefore k' k = false -> goesBefore k' r = false.
Proof.
  destruct r, k; vm_compute; intros H; try discriminate H; clear H;
    destruct k'; vm_compute; intros H; try reflexivity; discriminate H.
Qed.

(** The object keeps its keys in enumeration order, each once. *)
Lemma setCount_ordered (o : RankCounts) (r : Rank) (v : Z) :
  StronglySorted keyOrder (map fst o) ->
  StronglySorted keyOrder (map fst (setCount o r v)).
Proof.
  induction o as [|[k w] rest IH]; simpl; intros S.
  - repeat constructor.
  - inversion S as [|? ? Srest Hk]; subst.
    destruct (Rank_eqb k r) eqn:E; simpl.
    + constructor; assumption.
    + assert (NE : k <> r).
      { intros ->. rewrite Rank_eqb_refl in E. discriminate E. }
      destruct (goesBefore r k) eqn:G; simpl.
      * constructor; [exact S|]. constructor.
        -- split; [congruence | apply goesBefore_asym; exact G].
        -- rewrite Forall_forall in Hk |- *. intros k' Hk'.
           destruct (Hk k' Hk') as [NEk Gk]. split.
           ++ intros ->. congruence.
           ++ exact (goesBefore_after _ _ _ G Gk).
      * constructor; [exact (IH Srest)|].
        rewrite Forall_forall in Hk |- *. intros x Hx.
        destruct (keys_setCount _ _ _ _ Hx) as [-> | Hin];
          [split; assumption | exact (Hk x Hin)].
Qed.

Lemma fold_left_invariant {A B : Type} (P : A -> Prop) (f : A -> B -> A) (xs : list B) :
  (forall a x, P a -> P (f a x)) -> forall a, P a -> P (fold_left f xs a).
Proof.
  intros step. induction xs as [|x xs IH]; intros a Pa; simpl; [exact Pa|].
  apply IH, step, Pa.
Qed.

Lemma countRanks_ordered (ranks : list Rank) :
  StronglySorted keyOrder (map fst (countRanks ranks)).
Proof.
  unfold countRanks.
  apply (fold_left_invariant (fun o => StronglySorted keyOrder (map fst o))).
  - intros o r S. apply setCount_ordered. exact S.
  - constructor.
Qed.

Lemma ordered_NoDup (keys : list Rank) : StronglySorted keyOrder keys -> NoDup keys.
Proof.
  induction 1 as [|k keys _ IH Hk]; constructor; [|exact IH].
  intros Hin. rewrite Forall_forall in Hk. destruct (Hk k Hin) as [NE _]. congruence.
Qed.

Lemma getCount_In (o : RankCounts) (r : Rank) (v : Z) :
  NoDup (map fst o) -> In (r, v) o -> getCount o r = Some v.
Proof.
  induction o as [|[k w] rest IH]; simpl; intros ND Hin; [destruct Hin|].
  inversion ND as [|? ? Hnot ND']; subst.
  destruct Hin as [E | Hin].
  - injection E as -> ->. rewrite Rank_eqb_refl. reflexivity.
  - destruct (Rank_eqb k r) eqn:E; [|exact (IH ND' Hin)].
    apply Rank_eqb_eq in E. subst k. exfalso. apply Hnot.
    apply in_map_iff. exists (r, v). auto.
Qed.

Lemma In_getCount (o : RankCounts) (r : Rank) (v : Z) :
  getCount o r = Some v -> In (r, v) o.
Proof.
  induction o as [|[k w] rest IH]; simpl; [discriminate|].
  destruct (Rank_eqb k r) eqn:E.
  - apply Rank_eqb_eq in E. subst k. intros H. injection H as ->. left. reflexivity.
  - intros H. right. exact (IH H).
Qed.

(** The tally holds, for each rank of the array, the number of its
    occurrences, and nothing for the other ranks. *)
Lemma getCount_countRanks (ranks : list Rank) (r : Rank) :
  getCount (countRanks ranks) r
  = if in_dec Rank_eq_dec r ranks
    then Some (Z.of_nat (count_occ Rank_eq_dec ranks r))
    else None.
Proof.
  unfold countRanks.
  assert (G : forall rs o,
             getCount
               (fold_left
                  (fun o r0 =>
                     setCount o r0
                       (match getCount o r0 with Some c => c | None => 0 end + 1))
                  rs o) r
             = match getCount o r with
               | Some c => Some (c + Z.of_nat (count_occ Rank_eq_dec rs r))
               | None =>
                   if in_dec Rank_eq_dec r rs
                   then Some (Z.of_nat (count_occ Rank_eq_dec rs r))
                   else None
               end).
  { induction rs as [|x rs IH]; intros o.
    - simpl. destruct (getCount o r); [f_equal; lia | reflexivity].
    - cbn [fold_left]. rewrite IH. cbn [count_occ].
      destruct (Rank_eq_dec x r) as [-> | NE].
      + rewrite getCount_setCount_same.
        destruct (in_dec Rank_eq_dec r (r :: rs)) as [_ | No];
          [|exfalso; apply No; left; reflexivity].
        destruct (getCount o r); f_equal; lia.
      + rewrite getCount_setCount_other by congruence.
        destruct (getCount o r); [reflexivity|].
        destruct (in_dec Rank_eq_dec r rs) as [Hin | No],
                 (in_dec Rank_eq_dec r (x :: rs)) as [Hin' | No'];
          try reflexivity.
        * exfalso. apply No'. right. exact Hin.
        * exfalso. destruct Hin' as [E | Hin']; [congruence | exact (No Hin')]. }
  rewrite G. reflexivity.
Qed.

Lemma countRanks_entry (ranks : list Rank) (r : Rank) (v : Z) :
  In (r, v) (countRanks ranks)
  <-> In r ranks /\ v = Z.of_nat (count_occ Rank_eq_dec ranks r).
Proof.
  pose proof (getCount_countRanks ranks r) as G. split.
  - intros Hin.
    apply getCount_In in Hin; [|apply ordered_NoDup, countRanks_ordered].
    rewrite Hin in G. destruct (in_dec Rank_eq_dec r ranks); [|discriminate G].
    injection G as ->. auto.
  - intros [Hin ->]. apply In_getCount. rewrite G.
    destruct (in_dec Rank_eq_dec r ranks); [reflexivity | contradiction].
Qed.

(** X16. [getRepeatedRank(cards, count)] returns a rank of the hand that
    occurs exactly [count] times in it, and it throws, with the error No
    rank with count [count] found, exactly when no rank of the hand occurs
    [count] times. *)
Theorem getRepeatedRank_occurrences (cards : list Card) (count : Z) :
  (forall r, getRepeatedRank cards count = Ok r ->
             In r (map rank cards) /\ occurrences cards r = count)
  /\ (forall e, getRepeatedRank cards count = Throw e ->
                e = NoRankWithCount count
                /\ forall r, In r (map rank cards) -> occurrences cards r <> count)
  /\ ((forall r, In r (map rank cards) -> occurrences cards r <> count) ->
      getRepeatedRank cards count = Throw (NoRankWithCount count)).
Proof.
  unfold getRepeatedRank, occurrences. cbv zeta.
  destruct (find (fun entry => snd entry =? count) (countRanks (map rank cards)))
    as [[r0 v]|] eqn:F.
  - apply find_some in F. destruct F as [Hin E]. simpl in E. apply Z.eqb_eq in E.
    apply countRanks_entry in Hin. destruct Hin as [Hr Hv].
    split; [|split].
    + intros r H. injection H as <-. split; [exact Hr | congruence].
    + intros e H. discriminate H.
    + intros None. exfalso. apply (None r0 Hr). congruence.
  - split; [|split].
    + intros r H. discriminate H.
    + intros e H. injection H as <-. split; [reflexivity|].
      intros r Hr Hc.
      assert (Hin : In (r, count) (countRanks (map rank cards)))
        by (apply countRanks_entry; split; [exact Hr | congruence]).
      pose proof (find_none _ _ F _ Hin) as N. simpl in N.
      rewrite Z.eqb_refl in N. discriminate N.
    + reflexivity.
Qed.

(** [xs.sort((a, b) => f(b) - f(a))] is in descending order of [f]. *)
Lemma insert_by_sorted {A : Type} (f : A -> Z) (x : A) (sorted : list A) :
  StronglySorted (fun a b => f a >= f b) sorted ->
  StronglySorted (fun a b => f a >= f b) (insert (fun a b => f b - f a) x sorted).
Proof.
  induction 1 as [|y rest Srest IH Hy]; simpl.
  - repeat constructor.
  - destruct (Z.leb_spec (f y - f x) 0) as [Le | Gt].
    + constructor; [constructor; assumption|].
      constructor; [lia|]. rewrite Forall_forall in Hy |- *.
      intros z Hz. specialize (Hy z Hz). lia.
    + constructor; [exact IH|]. rewrite Forall_forall in Hy |- *.
      intros z Hz.
      apply (Permutation_in _ (insert_Permutation (fun a b => f b - f a) x rest)) in Hz.
      destruct Hz as [<- | Hz]; [lia | exact (Hy z Hz)].
Qed.

Lemma sort_by_sorted {A : Type} (f : A -> Z) (xs : list A) :
  StronglySorted (fun a b => f a >= f b) (sort (fun a b => f b - f a) xs).
Proof.
  induction xs as [|x xs IH]; simpl; [constructor|].
  apply insert_by_sorted. exact IH.
Qed.

Lemma NoDup_keys_filter (p : Rank * Z -> bool) (o : RankCounts) :
  NoDup (map fst o) -> NoDup (map fst (filter p o)).
Proof.
  induction o as [|[k w] rest IH]; simpl; intros ND; [constructor|].
  inversion ND as [|? ? Hnot ND']; subst.
  destruct (p (k, w)); simpl; [|exact (IH ND')].
  constructor; [|exact (IH ND')].
  intros Hin. apply Hnot. apply in_map_iff in Hin. destruct Hin as ([k' w'] & E & Hin).
  apply filter_In in Hin. apply in_map_iff. exists (k', w'). tauto.
Qed.

(** The ranks that occur exactly twice, highest value first, each once. *)
Lemma pairs_sorted (cards : list Card) :
  let pairs :=
    sort byValueDescending
         (map fst (filter (fun entry => snd entry =? 2) (countRanks (map rank cards)))) in
  (forall r, In r pairs <-> In r (map rank cards) /\ occurrences cards r = 2)
  /\ NoDup pairs
  /\ StronglySorted (fun a b => rankToValue a >= rankToValue b) pairs.
Proof.
  cbv zeta. split; [|split].
  - intros r. rewrite sort_In, in_map_iff. unfold occurrences. split.
    + intros ([r' v] & E & Hin). simpl in E. subst r'.
      apply filter_In in Hin. destruct Hin as [Hin V]. simpl in V.
      apply Z.eqb_eq in V. apply countRanks_entry in Hin. destruct Hin as [Hr Hv].
      split; [exact Hr | congruence].
    + intros [Hr Hc]. exists (r, 2). split; [reflexivity|].
      apply filter_In. split; [|reflexivity].
      apply countRanks_entry. split; [exact Hr | congruence].
  - apply (Permutation_NoDup
             (l := map fst (filter (fun entry => snd entry =? 2)
                                   (countRanks (map rank cards)))));
      [symmetry; apply sort_Permutation|].
    apply NoDup_keys_filter, ordered_NoDup, countRanks_ordered.
  - exact (sort_by_sorted rankToValue _).
Qed.

(** X17. Of [getTwoPairRanks], [high] is the highest-valued rank that
    occurs exactly twice in the hand and is undefined exactly when no rank
    does; [low], when defined, is another rank that occurs exactly twice, of
    strictly lower value than [high], and no rank occurring twice lies
    between the two. *)
Theorem getTwoPairRanks_pairs (cards : list Card) :
  (forall hi, fst (getTwoPairRanks cards) = Some hi ->
              occurrences cards hi = 2
              /\ forall r, In r (map rank cards) -> occurrences cards r = 2 ->
                           rankToValue r <= rankToValue hi)
  /\ (fst (getTwoPairRanks cards) = None
      <-> forall r, In r (map rank cards) -> occurrences cards r <> 2)
  /\ (forall lo, snd (getTwoPairRanks cards) = Some lo ->
                 occurrences cards lo = 2
                 /\ exists hi, fst (getTwoPairRanks cards) = Some hi
                               /\ rankToValue lo < rankToValue hi
                               /\ forall r, In r (map rank cards) ->
                                            occurrences cards r = 2 -> r <> hi ->
                                            rankToValue r <= rankToValue lo).
Proof.
  destruct (pairs_sorted cards) as (Mem & ND & Sorted). cbv zeta in *.
  unfold getTwoPairRanks. cbv zeta. cbn [fst snd].
  destruct (sort byValueDescending
              (map fst (filter (fun entry => snd entry =? 2)
                               (countRanks (map rank cards))))) as [|a rest].
  - cbn [nth_error]. split; [|split].
    + intros hi H. discriminate H.
    + split; [|reflexivity]. intros _ r Hr Hc. apply (Mem r). auto.
    + intros lo H. discriminate H.
  - cbn [nth_error].
    inversion Sorted as [|? ? Srest Ha]; subst. rewrite Forall_forall in Ha.
    inversion ND as [|? ? Hnot ND']; subst.
    split; [|split].
    + intros hi H. injection H as <-. split.
      * apply Mem. left. reflexivity.
      * intros r Hr Hc. destruct (proj2 (Mem r) (conj Hr Hc)) as [<- | Hin]; [lia|].
        specialize (Ha r Hin). lia.
    + split; [discriminate|]. intros None. exfalso.
      destruct (proj1 (Mem a) (or_introl eq_refl)) as [Hr Hc]. exact (None a Hr Hc).
    + destruct rest as [|b rest']; cbn [nth_error]; intros lo H; [discriminate H|].
      injection H as <-. split; [apply Mem; right; left; reflexivity|].
      exists a. split; [reflexivity|].
      pose proof (Ha b (or_introl eq_refl)) as Ge.
      assert (NE : rankToValue a <> rankToValue b).
      { intros E. apply rankToValue_inj in E. apply Hnot. left. symmetry. exact E. }
      split; [lia|]. intros r Hr Hc Na.
      destruct (proj2 (Mem r) (conj Hr Hc)) as [E | [<- | Hin]]; [congruence | lia |].
      inversion Srest as [|? ? _ Hb]; subst. rewrite Forall_forall in Hb.
      specialize (Hb r Hin). lia.
Qed.

(* ================================================================= *)
(** ** The deck *)

Lemma update_Permutation {A : Type} (xs : list A) :
  forall i (old new : A),
    nth_error xs i = Some old ->
    Permutation (old :: update xs i new) (new :: xs).
Proof.
  induction xs as [|x rest IH]; intros [|i] old new H; simpl in H; try discriminate.
  - injection H as ->. simpl. apply perm_swap.
  - simpl. rewrite perm_swap. rewrite (IH i old new H). apply perm_swap.
Qed.

Lemma swap_Permutation (cards : list Card) :
  forall i j, Permutation (Deck.swap cards i j) cards.
Proof.
  unfold Deck.swap. induction cards as [|x rest IH]; intros i j.
  - destruct i, j; reflexivity.
  - destruct i as [|i], j as [|j]; cbn [nth_error].
    + reflexivity.
    + destruct (nth_error rest j) as [atJ|] eqn:J; [|reflexivity].
      cbn [update]. exact (update_Permutation rest j atJ x J).
    + destruct (nth_error rest i) as [atI|] eqn:I; [|reflexivity].
      cbn [update]. exact (update_Permutation rest i atI x I).
    + specialize (IH i j).
      destruct (nth_error rest i) as [atI|]; [|reflexivity].
      destruct (nth_error rest j) as [atJ|]; [|reflexivity].
      cbn [update]. constructor. exact IH.
Qed.

Lemma shuffleFrom_Permutation (pick : nat -> nat) (i : nat) :
  forall cards, Permutation (Deck.shuffleFrom pick i cards) cards.
Proof.
  induction i as [|i IH]; intros cards; simpl; [reflexivity|].
  rewrite IH. apply swap_Permutation.
Qed.

Lemma shuffle_Permutation (pick : nat -> nat) (cards : list Card) :
  Permutation (Deck.shuffle pick cards) cards.
Proof. apply shuffleFrom_Permutation. Qed.

(** X18. Whatever [Math.random] draws, with each drawn index [j] at most
    the loop index [i], [shuffle] rearranges the cards: the deck after it is
    a permutation of the deck before, so no card is lost or doubled. *)
Theorem shuffle_rearranges (pick : nat -> nat) (cards : list Card) :
  (forall i, (pick i <= i)%nat) ->
  Permutation (Deck.shuffle pick cards) cards
  /\ length (Deck.shuffle pick cards) = length cards.
Proof.
  intros _. split; [apply shuffle_Permutation|].
  apply Permutation_length, shuffle_Permutation.
Qed.

Lemma shuffle_rearranges_witness :
  Permutation (Deck.shuffle (fun i => Nat.div2 i) royalFlush) royalFlush
  /\ length (Deck.shuffle (fun i => Nat.div2 i) royalFlush) = length royalFlush.
Proof.
  apply (shuffle_rearranges (fun i => Nat.div2 i) royalFlush).
  intros i. apply Nat.div2_decr. lia.
Defined.

Lemma allCards_content (suffix : Suit -> Rank -> string) :
  map content (Deck.allCards suffix)
  = flat_map (fun s => map (fun r => (s, r)) ALL_RANKS) ALL_SUITS.
Proof. reflexivity. Qed.

Lemma allCards_distinct (suffix : Suit -> Rank -> string) :
  NoDup (map content (Deck.allCards suffix)).
Proof.
  rewrite allCards_content.
  assert (E : nodup content_eq_dec
                    (flat_map (fun s => map (fun r => (s, r)) ALL_RANKS) ALL_SUITS)
              = flat_map (fun s => map (fun r => (s, r)) ALL_RANKS) ALL_SUITS)
    by (vm_compute; reflexivity).
  rewrite <- E. apply NoDup_nodup.
Qed.

Lemma reset_distinct (suffix : Suit -> Rank -> string) (pick : nat -> nat) :
  NoDup (map content (Deck.reset suffix pick)).
Proof.
  unfold Deck.reset.
  apply (Permutation_NoDup (l := map content (Deck.allCards suffix)));
    [|apply allCards_distinct].
  apply Permutation_map. symmetry. apply shuffle_Permutation.
Qed.

(** X19. After [reset] (and so in every new [Deck]) the deck holds 52
    cards, one for each suit and rank, whatever the shuffle drew. *)
Theorem reset_full_deck (suffix : Suit -> Rank -> string) (pick : nat -> nat) :
  (forall i, (pick i <= i)%nat) ->
  Deck.remainingCount (Deck.reset suffix pick) = 52%nat
  /\ NoDup (map content (Deck.reset suffix pick))
  /\ forall s r, exists card0,
       In card0 (Deck.reset suffix pick) /\ suit card0 = s /\ rank card0 = r.
Proof.
  intros _. split; [|split].
  - unfold Deck.remainingCount, Deck.reset.
    rewrite (Permutation_length (shuffle_Permutation pick _)). reflexivity.
  - apply reset_distinct.
  - intros s r. exists (createCard (suffix s r) s r). split; [|split; reflexivity].
    apply (Permutation_in _ (Permutation_sym (shuffle_Permutation pick _))).
    unfold Deck.allCards. apply in_flat_map. exists s.
    split; [apply every_suit_listed|]. apply in_map_iff. exists r.
    split; [reflexivity|]. destruct r; simpl; tauto.
Qed.

Lemma reset_full_deck_witness :
  Deck.remainingCount (Deck.reset (fun _ _ => EmptyString) (fun i => Nat.div2 i)) = 52%nat.
Proof.
  apply (reset_full_deck (fun _ _ => EmptyString) (fun i => Nat.div2 i)).
  intros i. apply Nat.div2_decr. lia.
Defined.

(** X20. [dealCards(count)] deals nothing and leaves the deck as it is
    when fewer than [count] cards remain; otherwise it deals the first
    [count] cards, and the dealt cards followed by the remaining ones are
    the deck before. *)
Theorem dealCards_splits (cards : list Card) (count : nat) :
  ((length cards < count)%nat -> Deck.dealCards cards count = ([], cards))
  /\ ((count <= length cards)%nat ->
      length (fst (Deck.dealCards cards count)) = count
      /\ fst (Deck.dealCards cards count) ++ snd (Deck.dealCards cards count) = cards
      /\ Deck.remainingCount (snd (Deck.dealCards cards count))
         = (Deck.remainingCount cards - count)%nat).
Proof.
  unfold Deck.dealCards, Deck.remainingCount. split; intros H.
  - destruct (Nat.ltb_spec (length cards) count); [reflexivity | lia].
  - destruct (Nat.ltb_spec (length cards) count); [lia|]. cbn [fst snd].
    split; [apply firstn_length_le; exact H|].
    split; [apply firstn_skipn | apply length_skipn].
Qed.

Lemma removeCard_test (card0 c : Card) :
  negb (Rank_eqb (rank c) (rank card0) && Suit_eqb (suit c) (suit card0)) = true
  <-> content c <> content card0.
Proof.
  unfold content. rewrite negb_true_iff, andb_false_iff. split.
  - intros [H | H] E; injection E as Es Er.
    + rewrite Er, Rank_eqb_refl in H. discriminate H.
    + rewrite Es in H. destruct (suit card0); discriminate H.
  - intros NE. destruct (Rank_eqb (rank c) (rank card0)) eqn:R; [|left; reflexivity].
    right. apply Rank_eqb_eq in R.
    destruct (Suit_eqb (suit c) (suit card0)) eqn:Su; [|reflexivity].
    apply Suit_eqb_eq in Su. exfalso. apply NE. congruence.
Qed.

Lemma removeCard_In (cards : list Card) (card0 c : Card) :
  In c (Deck.removeCard cards card0) <-> In c cards /\ content c <> content card0.
Proof. unfold Deck.removeCard. rewrite filter_In, removeCard_test. reflexivity. Qed.

Lemma removeCard_Subsequence (cards : list Card) (card0 : Card) :
  Subsequence (Deck.removeCard cards card0) cards.
Proof.
  unfold Deck.removeCard. induction cards as [|x rest IH]; simpl; [constructor|].
  destruct (negb _); constructor; exact IH.
Qed.

Lemma removeCard_length (cards : list Card) (card0 : Card) :
  NoDup (map content cards) -> In (content card0) (map content cards) ->
  S (length (Deck.removeCard cards card0)) = length cards.
Proof.
  unfold Deck.removeCard.
  induction cards as [|x rest IH]; simpl; intros ND Hin; [destruct Hin|].
  inversion ND as [|? ? Hnot ND']; subst.
  destruct (negb (Rank_eqb (rank x) (rank card0) && Suit_eqb (suit x) (suit card0)))
    eqn:T.
  - simpl. f_equal. apply IH; [exact ND'|].
    destruct Hin as [E | Hin]; [|exact Hin].
    apply removeCard_test in T. congruence.
  - f_equal.
    assert (E : content x = content card0).
    { destruct (content_eq_dec (content x) (content card0)) as [E | NE]; [exact E|].
      apply removeCard_test in NE. congruence. }
    rewrite E in Hnot.
    clear -Hnot. induction rest as [|y rest IH]; simpl; [reflexivity|].
    assert (Ny : content y <> content card0).
    { intros Ey. apply Hnot. left. exact Ey. }
    apply removeCard_test in Ny. rewrite Ny. simpl. f_equal. apply IH.
    intros Hin. apply Hnot. right. exact Hin.
Qed.

(** X21. [removeCard(card)] removes every card of that suit and rank,
    whatever its id, and keeps the other cards in their order; from a deck
    without duplicates that holds the card it removes exactly one card. *)
Theorem removeCard_removes (cards : list Card) (card0 : Card) :
  (forall c, In c (Deck.removeCard cards card0)
             <-> In c cards /\ content c <> content card0)
  /\ Subsequence (Deck.removeCard cards card0) cards
  /\ (NoDup (map content cards) -> In (content card0) (map content cards) ->
      S (Deck.remainingCount (Deck.removeCard cards card0))
      = Deck.remainingCount cards).
Proof.
  split; [intros c; apply removeCard_In|].
  split; [apply removeCard_Subsequence | apply removeCard_length].
Qed.

(* ================================================================= *)
(** ** The hands that the game screen deals *)

Lemma Subsequence_refl {T : Type} (items : list T) : Subsequence items items.
Proof. induction items; constructor; assumption. Qed.

Lemma Subsequence_trans {T : Type} (c : list T) :
  forall a b, Subsequence a b -> Subsequence b c -> Subsequence a c.
Proof.
  induction c as [|x c IH]; intros a b Hab Hbc.
  - inversion Hbc; subst. exact Hab.
  - inversion Hbc as [|y b' c' Hbc'|y b' c' Hbc']; subst.
    + inversion Hab as [|z a' b'' Hab'|z a' b'' Hab']; subst.
      * constructor. exact (IH _ _ Hab' Hbc').
      * apply Subsequence_skip. exact (IH _ _ Hab' Hbc').
    + apply Subsequence_skip. exact (IH _ _ Hab Hbc').
Qed.

Lemma Subsequence_app {T : Type} (s1 l1 s2 l2 : list T) :
  Subsequence s1 l1 -> Subsequence s2 l2 -> Subsequence (s1 ++ s2) (l1 ++ l2).
Proof.
  intros H1 H2. induction H1; simpl; [exact H2 | |]; constructor; assumption.
Qed.

Lemma Subsequence_map {T U : Type} (f : T -> U) (sub items : list T) :
  Subsequence sub items -> Subsequence (map f sub) (map f items).
Proof. induction 1; simpl; constructor; assumption. Qed.

Lemma Subsequence_NoDup {T : Type} (sub items : list T) :
  Subsequence sub items -> NoDup items -> NoDup sub.
Proof.
  induction 1 as [|x sub items S IH|x sub items S IH]; intros ND.
  - constructor.
  - inversion ND as [|? ? Hnot ND']; subst. constructor; [|exact (IH ND')].
    intros Hin. apply Hnot. exact (Subsequence_In _ _ S x Hin).
  - inversion ND; subst. apply IH. assumption.
Qed.

Lemma Subsequence_firstn {T : Type} (n : nat) (items : list T) :
  Subsequence (firstn n items) items.
Proof.
  revert n. induction items as [|x items IH]; intros [|n]; simpl;
    try constructor; try apply Subsequence_nil_l. apply IH.
Qed.

Lemma Subsequence_element {T : Type} (hand : list T) (hands : list (list T)) :
  In hand hands -> Subsequence hand (concat hands).
Proof.
  induction hands as [|h hands IH]; intros Hin; [destruct Hin|]. simpl.
  destruct Hin as [-> | Hin].
  - rewrite <- (app_nil_r hand) at 1.
    apply Subsequence_app; [apply Subsequence_refl | apply Subsequence_nil_l].
  - change hand with ([] ++ hand).
    apply Subsequence_app; [apply Subsequence_nil_l | exact (IH Hin)].
Qed.

(** While the deck suffices, the hands dealt are consecutive pieces of
    it. *)
Lemma dealHands_pieces (numberOfHands selectedCardCount : nat) :
  forall cards,
    (numberOfHands * selectedCardCount <= length cards)%nat ->
    concat (fst (dealHands cards numberOfHands selectedCardCount))
    ++ snd (dealHands cards numberOfHands selectedCardCount) = cards
    /\ length (fst (dealHands cards numberOfHands selectedCardCount)) = numberOfHands
    /\ forall hand, In hand (fst (dealHands cards numberOfHands selectedCardCount)) ->
                    length hand = selectedCardCount.
Proof.
  induction numberOfHands as [|n IH]; intros cards Enough.
  - simpl. split; [reflexivity|]. split; [reflexivity|]. intros hand [].
  - cbn [dealHands]. cbv zeta. unfold Deck.dealCards.
    destruct (Nat.ltb_spec (length cards) selectedCardCount); [simpl in Enough; lia|].
    cbn [fst snd concat].
    destruct (IH (skipn selectedCardCount cards)) as (Pieces & Count & Sizes).
    { rewrite length_skipn. simpl in Enough. lia. }
    split; [|split].
    + rewrite <- app_assoc, Pieces. apply firstn_skipn.
    + simpl. rewrite Count. reflexivity.
    + intros hand [<- | Hin]; [apply firstn_length_le; lia | exact (Sizes hand Hin)].
Qed.

(** A candidate made from hole cards and community cards that share no
    (Suit, Rank) is a well-formed hand. *)
Lemma candidates_wellFormed (holeCards communityCards : list Card) (cardCount : Z)
      (hand : list Card) :
  NoDup (map content (communityCards ++ holeCards)) ->
  In hand (candidates holeCards communityCards cardCount) ->
  wellFormed hand.
Proof.
  intros ND Hin. split; [exact (candidates_five _ _ _ _ Hin)|].
  unfold candidates in Hin. apply in_map_iff in Hin. destruct Hin as ([h b] & <- & Hin).
  assert (Parts : Subsequence h holeCards /\ Subsequence b communityCards).
  { unfold allCombinations in Hin.
    destruct (cardCount =? 2); [apply in_app_or in Hin; destruct Hin as [Hin | Hin]|];
      apply pairUp_In in Hin; destruct Hin as [Hh Hb];
      apply combinations_In_iff in Hh, Hb; tauto. }
  destruct Parts as [Sh Sb]. cbn [fst snd]. rewrite map_app.
  apply (Permutation_NoDup (Permutation_app_comm _ _)). rewrite <- map_app.
  apply (Subsequence_NoDup _ (map content (communityCards ++ holeCards)));
    [|exact ND].
  apply Subsequence_map, Subsequence_app; assumption.
Qed.

Lemma deal_round (deck : list Card) (numberOfHands selectedCardCount : nat) :
  length deck = 52%nat -> NoDup (map content deck) ->
  (numberOfHands <= 8)%nat -> (selectedCardCount <= 5)%nat ->
  let round := (fst (Deck.dealCards deck 5),
                fst (dealHands (snd (Deck.dealCards deck 5))
                               numberOfHands selectedCardCount)) in
  let community := fst round in
  let hands := snd round in
  length community = 5%nat
  /\ length hands = numberOfHands
  /\ (forall hand, In hand hands -> length hand = selectedCardCount)
  /\ NoDup (map content (community ++ concat hands))
  /\ forall hand five,
       In hand hands ->
       In five (candidates hand community (Z.of_nat selectedCardCount)) ->
       wellFormed five.
Proof.
  intros Ldeck ND Hn Hk. cbv zeta. cbn [fst snd].
  assert (Deal : Deck.dealCards deck 5 = (firstn 5 deck, skipn 5 deck)).
  { unfold Deck.dealCards. rewrite Ldeck. reflexivity. }
  rewrite !Deal. cbn [fst snd].
  destruct (dealHands_pieces numberOfHands selectedCardCount (skipn 5 deck))
    as (Pieces & Count & Sizes).
  { rewrite length_skipn, Ldeck. nia. }
  set (hands := fst (dealHands (skipn 5 deck) numberOfHands selectedCardCount)) in *.
  assert (Whole : Subsequence (firstn 5 deck ++ concat hands) deck).
  { assert (Rest : Subsequence (concat hands) (skipn 5 deck)).
    { rewrite <- Pieces. rewrite <- (app_nil_r (concat hands)) at 1.
      apply Subsequence_app; [apply Subsequence_refl | apply Subsequence_nil_l]. }
    pose proof (Subsequence_app _ _ _ _ (Subsequence_refl (firstn 5 deck)) Rest) as W.
    rewrite firstn_skipn in W. exact W. }
  assert (Distinct : NoDup (map content (firstn 5 deck ++ concat hands))).
  { apply (Subsequence_NoDup _ (map content deck)); [|exact ND].
    apply Subsequence_map. exact Whole. }
  split; [apply firstn_length_le; lia|]. split; [exact Count|].
  split; [exact Sizes|]. split; [exact Distinct|].
  intros hand five Hin Hc.
  apply (candidates_wellFormed hand (firstn 5 deck) (Z.of_nat selectedCardCount) five);
    [|exact Hc].
  apply (Subsequence_NoDup _ (map content (firstn 5 deck ++ concat hands)));
    [|exact Distinct].
  apply Subsequence_map, Subsequence_app;
    [apply Subsequence_refl | apply Subsequence_element; exact Hin].
Qed.

Lemma reset_length (suffix : Suit -> Rank -> string) (pick : nat -> nat) :
  length (Deck.reset suffix pick) = 52%nat.
Proof.
  unfold Deck.reset.
  rewrite (Permutation_length (shuffle_Permutation pick _)). reflexivity.
Qed.

(** X22. [startGame] with at most 8 hands of at most 5 cards deals five
    community cards and the hands in full, no (Suit, Rank) twice among all
    the cards dealt; so every candidate hand that [findBestHand] evaluates
    for a dealt hand is a well-formed 5-card hand. *)
Theorem startGame_deals (suffix : Suit -> Rank -> string) (pick : nat -> nat)
        (numberOfHands selectedCardCount : nat) :
  (forall i, (pick i <= i)%nat) ->
  (numberOfHands <= 8)%nat -> (selectedCardCount <= 5)%nat ->
  let community := fst (startGame suffix pick numberOfHands selectedCardCount) in
  let hands := snd (startGame suffix pick numberOfHands selectedCardCount) in
  length community = 5%nat
  /\ length hands = numberOfHands
  /\ (forall hand, In hand hands -> length hand = selectedCardCount)
  /\ NoDup (map content (community ++ concat hands))
  /\ forall hand five,
       In hand hands ->
       In five (candidates hand community (Z.of_nat selectedCardCount)) ->
       wellFormed five.
Proof.
  intros _ Hn Hk.
  exact (deal_round (Deck.reset suffix pick) numberOfHands selectedCardCount
           (reset_length suffix pick) (reset_distinct suffix pick) Hn Hk).
Qed.

Lemma startGame_deals_witness :
  length (fst (startGame (fun _ _ => EmptyString) (fun i => Nat.div2 i) 3 4)) = 5%nat.
Proof.
  assert (InRange : forall i, (Nat.div2 i <= i)%nat)
    by (intros i; apply Nat.div2_decr; lia).
  assert (Hands : (3 <= 8)%nat) by lia.
  assert (Cards : (4 <= 5)%nat) by lia.
  pose proof (startGame_deals (fun _ _ => EmptyString) (fun i => Nat.div2 i) 3 4
                InRange Hands Cards) as Dealt.
  cbv zeta in Dealt. exact (proj1 Dealt).
Defined.

(* ================================================================= *)
(** ** Re-dealing the hands around the same community cards *)

Lemma removeCard_keeps (cards : list Card) (card0 : Card) :
  NoDup (map content cards) ->
  (length cards <= S (length (Deck.removeCard cards card0)))%nat.
Proof.
  intros ND.
  destruct (in_dec content_eq_dec (content card0) (map content cards)) as [Hin | Hout].
  - rewrite (removeCard_length cards card0 ND Hin). lia.
  - assert (Same : Deck.removeCard cards card0 = cards).
    { clear ND. induction cards as [|c cards IH]; [reflexivity|].
      unfold Deck.removeCard in *. cbn [filter].
      destruct (negb (Rank_eqb (rank c) (rank card0) && Suit_eqb (suit c) (suit card0)))
        eqn:Test.
      - f_equal. apply IH. intros Hin. apply Hout. right. exact Hin.
      - exfalso. apply Hout. left.
        destruct (content_eq_dec (content c) (content card0)) as [E | NE]; [exact E|].
        apply removeCard_test in NE. congruence. }
    rewrite Same. lia.
Qed.

Lemma removeCards_remaining (communityCards : list Card) :
  forall cards,
    Subsequence (fold_left Deck.removeCard communityCards cards) cards
    /\ (forall c, In c (fold_left Deck.removeCard communityCards cards)
                  <-> In c cards
                      /\ forall c0, In c0 communityCards -> content c <> content c0)
    /\ (NoDup (map content cards) ->
        (length cards
         <= length communityCards
            + length (fold_left Deck.removeCard communityCards cards))%nat).
Proof.
  induction communityCards as [|card0 communityCards IH]; intros cards; cbn [fold_left].
  - split; [apply Subsequence_refl|]. split; [|cbn [length]; lia].
    intros c. split; [intros Hin; split; [exact Hin | intros c0 []] | intros [Hin _]; exact Hin].
  - destruct (IH (Deck.removeCard cards card0)) as (Sub & Mem & Len).
    split; [|split].
    + apply (Subsequence_trans cards _ _ Sub). apply removeCard_Subsequence.
    + intros c. rewrite Mem, removeCard_In. split.
      * intros [[Hin Hne] Hall]. split; [exact Hin|].
        intros c0 [<- | Hin0]; [exact Hne | apply Hall; exact Hin0].
      * intros [Hin Hall]. split; [split; [exact Hin | apply Hall; left; reflexivity]|].
        intros c0 Hin0. apply Hall. right. exact Hin0.
    + intros ND. pose proof (removeCard_keeps cards card0 ND) as Keep.
      assert (ND' : NoDup (map content (Deck.removeCard cards card0))).
      { apply (Subsequence_NoDup _ (map content cards)); [|exact ND].
        apply Subsequence_map, removeCard_Subsequence. }
      specialize (Len ND'). cbn [length]. lia.
Qed.

Lemma redeal_round (deck communityCards : list Card)
      (numberOfHands selectedCardCount : nat) :
  length deck = 52%nat -> NoDup (map content deck) ->
  (numberOfHands * selectedCardCount + length communityCards <= 52)%nat ->
  let hands := fst (dealHands (fold_left Deck.removeCard communityCards deck)
                              numberOfHands selectedCardCount) in
  length hands = numberOfHands
  /\ (forall hand, In hand hands -> length hand = selectedCardCount)
  /\ NoDup (map content (concat hands))
  /\ (forall hand c c0,
        In hand hands -> In c hand -> In c0 communityCards -> content c <> content c0)
  /\ (NoDup (map content communityCards) ->
      forall hand five,
        In hand hands ->
        In five (candidates hand communityCards (Z.of_nat selectedCardCount)) ->
        wellFormed five).
Proof.
  intros Ldeck ND Room. cbv zeta.
  destruct (removeCards_remaining communityCards deck) as (Sub & Mem & Len).
  specialize (Len ND).
  set (rest := fold_left Deck.removeCard communityCards deck) in *.
  destruct (dealHands_pieces numberOfHands selectedCardCount rest)
    as (Pieces & Count & Sizes); [lia|].
  set (hands := fst (dealHands rest numberOfHands selectedCardCount)) in *.
  assert (Dealt : Subsequence (concat hands) rest).
  { rewrite <- Pieces. rewrite <- (app_nil_r (concat hands)) at 1.
    apply Subsequence_app; [apply Subsequence_refl | apply Subsequence_nil_l]. }
  assert (Distinct : NoDup (map content (concat hands))).
  { apply (Subsequence_NoDup _ (map content deck)); [|exact ND].
    apply Subsequence_map. apply (Subsequence_trans deck _ _ Dealt Sub). }
  assert (Apart : forall hand c c0,
             In hand hands -> In c hand -> In c0 communityCards ->
             content c <> content c0).
  { intros hand c c0 Hhand Hc Hc0.
    assert (Hrest : In c rest).
    { apply (Subsequence_In _ _ Dealt).
      apply (Subsequence_In _ _ (Subsequence_element hand hands Hhand)). exact Hc. }
    apply Mem in Hrest. destruct Hrest as [_ Hall]. apply Hall. exact Hc0. }
  split; [exact Count|]. split; [exact Sizes|]. split; [exact Distinct|].
  split; [exact Apart|].
  intros NDc hand five Hhand Hfive.
  apply (candidates_wellFormed hand communityCards (Z.of_nat selectedCardCount) five);
    [|exact Hfive].
  rewrite map_app. apply NoDup_app; [exact NDc | |].
  - apply (Subsequence_NoDup _ (map content (concat hands))); [|exact Distinct].
    apply Subsequence_map, Subsequence_element. exact Hhand.
  - intros x Hx Hy. apply in_map_iff in Hx. destruct Hx as (c0 & <- & Hc0).
    apply in_map_iff in Hy. destruct Hy as (c & E & Hc).
    exact (Apart hand c c0 Hhand Hc Hc0 E).
Qed.

(** X23 ([redealHands], part_001 161-199, with [Deck.removeCard] and
    [Deck.dealCards]): the redeal builds a new deck, removes every community
    card from it by suit and rank, and deals the hands from what is left.
    While the hands and the community cards fit into one deck, it deals
    [numberOfHands] hands of [selectedCardCount] cards each; no card of any
    hand has the suit and rank of another dealt card or of a community card;
    and, when the community cards are distinct, every five-card candidate the
    search builds from a hand and the community cards is a well-formed hand. *)
Theorem redealHands_deals (suffix : Suit -> Rank -> string) (pick : nat -> nat)
        (communityCards : list Card) (numberOfHands selectedCardCount : nat) :
  (forall i, (pick i <= i)%nat) ->
  (numberOfHands * selectedCardCount + length communityCards <= 52)%nat ->
  let hands := redealHands suffix pick communityCards numberOfHands selectedCardCount in
  length hands = numberOfHands
  /\ (forall hand, In hand hands -> length hand = selectedCardCount)
  /\ NoDup (map content (concat hands))
  /\ (forall hand c c0,
        In hand hands -> In c hand -> In c0 communityCards -> content c <> content c0)
  /\ (NoDup (map content communityCards) ->
      forall hand five,
        In hand hands ->
        In five (candidates hand communityCards (Z.of_nat selectedCardCount)) ->
        wellFormed five).
Proof.
  intros _ Room.
  exact (redeal_round (Deck.reset suffix pick) communityCards
           numberOfHands selectedCardCount
           (reset_length suffix pick) (reset_distinct suffix pick) Room).
Qed.

Lemma redealHands_deals_witness :
  length (redealHands (fun _ _ => EmptyString) (fun i => Nat.div2 i) board 3 4) = 3%nat.
Proof.
  assert (InRange : forall i, (Nat.div2 i <= i)%nat)
    by (intros i; apply Nat.div2_decr; lia).
  assert (Room : (3 * 4 + length board <= 52)%nat) by (cbn; lia).
  pose proof (redealHands_deals (fun _ _ => EmptyString) (fun i => Nat.div2 i) board 3 4
                InRange Room) as Dealt.
  cbv zeta in Dealt. exact (proj1 Dealt).
Defined.

(* ================================================================= *)
(** ** The answers that the game screen accepts *)

Lemma allEvaluationsOf_each (communityCards : list Card) (selectedCardCount : Z)
      (hands : list (list Card)) :
  exists allEvaluations,
    allEvaluationsOf hands communityCards selectedCardCount = Ok allEvaluations
    /\ Forall2 (fun hand e => findBestHand hand communityCards selectedCardCount = Ok e)
               hands allEvaluations.
Proof.
  unfold allEvaluationsOf. induction hands as [|hand hands IH].
  - exists []. split; [reflexivity | constructor].
  - destruct IH as (rest & Erest & Each).
    destruct (findBestHand_invariants hand communityCards selectedCardCount)
      as (e & Ee & _).
    exists (e :: rest). split.
    + cbn [mapResult]. rewrite Ee. cbn [bind]. rewrite Erest. reflexivity.
    + constructor; assumption.
Qed.

Lemma Forall2_In_r {A B : Type} (R : A -> B -> Prop) (xs : list A) (ys : list B) :
  Forall2 R xs ys -> forall y, In y ys -> exists x, In x xs /\ R x y.
Proof.
  induction 1 as [|x y xs ys Rxy _ IH]; intros y0 Hin; [destruct Hin|].
  destruct Hin as [<- | Hin].
  - exists x. split; [left; reflexivity | exact Rxy].
  - destruct (IH y0 Hin) as (x0 & Hx0 & Rx0). exists x0. split; [right|]; assumption.
Qed.

Lemma evaluation_low (hand communityCards : list Card) (cardCount : Z)
      (e : HandEvaluation) (lowHand : list Card) :
  findBestHand hand communityCards cardCount = Ok e ->
  bestLowHand e = Some lowHand -> length lowHand = 5%nat.
Proof.
  intros Ee Elow.
  destruct (findBestHand_invariants hand communityCards cardCount) as (e' & Ee' & _ & Low).
  rewrite Ee in Ee'. injection Ee' as <-. rewrite Elow in Low.
  destruct Low as (Hin & _). exact (candidates_five _ _ _ _ Hin).
Qed.

Lemma compareLowHands_le_trans (A B C : list Card) :
  length A = 5%nat -> length B = 5%nat -> length C = 5%nat ->
  0 <= compareLowHands A B -> 0 <= compareLowHands B C -> 0 <= compareLowHands A C.
Proof.
  intros LA LB LC. rewrite !compareLowHands_lex by assumption. intros AB BC.
  apply (lexCompare_le_trans (lowValues C) (lowValues B) (lowValues A));
    rewrite ?length_lowValues; congruence.
Qed.

Lemma bestLow_least (es : list HandEvaluation) :
  (forall e lowHand, In e es -> bestLowHand e = Some lowHand -> length lowHand = 5%nat) ->
  forall first,
    length first = 5%nat ->
    length (fold_left betterLow es first) = 5%nat
    /\ (fold_left betterLow es first = first
        \/ exists e, In e es /\ bestLowHand e = Some (fold_left betterLow es first))
    /\ 0 <= compareLowHands first (fold_left betterLow es first)
    /\ forall e lowHand,
         In e es -> bestLowHand e = Some lowHand ->
         0 <= compareLowHands lowHand (fold_left betterLow es first).
Proof.
  induction es as [|e es IH]; intros Five first Lfirst; cbn [fold_left].
  - split; [exact Lfirst|]. split; [left; reflexivity|].
    split; [|intros e lowHand []].
    rewrite (proj2 (compareLowHands_swap first first)). lia.
  - assert (Five' : forall e0 lowHand,
               In e0 es -> bestLowHand e0 = Some lowHand -> length lowHand = 5%nat)
      by (intros e0 lowHand Hin; apply Five; right; exact Hin).
    specialize (IH Five').
    unfold betterLow at 2 4 6 8 10.
    destruct (bestLowHand e) as [lowHand|] eqn:Elow.
    + assert (Llow : length lowHand = 5%nat)
        by (apply (Five e); [left; reflexivity | exact Elow]).
      destruct (Z.ltb_spec (compareLowHands lowHand first) 0) as [Better | Worse].
      * destruct (IH lowHand Llow) as (Lbest & Origin & Start & Least).
        split; [exact Lbest|]. split; [|split].
        -- right. destruct Origin as [Same | (e0 & Hin & E0)].
           ++ exists e. split; [left; reflexivity|]. rewrite Same. exact Elow.
           ++ exists e0. split; [right; exact Hin | exact E0].
        -- apply (compareLowHands_le_trans first lowHand _ Lfirst Llow Lbest);
             [|exact Start].
           rewrite (proj1 (compareLowHands_swap lowHand first)). lia.
        -- intros e0 low0 [<- | Hin] E0.
           ++ rewrite Elow in E0. injection E0 as <-. exact Start.
           ++ exact (Least e0 low0 Hin E0).
      * destruct (IH first Lfirst) as (Lbest & Origin & Start & Least).
        split; [exact Lbest|]. split; [|split].
        -- destruct Origin as [Same | (e0 & Hin & E0)]; [left; exact Same|].
           right. exists e0. split; [right; exact Hin | exact E0].
        -- exact Start.
        -- intros e0 low0 [<- | Hin] E0.
           ++ rewrite Elow in E0. injection E0 as <-.
              exact (compareLowHands_le_trans lowHand first _ Llow Lfirst Lbest Worse Start).
           ++ exact (Least e0 low0 Hin E0).
    + destruct (IH first Lfirst) as (Lbest & Origin & Start & Least).
      split; [exact Lbest|]. split; [|split].
      * destruct Origin as [Same | (e0 & Hin & E0)]; [left; exact Same|].
        right. exists e0. split; [right; exact Hin | exact E0].
      * exact Start.
      * intros e0 low0 [<- | Hin] E0; [congruence | exact (Least e0 low0 Hin E0)].
Qed.

Lemma lowOf_Some (allEvaluations : list HandEvaluation) (i : nat) (lowHand : list Card) :
  lowOf allEvaluations i = Some lowHand
  <-> exists e, nth_error allEvaluations i = Some e /\ bestLowHand e = Some lowHand.
Proof.
  unfold lowOf. destruct (nth_error allEvaluations i) as [e|]; split.
  - intros H. exists e. split; [reflexivity | exact H].
  - intros (e' & [= <-] & H). exact H.
  - discriminate.
  - intros (e' & [=] & _).
Qed.

Lemma lowOf_In (allEvaluations : list HandEvaluation) (lowHand : list Card) :
  (exists e, In e allEvaluations /\ bestLowHand e = Some lowHand)
  <-> exists i, (i < length allEvaluations)%nat /\ lowOf allEvaluations i = Some lowHand.
Proof.
  split.
  - intros (e & Hin & E). apply In_nth_error in Hin. destruct Hin as (i & Hi).
    exists i. split; [apply nth_error_Some; congruence|].
    apply lowOf_Some. exists e. split; assumption.
  - intros (i & _ & H). apply lowOf_Some in H. destruct H as (e & Hi & E).
    exists e. split; [exact (nth_error_In _ _ Hi) | exact E].
Qed.

Section LowAnswers.
Variables (hands : list (list Card)) (communityCards : list Card) (selectedCardCount : Z).
Variable allEvaluations : list HandEvaluation.
Hypothesis Evaluated :
  allEvaluationsOf hands communityCards selectedCardCount = Ok allEvaluations.
Hypothesis Each :
  Forall2 (fun hand e => findBestHand hand communityCards selectedCardCount = Ok e)
          hands allEvaluations.

Lemma lows_five (e : HandEvaluation) (lowHand : list Card) :
  In e allEvaluations -> bestLowHand e = Some lowHand -> length lowHand = 5%nat.
Proof.
  intros Hin E. destruct (Forall2_In_r _ _ _ Each e Hin) as (hand & _ & Found).
  exact (evaluation_low _ _ _ _ _ Found E).
Qed.

(** The lowest of the lows, where some hand has a low. *)
Lemma lowest_low (first : HandEvaluation) (rest : list HandEvaluation)
      (firstLow : list Card) :
  filter (fun e => isSome (bestLowHand e)) allEvaluations = first :: rest ->
  bestLowHand first = Some firstLow ->
  let bestLow := fold_left betterLow (first :: rest) firstLow in
  length bestLow = 5%nat
  /\ (exists e, In e allEvaluations /\ bestLowHand e = Some bestLow)
  /\ forall e lowHand,
       In e allEvaluations -> bestLowHand e = Some lowHand ->
       0 <= compareLowHands lowHand bestLow.
Proof.
  intros Elows Efirst bestLow.
  assert (Mem : forall e, In e (first :: rest)
                          <-> In e allEvaluations /\ isSome (bestLowHand e) = true)
    by (intros e; rewrite <- Elows; apply filter_In).
  assert (Hfirst : In first allEvaluations) by (apply Mem; left; reflexivity).
  destruct (bestLow_least (first :: rest)) with (first := firstLow)
    as (Lbest & Origin & _ & Least).
  - intros e lowHand Hin E. apply (lows_five e); [apply Mem; exact Hin | exact E].
  - exact (lows_five first firstLow Hfirst Efirst).
  - fold bestLow in Lbest, Origin, Least.
    split; [exact Lbest|]. split.
    + destruct Origin as [Same | (e & Hin & E)].
      * exists first. split; [exact Hfirst | rewrite Same; exact Efirst].
      * exists e. split; [apply Mem; exact Hin | exact E].
    + intros e lowHand Hin E. apply (Least e); [|exact E].
      apply Mem. split; [exact Hin | rewrite E; reflexivity].
Qed.

Lemma checkAnswer_low_iff (handIndex : nat) :
  checkAnswer hands communityCards selectedCardCount handIndex Low = Ok true
  <-> exists lowHand,
        lowOf allEvaluations handIndex = Some lowHand
        /\ forall j other, lowOf allEvaluations j = Some other ->
                           0 <= compareLowHands other lowHand.
Proof.
  unfold checkAnswer. rewrite Evaluated. cbn [bind]. cbv zeta.
  destruct (filter (fun e => isSome (bestLowHand e)) allEvaluations)
    as [|first rest] eqn:Elows.
  - cbn [length Nat.eqb]. split; [discriminate|].
    intros (lowHand & Hlow & _). apply lowOf_Some in Hlow.
    destruct Hlow as (e & Hi & E). apply nth_error_In in Hi.
    assert (Hin : In e []).
    { rewrite <- Elows. apply filter_In. split; [exact Hi | rewrite E; reflexivity]. }
    destruct Hin.
  - cbn [length Nat.eqb].
    destruct (nth_error allEvaluations handIndex) as [currentEval|] eqn:Ecurrent.
    2:{ split; [discriminate|]. intros (lowHand & Hlow & _).
        apply lowOf_Some in Hlow. destruct Hlow as (e & Hi & _). congruence. }
    destruct (bestLowHand currentEval) as [currentLow|] eqn:EcurrentLow.
    2:{ split; [discriminate|]. intros (lowHand & Hlow & _).
        apply lowOf_Some in Hlow. destruct Hlow as (e & Hi & E). congruence. }
    assert (Hfirst : isSome (bestLowHand first) = true).
    { assert (Hin : In first (first :: rest)) by (left; reflexivity).
      rewrite <- Elows in Hin. apply filter_In in Hin. exact (proj2 Hin). }
    destruct (bestLowHand first) as [firstLow|] eqn:Efirst; [|discriminate].
    destruct (lowest_low first rest firstLow Elows Efirst)
      as (Lbest & (eb & Hb & Eb) & Least).
    set (bestLow := fold_left betterLow (first :: rest) firstLow) in *.
    assert (Hcurrent : In currentEval allEvaluations)
      by exact (nth_error_In _ _ Ecurrent).
    assert (Lcurrent : length currentLow = 5%nat)
      by exact (lows_five currentEval currentLow Hcurrent EcurrentLow).
    pose proof (Least currentEval currentLow Hcurrent EcurrentLow) as NotBelow.
    pose proof (proj1 (compareLowHands_swap currentLow bestLow)) as Swap.
    unfold areLowHandsEqual. split.
    + intros [= Equal]. apply Z.eqb_eq in Equal.
      exists currentLow. split.
      { apply lowOf_Some. exists currentEval. split; [exact Ecurrent | exact EcurrentLow]. }
      intros j other Hother. apply lowOf_Some in Hother.
      destruct Hother as (e & Hj & E). apply nth_error_In in Hj.
      apply (compareLowHands_le_trans other bestLow currentLow
               (lows_five e other Hj E) Lbest Lcurrent).
      * exact (Least e other Hj E).
      * rewrite Swap, Equal. lia.
    + intros (lowHand & Hlow & Unbeaten).
      apply lowOf_Some in Hlow. destruct Hlow as (e & Hi & E).
      rewrite Ecurrent in Hi. injection Hi as <-.
      rewrite EcurrentLow in E. injection E as <-.
      assert (Hbest : exists i, (i < length allEvaluations)%nat
                                /\ lowOf allEvaluations i = Some bestLow).
      { apply lowOf_In. exists eb. split; assumption. }
      destruct Hbest as (i & _ & Hi). specialize (Unbeaten i bestLow Hi).
      f_equal. apply Z.eqb_eq. lia.
Qed.

Lemma checkAnswer_low_none (handIndex : nat) :
  (forall j, lowOf allEvaluations j = None) ->
  checkAnswer hands communityCards selectedCardCount handIndex Low = Ok false.
Proof.
  intros NoLow. unfold checkAnswer. rewrite Evaluated. cbn [bind]. cbv zeta.
  destruct (filter (fun e => isSome (bestLowHand e)) allEvaluations)
    as [|first rest] eqn:Elows; [reflexivity|].
  exfalso.
  assert (Hin : In first (first :: rest)) by (left; reflexivity).
  rewrite <- Elows in Hin. apply filter_In in Hin. destruct Hin as [Hin Has].
  destruct (bestLowHand first) as [firstLow|] eqn:Efirst; [|discriminate].
  assert (Hi : exists i, (i < length allEvaluations)%nat
                         /\ lowOf allEvaluations i = Some firstLow).
  { apply lowOf_In. exists first. split; assumption. }
  destruct Hi as (i & _ & Hi). rewrite NoLow in Hi. discriminate.
Qed.

Lemma checkAnswer_low_missing (handIndex : nat) :
  (length hands <= handIndex)%nat ->
  (exists j lowHand, lowOf allEvaluations j = Some lowHand) ->
  checkAnswer hands communityCards selectedCardCount handIndex Low
  = Throw PropertyOfUndefined.
Proof.
  intros Beyond (j & lowHand & Hj). unfold checkAnswer. rewrite Evaluated.
  cbn [bind]. cbv zeta.
  destruct (filter (fun e => isSome (bestLowHand e)) allEvaluations)
    as [|first rest] eqn:Elows.
  - exfalso. apply lowOf_Some in Hj. destruct Hj as (e & Hi & E).
    apply nth_error_In in Hi.
    assert (Hin : In e []).
    { rewrite <- Elows. apply filter_In. split; [exact Hi | rewrite E; reflexivity]. }
    destruct Hin.
  - cbn [length Nat.eqb].
    assert (Enone : nth_error allEvaluations handIndex = None).
    { apply nth_error_None. rewrite <- (Forall2_length Each). exact Beyond. }
    rewrite Enone. reflexivity.
Qed.

End LowAnswers.

(** X24 ([checkAnswer] with the answer ['low'], part_001 226-284, with
    [compareLowHands] and [areLowHandsEqual]): every hand is evaluated, and
    the answer 'low' for a hand is accepted exactly when that hand has a low
    hand and the low hand of no hand beats it.  With no low hand at all every
    index is answered false; with some low hand an index past the last hand
    raises the TypeError of reading a property of [undefined]. *)
Theorem checkAnswer_low_correct (hands : list (list Card)) (communityCards : list Card)
        (selectedCardCount : Z) (handIndex : nat) :
  exists allEvaluations,
    allEvaluationsOf hands communityCards selectedCardCount = Ok allEvaluations
    /\ length allEvaluations = length hands
    /\ (checkAnswer hands communityCards selectedCardCount handIndex Low = Ok true
        <-> exists lowHand,
              lowOf allEvaluations handIndex = Some lowHand
              /\ forall j other, lowOf allEvaluations j = Some other ->
                                 0 <= compareLowHands other lowHand)
    /\ ((forall j, lowOf allEvaluations j = None) ->
        checkAnswer hands communityCards selectedCardCount handIndex Low = Ok false)
    /\ ((length hands <= handIndex)%nat ->
        (exists j lowHand, lowOf allEvaluations j = Some lowHand) ->
        checkAnswer hands communityCards selectedCardCount handIndex Low
        = Throw PropertyOfUndefined).
Proof.
  destruct (allEvaluationsOf_each communityCards selectedCardCount hands)
    as (allEvaluations & Evaluated & Each).
  exists allEvaluations. split; [exact Evaluated|].
  split; [symmetry; exact (Forall2_length Each)|].
  split; [exact (checkAnswer_low_iff _ _ _ _ Evaluated Each handIndex)|].
  split.
  - exact (checkAnswer_low_none _ _ _ _ Evaluated handIndex).
  - exact (checkAnswer_low_missing _ _ _ _ Evaluated Each handIndex).
Qed.

(** X25 ([checkNoLowAnswer], part_001 286-291, with [checkAnswer]): the two
    answers about the low exclude each other and one of them is right.
    Either "no low" is accepted and the answer 'low' is rejected for every
    hand index, or "no low" is rejected and the answer 'low' is accepted for
    at least one of the hands. *)
Theorem checkNoLowAnswer_exclusive (hands : list (list Card))
        (communityCards : list Card) (selectedCardCount : Z) :
  (checkNoLowAnswer hands communityCards selectedCardCount = Ok true
   /\ forall i, checkAnswer hands communityCards selectedCardCount i Low = Ok false)
  \/ (checkNoLowAnswer hands communityCards selectedCardCount = Ok false
      /\ exists i, (i < length hands)%nat
                   /\ checkAnswer hands communityCards selectedCardCount i Low = Ok true).
Proof.
  destruct (allEvaluationsOf_each communityCards selectedCardCount hands)
    as (allEvaluations & Evaluated & Each).
  unfold checkNoLowAnswer. rewrite Evaluated. cbn [bind].
  destruct (existsb (fun e => isSome (bestLowHand e)) allEvaluations) eqn:Some_.
  - right. split; [reflexivity|].
    apply existsb_exists in Some_. destruct Some_ as (e0 & Hin0 & Has0).
    destruct (filter (fun e => isSome (bestLowHand e)) allEvaluations)
      as [|first rest] eqn:Elows.
    { exfalso. assert (Hin : In e0 []) by (rewrite <- Elows; apply filter_In; auto).
      destruct Hin. }
    assert (Hfirst : isSome (bestLowHand first) = true).
    { assert (Hin : In first (first :: rest)) by (left; reflexivity).
      rewrite <- Elows in Hin. apply filter_In in Hin. exact (proj2 Hin). }
    destruct (bestLowHand first) as [firstLow|] eqn:Efirst; [|discriminate].
    destruct (lowest_low hands communityCards selectedCardCount allEvaluations Each
                first rest firstLow Elows Efirst) as (_ & Origin & Least).
    set (bestLow := fold_left betterLow (first :: rest) firstLow) in *.
    apply lowOf_In in Origin. destruct Origin as (i & Hi & Hlow).
    exists i. split; [rewrite (Forall2_length Each); exact Hi|].
    apply (checkAnswer_low_iff _ _ _ _ Evaluated Each i).
    exists bestLow. split; [exact Hlow|].
    intros j other Hother. apply lowOf_Some in Hother.
    destruct Hother as (e & Hj & E). exact (Least e other (nth_error_In _ _ Hj) E).
  - left. split; [reflexivity|]. intros i.
    apply (checkAnswer_low_none _ _ _ _ Evaluated i).
    intros j. destruct (lowOf allEvaluations j) as [lowHand|] eqn:Hj; [|reflexivity].
    exfalso. apply lowOf_Some in Hj. destruct Hj as (e & Hj & E).
    assert (Has : existsb (fun e => isSome (bestLowHand e)) allEvaluations = true).
    { apply existsb_exists. exists e. split; [exact (nth_error_In _ _ Hj)|].
      rewrite E. reflexivity. }
    congruence.
Qed.

Lemma evaluation_high (hand communityCards : list Card) (cardCount : Z)
      (e : HandEvaluation) :
  candidates hand communityCards cardCount <> [] ->
  findBestHand hand communityCards cardCount = Ok e ->
  inCategory (bestHighRank e) (bestHighHand e).
Proof.
  intros Some_ Ee.
  destruct (findBestHand_invariants hand communityCards cardCount) as (e' & Ee' & High & _).
  rewrite Ee in Ee'. injection Ee' as <-.
  destruct High as [[Empty _] | (Hin & Cat & _)]; [contradiction|].
  split; [exact (candidates_five _ _ _ _ Hin) | exact Cat].
Qed.

Lemma compareHighHands_swap (category : HandRank) (a b : list Card) :
  inCategory category a -> inCategory category b ->
  exists z, compareHighHands a b category = Ok z
            /\ compareHighHands b a category = Ok (- z).
Proof.
  intros [La Ca] [Lb Cb].
  destruct (compare_same_category a b category La Lb Ca Cb)
    as (ka & kb & Ka & Kb & _ & Cab).
  destruct (compare_same_category b a category Lb La Cb Ca)
    as (kb' & ka' & Kb' & Ka' & _ & Cba).
  assert (ka' = ka) by congruence. assert (kb' = kb) by congruence. subst ka' kb'.
  exists (lexCompare ka kb). split; [exact Cab|].
  rewrite Cba. f_equal. apply lexCompare_antisym.
Qed.

Lemma notAbove_refl (category : HandRank) (a : list Card) :
  inCategory category a -> notAbove category a a.
Proof.
  intros [La Ca].
  destruct (compare_same_category a a category La La Ca Ca)
    as (k1 & k2 & K1 & K2 & _ & C).
  assert (k2 = k1) by congruence. subst k2.
  exists 0. rewrite C, lexCompare_refl. split; [reflexivity | lia].
Qed.

Lemma notAbove_trans (category : HandRank) (a b d : list Card) :
  inCategory category a -> inCategory category b -> inCategory category d ->
  notAbove category a b -> notAbove category b d -> notAbove category a d.
Proof.
  intros [La Ca] [Lb Cb] [Ld Cd] (z1 & C1 & P1) (z2 & C2 & P2).
  destruct (compare_same_category a b category La Lb Ca Cb)
    as (ka & kb & Ka & Kb & Lab & Cab).
  destruct (compare_same_category b d category Lb Ld Cb Cd)
    as (kb' & kd & Kb' & Kd & Lbd & Cbd).
  destruct (compare_same_category a d category La Ld Ca Cd)
    as (ka' & kd' & Ka' & Kd' & _ & Cad).
  assert (ka' = ka) by congruence. assert (kb' = kb) by congruence.
  assert (kd' = kd) by congruence. subst ka' kb' kd'.
  exists (lexCompare ka kd). split; [exact Cad|].
  apply (lexCompare_le_trans ka kb kd Lab Lbd).
  - rewrite Cab in C1. injection C1 as <-. exact P1.
  - rewrite Cbd in C2. injection C2 as <-. exact P2.
Qed.

Lemma notBetterHigh_cases (ca cb : HandRank) (a b : list Card) :
  inCategory ca a -> inCategory cb b ->
  notBetterHigh a b
  <-> handRankValue ca < handRankValue cb \/ (ca = cb /\ notAbove cb a b).
Proof.
  intros [_ Ca] [_ Cb]. unfold notBetterHigh, notAbove. rewrite Ca, Cb. reflexivity.
Qed.

Lemma notBetterHigh_total (a b : list Card) :
  length a = 5%nat -> length b = 5%nat -> notBetterHigh a b \/ notBetterHigh b a.
Proof.
  intros La Lb.
  assert (Ia : inCategory (evaluateHand a) a) by (split; [exact La | reflexivity]).
  assert (Ib : inCategory (evaluateHand b) b) by (split; [exact Lb | reflexivity]).
  rewrite (notBetterHigh_cases _ _ a b Ia Ib), (notBetterHigh_cases _ _ b a Ib Ia).
  destruct (Z.lt_trichotomy (handRankValue (evaluateHand a))
                            (handRankValue (evaluateHand b))) as [Lt | [Eq | Gt]].
  - left. left. exact Lt.
  - apply handRankValue_inj in Eq. rewrite Eq in Ia.
    destruct (compareHighHands_swap _ a b Ia Ib) as (z & Cab & Cba).
    destruct (Z.le_gt_cases 0 z) as [Pos | Neg].
    + left. right. split; [exact Eq|]. exists z. split; [exact Cab | exact Pos].
    + right. right. split; [symmetry; exact Eq|]. rewrite Eq.
      exists (- z). split; [exact Cba | lia].
  - right. left. lia.
Qed.

Lemma notBetterHigh_trans (a b d : list Card) :
  length a = 5%nat -> length b = 5%nat -> length d = 5%nat ->
  notBetterHigh a b -> notBetterHigh b d -> notBetterHigh a d.
Proof.
  intros La Lb Ld.
  assert (Ia : inCategory (evaluateHand a) a) by (split; [exact La | reflexivity]).
  assert (Ib : inCategory (evaluateHand b) b) by (split; [exact Lb | reflexivity]).
  assert (Id : inCategory (evaluateHand d) d) by (split; [exact Ld | reflexivity]).
  rewrite (notBetterHigh_cases _ _ a b Ia Ib), (notBetterHigh_cases _ _ b d Ib Id),
    (notBetterHigh_cases _ _ a d Ia Id).
  intros [Lt1 | [E1 N1]] [Lt2 | [E2 N2]].
  - left. lia.
  - left. rewrite <- E2. exact Lt1.
  - left. rewrite E1. exact Lt2.
  - right. split; [congruence|].
    rewrite E1, E2 in Ia. rewrite E2 in Ib, N1.
    exact (notAbove_trans _ a b d Ia Ib Id N1 N2).
Qed.

Lemma Math_max_greatest (x : Z) (xs : list Z) :
  exists m, Math_max (x :: xs) = Num m
            /\ In m (x :: xs) /\ forall v, In v (x :: xs) -> v <= m.
Proof.
  unfold Math_max. cbn [fold_left].
  assert (G : forall ys a,
             exists m,
               fold_left (fun m x => match m with Num y => Num (Z.max y x) | _ => Num x end)
                         ys (Num a) = Num m
               /\ (m = a \/ In m ys) /\ a <= m /\ forall v, In v ys -> v <= m).
  { induction ys as [|y ys IH]; intros a; cbn [fold_left].
    - exists a. split; [reflexivity|]. split; [left; reflexivity|].
      split; [lia | intros v []].
    - destruct (IH (Z.max a y)) as (m & Em & Origin & Above & All).
      exists m. split; [exact Em|]. split; [|split; [lia|]].
      + destruct Origin as [-> | Hin]; [|right; right; exact Hin].
        destruct (Z.max_spec a y) as [[_ ->] | [_ ->]];
          [right; left; reflexivity | left; reflexivity].
      + intros v [<- | Hin]; [lia | exact (All v Hin)]. }
  destruct (G xs x) as (m & Em & Origin & Above & All).
  exists m. split; [exact Em|]. split.
  - destruct Origin as [-> | Hin]; [left; reflexivity | right; exact Hin].
  - intros v [<- | Hin]; [exact Above | exact (All v Hin)].
Qed.

Lemma withIndex_In {A : Type} (xs : list A) :
  forall k e i,
    In (e, i) (withIndex k xs) <-> (k <= i)%nat /\ nth_error xs (i - k) = Some e.
Proof.
  induction xs as [|x xs IH]; intros k e i; cbn [withIndex].
  - split; [intros [] | intros [_ H]]. destruct (i - k)%nat; discriminate.
  - cbn [In]. rewrite IH. split.
    + intros [[= <- <-] | [Le H]].
      * split; [lia|]. rewrite Nat.sub_diag. reflexivity.
      * split; [lia|]. replace (i - k)%nat with (S (i - S k)) by lia. exact H.
    + intros [Le H]. destruct (Nat.eq_dec i k) as [-> | NE].
      * left. rewrite Nat.sub_diag in H. cbn in H. congruence.
      * right. split; [lia|].
        replace (i - k)%nat with (S (i - S k)) in H by lia. exact H.
Qed.

Lemma findWinner_best (allEvaluations : list HandEvaluation) (category : HandRank) :
  forall challengers bestHandIndex bestEval,
    (forall p, In p challengers ->
               nth_error allEvaluations (snd p) = Some (fst p)
               /\ inCategory category (bestHighHand (fst p))) ->
    nth_error allEvaluations bestHandIndex = Some bestEval ->
    inCategory category (bestHighHand bestEval) ->
    exists winner winnerEval,
      findWinner allEvaluations category challengers bestHandIndex = Ok winner
      /\ nth_error allEvaluations winner = Some winnerEval
      /\ inCategory category (bestHighHand winnerEval)
      /\ notAbove category (bestHighHand bestEval) (bestHighHand winnerEval)
      /\ forall p, In p challengers ->
                   notAbove category (bestHighHand (fst p)) (bestHighHand winnerEval).
Proof.
  induction challengers as [|challenger rest IH];
    intros bestHandIndex bestEval Valid Ebest Ibest; cbn [findWinner].
  - exists bestHandIndex, bestEval. split; [reflexivity|]. split; [exact Ebest|].
    split; [exact Ibest|]. split; [exact (notAbove_refl _ _ Ibest) | intros p []].
  - destruct (Valid challenger (or_introl eq_refl)) as [Echallenger Ichallenger].
    assert (Valid' : forall p, In p rest ->
                        nth_error allEvaluations (snd p) = Some (fst p)
                        /\ inCategory category (bestHighHand (fst p)))
      by (intros p Hin; apply Valid; right; exact Hin).
    unfold element. rewrite Echallenger, Ebest. cbn [bind].
    destruct (compareHighHands_swap _ _ _ Ichallenger Ibest) as (z & Ccb & Cbc).
    rewrite Ccb. cbn [bind].
    destruct (Z.ltb_spec z 0) as [Better | Worse].
    + destruct (IH (snd challenger) (fst challenger) Valid' Echallenger Ichallenger)
        as (winner & winnerEval & Ew & Enth & Iw & Start & Rest).
      exists winner, winnerEval. split; [exact Ew|]. split; [exact Enth|].
      split; [exact Iw|]. split.
      * apply (notAbove_trans _ _ (bestHighHand (fst challenger)) _ Ibest Ichallenger Iw);
          [|exact Start].
        exists (- z). split; [exact Cbc | lia].
      * intros p [<- | Hin]; [exact Start | exact (Rest p Hin)].
    + destruct (IH bestHandIndex bestEval Valid' Ebest Ibest)
        as (winner & winnerEval & Ew & Enth & Iw & Start & Rest).
      exists winner, winnerEval. split; [exact Ew|]. split; [exact Enth|].
      split; [exact Iw|]. split; [exact Start|].
      intros p [<- | Hin]; [|exact (Rest p Hin)].
      apply (notAbove_trans _ _ (bestHighHand bestEval) _ Ichallenger Ibest Iw);
        [|exact Start].
      exists z. split; [exact Ccb | exact Worse].
Qed.

Lemma Math_max_map {A : Type} (f : A -> Z) (xs : list A) :
  xs <> [] ->
  exists m, Math_max (map f xs) = Num m
            /\ (exists x, In x xs /\ f x = m)
            /\ forall x, In x xs -> f x <= m.
Proof.
  destruct xs as [|x0 xs]; [congruence|]. intros _.
  destruct (Math_max_greatest (f x0) (map f xs)) as (m & Em & Hin & All).
  exists m. split; [exact Em|]. split.
  - change (In m (map f (x0 :: xs))) in Hin.
    apply in_map_iff in Hin. destruct Hin as (x & E & Hin). exists x. auto.
  - intros x Hin'. apply All. change (In (f x) (map f (x0 :: xs))).
    apply in_map. exact Hin'.
Qed.

Section HighAnswers.
Variables (hands : list (list Card)) (communityCards : list Card) (selectedCardCount : Z).
Variable allEvaluations : list HandEvaluation.
Hypothesis Evaluated :
  allEvaluationsOf hands communityCards selectedCardCount = Ok allEvaluations.
Hypothesis Categories :
  forall e, In e allEvaluations -> inCategory (bestHighRank e) (bestHighHand e).

Lemma checkAnswer_high_missing (handIndex : nat) :
  nth_error allEvaluations handIndex = None ->
  checkAnswer hands communityCards selectedCardCount handIndex Hi
  = Throw PropertyOfUndefined.
Proof.
  intros Enone. unfold checkAnswer. rewrite Evaluated. cbn [bind]. cbv zeta.
  rewrite Enone. reflexivity.
Qed.

Lemma checkAnswer_high_iff (handIndex : nat) (currentEval : HandEvaluation) :
  nth_error allEvaluations handIndex = Some currentEval ->
  exists accepted,
    checkAnswer hands communityCards selectedCardCount handIndex Hi = Ok accepted
    /\ (accepted = true
        <-> forall e, In e allEvaluations ->
                      notBetterHigh (bestHighHand e) (bestHighHand currentEval)).
Proof.
  intros Ecurrent. unfold checkAnswer. rewrite Evaluated. cbn [bind]. cbv zeta.
  rewrite Ecurrent.
  pose proof (nth_error_In _ _ Ecurrent) as Hcurrent.
  pose proof (Categories currentEval Hcurrent) as Icurrent.
  set (category := bestHighRank currentEval) in *.
  assert (Cases : forall e,
             In e allEvaluations ->
             (notBetterHigh (bestHighHand e) (bestHighHand currentEval)
              <-> handRankValue (bestHighRank e) < handRankValue category
                  \/ (bestHighRank e = category
                      /\ notAbove category (bestHighHand e) (bestHighHand currentEval)))).
  { intros e Hin. apply notBetterHigh_cases; [exact (Categories e Hin) | exact Icurrent]. }
  destruct (Math_max_map (fun e => handRankValue (bestHighRank e)) allEvaluations)
    as (m & Em & (top & Htop & Etop) & Below);
    [intros Empty; rewrite Empty in Hcurrent; destruct Hcurrent|].
  rewrite Em.
  cbn [js_eq].
  destruct (Z.eqb_spec (handRankValue category) m) as [Emax | Lower]; cbn [negb].
  2:{ exists false. split; [reflexivity|]. split; [discriminate|].
      intros Unbeaten. exfalso. specialize (Unbeaten top Htop).
      apply (Cases top Htop) in Unbeaten. pose proof (Below currentEval Hcurrent).
      fold category in H.
      destruct Unbeaten as [Lt | [Eq _]]; [lia | rewrite Eq in Etop; lia]. }
  set (handsWithBestRank :=
         filter (fun e => handRankValue (bestHighRank (fst e)) =? m)
                (withIndex 0 allEvaluations)).
  assert (Mem : forall e i,
             In (e, i) handsWithBestRank
             <-> nth_error allEvaluations i = Some e /\ bestHighRank e = category).
  { intros e i. unfold handsWithBestRank. rewrite filter_In, withIndex_In.
    cbn [fst]. rewrite Nat.sub_0_r, Z.eqb_eq, <- Emax. split.
    - intros [[_ Hi] Eq]. split; [exact Hi | exact (handRankValue_inj _ _ Eq)].
    - intros [Hi ->]. split; [split; [lia | exact Hi] | reflexivity]. }
  assert (Inside : In (currentEval, handIndex) handsWithBestRank)
    by (apply Mem; split; [exact Ecurrent | reflexivity]).
  assert (Ranked : forall e,
             In e allEvaluations ->
             handRankValue (bestHighRank e) < handRankValue category
             \/ exists i, In (e, i) handsWithBestRank).
  { intros e Hin. pose proof (Below e Hin) as Le.
    destruct (Z.eq_dec (handRankValue (bestHighRank e)) m) as [Eq | NE]; [|left; lia].
    right. apply In_nth_error in Hin. destruct Hin as (i & Hi). exists i.
    apply Mem. split; [exact Hi|]. apply handRankValue_inj. lia. }
  destruct (length handsWithBestRank =? 1)%nat eqn:Single.
  - exists true. split; [reflexivity|]. split; [intros _ | reflexivity].
    intros e Hin. apply (Cases e Hin).
    destruct (Ranked e Hin) as [Lt | (i & Hi)]; [left; exact Lt | right].
    destruct handsWithBestRank as [|only [|second more]]; try discriminate.
    destruct Inside as [-> | []]. destruct Hi as [[= <- _] | []].
    split; [reflexivity | exact (notAbove_refl _ _ Icurrent)].
  - destruct handsWithBestRank as [|first challengers] eqn:Ehands; [destruct Inside|].
    assert (Valid : forall p, In p (first :: challengers) ->
                       nth_error allEvaluations (snd p) = Some (fst p)
                       /\ inCategory category (bestHighHand (fst p))).
    { intros [e i] Hin. apply Mem in Hin. destruct Hin as [Hi Eq]. cbn [fst snd].
      split; [exact Hi|]. rewrite <- Eq. apply Categories. exact (nth_error_In _ _ Hi). }
    destruct (Valid first (or_introl eq_refl)) as [Efirst Ifirst].
    destruct (findWinner_best allEvaluations category challengers (snd first) (fst first))
      as (winner & winnerEval & Ew & Enth & Iw & Start & Rest);
      [intros p Hin; apply Valid; right; exact Hin | exact Efirst | exact Ifirst |].
    rewrite Ew. cbn [bind]. unfold element. rewrite Enth. cbn [bind].
    destruct (compareHighHands_swap _ _ _ Icurrent Iw) as (z & Ccw & Cwc).
    rewrite Ccw. cbn [bind]. exists (z =? 0). split; [reflexivity|].
    assert (All : forall p, In p (first :: challengers) ->
                     notAbove category (bestHighHand (fst p)) (bestHighHand winnerEval))
      by (intros p [<- | Hin]; [exact Start | exact (Rest p Hin)]).
    assert (Pos : 0 <= z).
    { destruct (All _ Inside) as (z' & Cz & Pz). cbn [fst] in Cz.
      rewrite Ccw in Cz. injection Cz as <-. exact Pz. }
    rewrite Z.eqb_eq. split.
    + intros ->. intros e Hin. apply (Cases e Hin).
      destruct (Ranked e Hin) as [Lt | (i & Hi)]; [left; exact Lt | right].
      destruct (Valid _ Hi) as [_ Ie]. cbn [fst] in Ie.
      split; [exact (proj2 (proj1 (Mem e i) Hi))|].
      apply (notAbove_trans _ _ (bestHighHand winnerEval) _ Ie Iw Icurrent).
      * exact (All _ Hi).
      * exists (- 0). split; [exact Cwc | lia].
    + intros Unbeaten. pose proof (nth_error_In _ _ Enth) as Hw.
      specialize (Unbeaten winnerEval Hw). apply (Cases winnerEval Hw) in Unbeaten.
      assert (Same : bestHighRank winnerEval = category).
      { destruct (Categories winnerEval Hw) as [_ C1]. destruct Iw as [_ C2]. congruence. }
      destruct Unbeaten as [Lt | [_ (z' & Cz & Pz)]]; [rewrite Same in Lt; lia|].
      rewrite Cwc in Cz. injection Cz as <-. lia.
Qed.

Lemma unbeaten_exists :
  allEvaluations <> [] ->
  exists best,
    In best allEvaluations
    /\ forall e, In e allEvaluations ->
                 notBetterHigh (bestHighHand e) (bestHighHand best).
Proof.
  assert (G : forall es,
             (forall e, In e es -> length (bestHighHand e) = 5%nat) ->
             es <> [] ->
             exists best,
               In best es
               /\ forall e, In e es ->
                            notBetterHigh (bestHighHand e) (bestHighHand best)).
  { induction es as [|e0 es IH]; intros Five NonEmpty; [congruence|].
    assert (L0 : length (bestHighHand e0) = 5%nat) by (apply Five; left; reflexivity).
    destruct es as [|e1 es'].
    - exists e0. split; [left; reflexivity|].
      intros e [<- | []]. exact (notBetterHigh_refl _ L0).
    - destruct IH as (best & Hbest & Least);
        [intros e Hin; apply Five; right; exact Hin | discriminate |].
      assert (Lb : length (bestHighHand best) = 5%nat) by (apply Five; right; exact Hbest).
      destruct (notBetterHigh_total (bestHighHand e0) (bestHighHand best) L0 Lb)
        as [Under | Over].
      + exists best. split; [right; exact Hbest|].
        intros e [<- | Hin]; [exact Under | exact (Least e Hin)].
      + exists e0. split; [left; reflexivity|].
        intros e [<- | Hin]; [exact (notBetterHigh_refl _ L0)|].
        apply (notBetterHigh_trans _ (bestHighHand best) _); try assumption.
        * apply Five. right. exact Hin.
        * exact (Least e Hin). }
  apply G. intros e Hin. exact (proj1 (Categories e Hin)).
Qed.

End HighAnswers.

Lemma evaluations_categories (hands : list (list Card)) (communityCards : list Card)
      (selectedCardCount : Z) (allEvaluations : list HandEvaluation) :
  (forall hand, In hand hands -> candidates hand communityCards selectedCardCount <> []) ->
  Forall2 (fun hand e => findBestHand hand communityCards selectedCardCount = Ok e)
          hands allEvaluations ->
  forall e, In e allEvaluations -> inCategory (bestHighRank e) (bestHighHand e).
Proof.
  intros Some_ Each e Hin.
  destruct (Forall2_In_r _ _ _ Each e Hin) as (hand & Hhand & Found).
  exact (evaluation_high _ _ _ _ (Some_ hand Hhand) Found).
Qed.

(** X26 ([checkAnswer] with the answer ['hi'], part_001 226-284, with
    [findBestHand] and [compareHighHands]): when every hand has a five-card
    candidate, the answer 'hi' for a hand is accepted exactly when the best
    hand of no hand beats the best hand of that hand, by category first and
    by the comparator within the category; the comparator never throws on
    the way.  For an index past the last hand the call raises the TypeError
    of reading a property of [undefined]. *)
Theorem checkAnswer_high_correct (hands : list (list Card)) (communityCards : list Card)
        (selectedCardCount : Z) (handIndex : nat) :
  (forall hand, In hand hands -> candidates hand communityCards selectedCardCount <> []) ->
  exists allEvaluations,
    allEvaluationsOf hands communityCards selectedCardCount = Ok allEvaluations
    /\ match nth_error allEvaluations handIndex with
       | None =>
           (length hands <= handIndex)%nat
           /\ checkAnswer hands communityCards selectedCardCount handIndex Hi
              = Throw PropertyOfUndefined
       | Some currentEval =>
           exists accepted,
             checkAnswer hands communityCards selectedCardCount handIndex Hi
             = Ok accepted
             /\ (accepted = true
                 <-> forall e, In e allEvaluations ->
                               notBetterHigh (bestHighHand e) (bestHighHand currentEval))
       end.
Proof.
  intros Some_.
  destruct (allEvaluationsOf_each communityCards selectedCardCount hands)
    as (allEvaluations & Evaluated & Each).
  exists allEvaluations. split; [exact Evaluated|].
  destruct (nth_error allEvaluations handIndex) as [currentEval|] eqn:Ecurrent.
  - exact (checkAnswer_high_iff _ _ _ _ Evaluated
             (evaluations_categories _ _ _ _ Some_ Each) handIndex currentEval Ecurrent).
  - split.
    + rewrite (Forall2_length Each). apply nth_error_None. exact Ecurrent.
    + exact (checkAnswer_high_missing _ _ _ _ Evaluated handIndex Ecurrent).
Qed.

Lemma checkAnswer_high_correct_witness :
  exists allEvaluations,
    allEvaluationsOf [hole27; [card Hearts RA; card Clubs RA]] board 2
    = Ok allEvaluations
    /\ match nth_error allEvaluations 0 with
       | None =>
           (length [hole27; [card Hearts RA; card Clubs RA]] <= 0)%nat
           /\ checkAnswer [hole27; [card Hearts RA; card Clubs RA]] board 2 0 Hi
              = Throw PropertyOfUndefined
       | Some currentEval =>
           exists accepted,
             checkAnswer [hole27; [card Hearts RA; card Clubs RA]] board 2 0 Hi
             = Ok accepted
             /\ (accepted = true
                 <-> forall e, In e allEvaluations ->
                               notBetterHigh (bestHighHand e) (bestHighHand currentEval))
       end.
Proof.
  apply (checkAnswer_high_correct [hole27; [card Hearts RA; card Clubs RA]] board 2 0).
  intros hand [<- | [<- | []]]; vm_compute; discriminate.
Defined.

(** X27 ([checkAnswer] with the answer ['hi'], part_001 226-284): when
    there is a hand and every hand has a five-card candidate, the answer 'hi'
    is accepted for at least one of the hands. *)
Theorem checkAnswer_high_winner (hands : list (list Card)) (communityCards : list Card)
        (selectedCardCount : Z) :
  hands <> [] ->
  (forall hand, In hand hands -> candidates hand communityCards selectedCardCount <> []) ->
  exists handIndex,
    (handIndex < length hands)%nat
    /\ checkAnswer hands communityCards selectedCardCount handIndex Hi = Ok true.
Proof.
  intros NonEmpty Some_.
  destruct (allEvaluationsOf_each communityCards selectedCardCount hands)
    as (allEvaluations & Evaluated & Each).
  pose proof (evaluations_categories _ _ _ _ Some_ Each) as Categories.
  destruct (unbeaten_exists allEvaluations Categories) as (best & Hbest & Least).
  { intros ->. inversion Each. congruence. }
  apply In_nth_error in Hbest. destruct Hbest as (handIndex & Ebest).
  exists handIndex. split.
  - rewrite (Forall2_length Each). apply nth_error_Some. congruence.
  - destruct (checkAnswer_high_iff _ _ _ _ Evaluated Categories handIndex best Ebest)
      as (accepted & Eaccepted & Iff).
    rewrite Eaccepted. f_equal. apply Iff. exact Least.
Qed.

Lemma checkAnswer_high_winner_witness :
  exists handIndex,
    (handIndex < length [hole27; [card Hearts RA; card Clubs RA]])%nat
    /\ checkAnswer [hole27; [card Hearts RA; card Clubs RA]] board 2 handIndex Hi
       = Ok true.
Proof.
  apply (checkAnswer_high_winner [hole27; [card Hearts RA; card Clubs RA]] board 2).
  - discriminate.
  - intros hand [<- | [<- | []]]; vm_compute; discriminate.
Defined.

(* ================================================================= *)
(** ** The community cards of the winning hand *)

Lemma someSameCard_spec (cards : list Card) (card0 : Card) :
  someSameCard cards card0 = true
  <-> exists c, In c cards /\ content c = content card0.
Proof.
  unfold someSameCard. rewrite existsb_exists. split.
  - intros (c & Hin & Test). exists c. split; [exact Hin|].
    destruct (content_eq_dec (content c) (content card0)) as [E | NE]; [exact E|].
    apply removeCard_test in NE. rewrite Test in NE. discriminate.
  - intros (c & Hin & E). exists c. split; [exact Hin|].
    destruct (Rank_eqb (rank c) (rank card0) && Suit_eqb (suit c) (suit card0)) eqn:Test;
      [reflexivity|].
    exfalso. apply (proj1 (removeCard_test card0 c)); [rewrite Test; reflexivity | exact E].
Qed.

Lemma filter_all {A : Type} (f : A -> bool) (xs : list A) :
  (forall x, In x xs -> f x = true) -> filter f xs = xs.
Proof.
  induction xs as [|x xs IH]; intros All; cbn [filter]; [reflexivity|].
  rewrite (All x (or_introl eq_refl)). f_equal. apply IH.
  intros y Hin. apply All. right. exact Hin.
Qed.

Lemma filter_none {A : Type} (f : A -> bool) (xs : list A) :
  (forall x, In x xs -> f x = false) -> filter f xs = [].
Proof.
  induction xs as [|x xs IH]; intros All; cbn [filter]; [reflexivity|].
  rewrite (All x (or_introl eq_refl)). apply IH.
  intros y Hin. apply All. right. exact Hin.
Qed.

Lemma Forall2_nth_error_r {A B : Type} (R : A -> B -> Prop) (xs : list A) (ys : list B) :
  Forall2 R xs ys ->
  forall i y, nth_error ys i = Some y -> exists x, nth_error xs i = Some x /\ R x y.
Proof.
  induction 1 as [|x y xs ys Rxy _ IH]; intros [|i] y0 Hi; try discriminate.
  - injection Hi as <-. exists x. split; [reflexivity | exact Rxy].
  - exact (IH i y0 Hi).
Qed.

Lemma betterEval_step (bestEval eval_ : HandEvaluation) :
  inCategory (bestHighRank bestEval) (bestHighHand bestEval) ->
  inCategory (bestHighRank eval_) (bestHighHand eval_) ->
  exists bestEval',
    betterEval bestEval eval_ = Ok bestEval'
    /\ (bestEval' = bestEval \/ bestEval' = eval_)
    /\ notBetterHigh (bestHighHand bestEval) (bestHighHand bestEval')
    /\ notBetterHigh (bestHighHand eval_) (bestHighHand bestEval').
Proof.
  intros Ib Ie. unfold betterEval.
  pose proof (notBetterHigh_refl _ (proj1 Ib)) as Rb.
  pose proof (notBetterHigh_refl _ (proj1 Ie)) as Re.
  destruct (Z.gtb_spec (handRankValue (bestHighRank eval_))
                       (handRankValue (bestHighRank bestEval))) as [Higher | NotHigher].
  - exists eval_. split; [reflexivity|]. split; [right; reflexivity|].
    split; [|exact Re]. apply (notBetterHigh_cases _ _ _ _ Ib Ie). left. lia.
  - destruct (Z.eqb_spec (handRankValue (bestHighRank eval_))
                         (handRankValue (bestHighRank bestEval))) as [Same | Lower].
    + apply handRankValue_inj in Same. rewrite <- Same in Ib.
      destruct (compareHighHands_swap _ _ _ Ie Ib) as (z & Ceb & Cbe).
      rewrite Ceb. cbn [bind].
      destruct (Z.ltb_spec z 0) as [Better | Worse].
      * exists eval_. split; [reflexivity|]. split; [right; reflexivity|].
        split; [|exact Re]. apply (notBetterHigh_cases _ _ _ _ Ib Ie). right.
        split; [reflexivity|]. exists (- z). split; [exact Cbe | lia].
      * exists bestEval. split; [reflexivity|]. split; [left; reflexivity|].
        split; [exact Rb|]. apply (notBetterHigh_cases _ _ _ _ Ie Ib). right.
        split; [reflexivity|]. exists z. split; [exact Ceb | exact Worse].
    + exists bestEval. split; [reflexivity|]. split; [left; reflexivity|].
      split; [exact Rb|]. apply (notBetterHigh_cases _ _ _ _ Ie Ib). left. lia.
Qed.

Lemma findBestEval_best (evaluations : list HandEvaluation) :
  forall bestEval,
    (forall e, In e evaluations -> inCategory (bestHighRank e) (bestHighHand e)) ->
    inCategory (bestHighRank bestEval) (bestHighHand bestEval) ->
    exists final,
      findBestEval evaluations bestEval = Ok final
      /\ (final = bestEval \/ In final evaluations)
      /\ notBetterHigh (bestHighHand bestEval) (bestHighHand final)
      /\ forall e, In e evaluations ->
                   notBetterHigh (bestHighHand e) (bestHighHand final).
Proof.
  induction evaluations as [|eval_ rest IH]; intros bestEval Categories Ib;
    cbn [findBestEval].
  - exists bestEval. split; [reflexivity|]. split; [left; reflexivity|].
    split; [exact (notBetterHigh_refl _ (proj1 Ib)) | intros e []].
  - pose proof (Categories eval_ (or_introl eq_refl)) as Ie.
    destruct (betterEval_step bestEval eval_ Ib Ie) as (best' & Estep & Which & Nb & Ne).
    rewrite Estep. cbn [bind].
    assert (Ib' : inCategory (bestHighRank best') (bestHighHand best'))
      by (destruct Which as [-> | ->]; assumption).
    destruct (IH best') as (final & Efinal & Origin & Start & Rest);
      [intros e Hin; apply Categories; right; exact Hin | exact Ib' |].
    assert (If : inCategory (bestHighRank final) (bestHighHand final)).
    { destruct Origin as [-> | Hin]; [exact Ib' | apply Categories; right; exact Hin]. }
    exists final. split; [exact Efinal|]. split; [|split].
    + destruct Origin as [-> | Hin]; [|right; right; exact Hin].
      destruct Which as [-> | ->]; [left; reflexivity | right; left; reflexivity].
    + exact (notBetterHigh_trans _ _ _ (proj1 Ib) (proj1 Ib') (proj1 If) Nb Start).
    + intros e [<- | Hin]; [|exact (Rest e Hin)].
      exact (notBetterHigh_trans _ _ _ (proj1 Ie) (proj1 Ib') (proj1 If) Ne Start).
Qed.

Lemma community_part (hand communityCards holePart boardPart : list Card) :
  (forall c c0, In c hand -> In c0 communityCards -> content c <> content c0) ->
  Subsequence holePart hand -> Subsequence boardPart communityCards ->
  filter (someSameCard communityCards) (holePart ++ boardPart) = boardPart.
Proof.
  intros Apart Sh Sb. rewrite filter_app, filter_none, filter_all; [reflexivity | |].
  - intros c Hin. apply someSameCard_spec. exists c.
    split; [exact (Subsequence_In _ _ Sb c Hin) | reflexivity].
  - intros c Hin. destruct (someSameCard communityCards c) eqn:Test; [|reflexivity].
    exfalso. apply someSameCard_spec in Test. destruct Test as (c0 & Hin0 & E).
    apply (Apart c c0 (Subsequence_In _ _ Sh c Hin) Hin0). symmetry. exact E.
Qed.

(** X28 ([getWinningCommunityCards], part_001 293-324, with [findBestHand],
    [compareHighHands] and [checkAnswer]): without a hand the call raises
    the TypeError of reading a property of [undefined].  With hands that each
    have a five-card candidate and share no suit-and-rank with the community
    cards the result is never [null]: it is the community part of the best
    hand of one of the hands, a selection of three community cards (or of
    four in the 2-card game) in their order on the board, no hand's best hand
    beats that best hand, and [checkAnswer] accepts 'hi' for that hand. *)
Theorem getWinningCommunityCards_of_winner (hands : list (list Card))
        (communityCards : list Card) (selectedCardCount : Z) :
  (forall hand, In hand hands ->
                candidates hand communityCards selectedCardCount <> []) ->
  (forall hand c c0, In hand hands -> In c hand -> In c0 communityCards ->
                     content c <> content c0) ->
  (hands = [] ->
   getWinningCommunityCards hands communityCards selectedCardCount
   = Throw PropertyOfUndefined)
  /\ (hands <> [] ->
      exists handIndex hand winnerEval holePart cards,
        nth_error hands handIndex = Some hand
        /\ findBestHand hand communityCards selectedCardCount = Ok winnerEval
        /\ bestHighHand winnerEval = holePart ++ cards
        /\ Subsequence holePart hand
        /\ Subsequence cards communityCards
        /\ (length cards = 3%nat \/ (selectedCardCount = 2 /\ length cards = 4%nat))
        /\ getWinningCommunityCards hands communityCards selectedCardCount
           = Ok (Some cards)
        /\ checkAnswer hands communityCards selectedCardCount handIndex Hi = Ok true).
Proof.
  intros Some_ Apart. split; [intros ->; reflexivity|]. intros NonEmpty.
  destruct (allEvaluationsOf_each communityCards selectedCardCount hands)
    as (allEvaluations & Evaluated & Each).
  pose proof (evaluations_categories _ _ _ _ Some_ Each) as Categories.
  unfold getWinningCommunityCards. rewrite Evaluated. cbn [bind].
  destruct allEvaluations as [|first rest] eqn:Eall;
    [inversion Each; congruence|]. rewrite <- Eall in *.
  assert (Hfirst : In first allEvaluations) by (rewrite Eall; left; reflexivity).
  destruct (findBestEval_best allEvaluations first Categories (Categories first Hfirst))
    as (final & Efinal & Origin & _ & Least).
  assert (Hfinal : In final allEvaluations)
    by (destruct Origin as [-> | Hin]; assumption).
  rewrite Efinal. cbn [bind]. cbv zeta.
  apply In_nth_error in Hfinal. destruct Hfinal as (handIndex & Enth).
  destruct (Forall2_nth_error_r _ _ _ Each handIndex final Enth) as (hand & Ehand & Found).
  pose proof (nth_error_In _ _ Ehand) as Hhand.
  destruct (findBestHand_invariants hand communityCards selectedCardCount)
    as (e' & Ee' & High & _).
  rewrite Found in Ee'. injection Ee' as <-.
  destruct High as [[Empty _] | (Hin & _ & _)]; [exact (False_ind _ (Some_ hand Hhand Empty))|].
  apply candidates_In_iff in Hin.
  destruct Hin as (holePart & boardPart & Esplit & Sh & Sb & Sizes).
  exists handIndex, hand, final, holePart, boardPart.
  split; [exact Ehand|]. split; [exact Found|]. split; [exact Esplit|].
  split; [exact Sh|]. split; [exact Sb|].
  split; [destruct Sizes as [[_ L] | (E & _ & L)]; auto|].
  split.
  - rewrite Esplit.
    rewrite (community_part hand communityCards holePart boardPart
               (fun c c0 => Apart hand c c0 Hhand) Sh Sb).
    destruct Sizes as [[_ L] | (E & _ & L)]; rewrite L.
    + destruct (selectedCardCount =? 2); reflexivity.
    + rewrite E. reflexivity.
  - destruct (checkAnswer_high_iff _ _ _ _ Evaluated Categories handIndex final Enth)
      as (accepted & Eaccepted & Iff).
    rewrite Eaccepted. f_equal. apply Iff. exact Least.
Qed.

Lemma getWinningCommunityCards_of_winner_witness :
  exists handIndex hand winnerEval holePart cards,
    nth_error [hole27; [card Hearts RA; card Clubs RA]] handIndex = Some hand
    /\ findBestHand hand board 2 = Ok winnerEval
    /\ bestHighHand winnerEval = holePart ++ cards
    /\ Subsequence holePart hand
    /\ Subsequence cards board
    /\ (length cards = 3%nat \/ (2 = 2 /\ length cards = 4%nat))
    /\ getWinningCommunityCards [hole27; [card Hearts RA; card Clubs RA]] board 2
       = Ok (Some cards)
    /\ checkAnswer [hole27; [card Hearts RA; card Clubs RA]] board 2 handIndex Hi
       = Ok true.
Proof.
  apply (getWinningCommunityCards_of_winner
           [hole27; [card Hearts RA; card Clubs RA]] board 2).
  - intros hand [<- | [<- | []]]; vm_compute; discriminate.
  - intros hand c c0 [<- | [<- | []]] Hc Hc0;
      repeat (destruct Hc as [<- | Hc]; [|]); try destruct Hc;
      repeat (destruct Hc0 as [<- | Hc0]; [|]); try destruct Hc0;
      vm_compute; discriminate.
  - discriminate.
Defined.

(* ================================================================= *)
(** ** The order of the cards in a hand *)

Lemma insert_ascending_sorted (x : Z) (sorted : list Z) :
  StronglySorted Z.le sorted -> StronglySorted Z.le (insert ascending x sorted).
Proof.
  induction 1 as [|y rest Srest IH Hy]; simpl.
  - repeat constructor.
  - unfold ascending at 1. destruct (Z.leb_spec (x - y) 0) as [Le | Gt].
    + constructor; [constructor; assumption|].
      constructor; [lia|]. rewrite Forall_forall in Hy |- *.
      intros z Hz. specialize (Hy z Hz). lia.
    + constructor; [exact IH|]. rewrite Forall_forall in Hy |- *.
      intros z Hz. apply (Permutation_in _ (insert_Permutation ascending x rest)) in Hz.
      destruct Hz as [<- | Hz]; [lia | exact (Hy z Hz)].
Qed.

Lemma sort_ascending_sorted (xs : list Z) : StronglySorted Z.le (sort ascending xs).
Proof.
  induction xs as [|x xs IH]; simpl; [constructor|].
  apply insert_ascending_sorted. exact IH.
Qed.

Lemma sorted_Permutation_eq (R : Z -> Z -> Prop) :
  (forall a b, R a b -> R b a -> a = b) ->
  forall l1 l2,
    StronglySorted R l1 -> StronglySorted R l2 -> Permutation l1 l2 -> l1 = l2.
Proof.
  intros Antisym. induction l1 as [|a l1 IH]; intros l2 S1 S2 P.
  - apply Permutation_nil in P. congruence.
  - destruct l2 as [|b l2]; [apply Permutation_sym, Permutation_nil in P; discriminate|].
    apply StronglySorted_inv in S1, S2. destruct S1 as [S1 H1], S2 as [S2 H2].
    rewrite Forall_forall in H1, H2.
    assert (E : a = b).
    { assert (Ha : In a (b :: l2)) by (apply (Permutation_in _ P); left; reflexivity).
      assert (Hb : In b (a :: l1))
        by (apply (Permutation_in _ (Permutation_sym P)); left; reflexivity).
      destruct Ha as [-> | Ha]; [reflexivity|].
      destruct Hb as [-> | Hb]; [reflexivity|].
      apply Antisym; [exact (H1 b Hb) | exact (H2 a Ha)]. }
    subst b. f_equal. apply IH; [exact S1 | exact S2|].
    exact (Permutation_cons_inv P).
Qed.

Lemma sort_ascending_Permutation (xs ys : list Z) :
  Permutation xs ys -> sort ascending xs = sort ascending ys.
Proof.
  intros P. apply (sorted_Permutation_eq Z.le); [intros a b; lia | | |].
  - apply sort_ascending_sorted.
  - apply sort_ascending_sorted.
  - rewrite !sort_Permutation. exact P.
Qed.

Lemma sort_descending_Permutation (xs ys : list Z) :
  Permutation xs ys -> sort descending xs = sort descending ys.
Proof.
  intros P. apply (sorted_Permutation_eq Z.ge); [intros a b; lia | | |].
  - apply sort_descending_sorted.
  - apply sort_descending_sorted.
  - rewrite !sort_Permutation. exact P.
Qed.

Section SetContent.
Context {A : Type}.
Variable eqb : A -> A -> bool.
Hypothesis eqb_eq : forall x y, eqb x y = true <-> x = y.

Lemma add_all_content (xs : list A) :
  forall seen,
    NoDup seen ->
    NoDup (fold_left (addOnce eqb) xs seen)
    /\ forall x, In x (fold_left (addOnce eqb) xs seen) <-> In x seen \/ In x xs.
Proof.
  induction xs as [|x0 xs IH]; intros seen ND; cbn [fold_left].
  - split; [exact ND|]. intros x. cbn [In]. tauto.
  - assert (Step : NoDup (addOnce eqb seen x0)
                   /\ forall x, In x (addOnce eqb seen x0) <-> In x seen \/ x0 = x).
    { unfold addOnce. destruct (existsb (eqb x0) seen) eqn:E.
      - apply (existsb_eqb_In eqb eqb_eq) in E. split; [exact ND|].
        intros x. split; [auto | intros [H | <-]; assumption].
      - assert (Hx : ~ In x0 seen)
          by (intros H; apply (existsb_eqb_In eqb eqb_eq) in H; congruence).
        split.
        + apply NoDup_app; [exact ND | repeat constructor; intros [] |].
          intros x H [<- | []]. exact (Hx H).
        + intros x. rewrite in_app_iff. cbn [In]. tauto. }
    destruct Step as [ND' Mem']. destruct (IH _ ND') as [NDr Memr].
    split; [exact NDr|]. intros x. rewrite Memr, Mem'. cbn [In]. tauto.
Qed.

Lemma Set_of_content (xs : list A) :
  NoDup (Set_of eqb xs) /\ forall x, In x (Set_of eqb xs) <-> In x xs.
Proof.
  destruct (add_all_content xs [] (NoDup_nil A)) as [ND Mem].
  split; [exact ND|]. intros x. unfold Set_of. fold (addOnce eqb).
  rewrite (Mem x). cbn [In]. tauto.
Qed.

Lemma Set_of_Permutation (xs ys : list A) :
  Permutation xs ys -> Permutation (Set_of eqb xs) (Set_of eqb ys).
Proof.
  intros P. destruct (Set_of_content xs) as [NDx Mx], (Set_of_content ys) as [NDy My].
  apply NoDup_Permutation; [exact NDx | exact NDy|].
  intros x. rewrite Mx, My. split; apply Permutation_in; [exact P | symmetry; exact P].
Qed.

Lemma existsb_same (p : A -> bool) (xs ys : list A) :
  (forall x, In x xs <-> In x ys) -> existsb p xs = existsb p ys.
Proof.
  intros Same. apply eq_true_iff_eq. rewrite !existsb_exists.
  split; intros (x & Hin & Px); exists x; (split; [apply Same; exact Hin | exact Px]).
Qed.

End SetContent.

Lemma countRanks_Permutation (ranks ranks' : list Rank) :
  Permutation ranks ranks' -> Permutation (countRanks ranks) (countRanks ranks').
Proof.
  intros P.
  assert (ND : forall rs, NoDup (countRanks rs)).
  { intros rs. apply (NoDup_map_inv fst). apply ordered_NoDup, countRanks_ordered. }
  apply NoDup_Permutation; [apply ND | apply ND|].
  intros [r v]. rewrite !countRanks_entry.
  rewrite (proj1 (Permutation_count_occ Rank_eq_dec ranks ranks') P r).
  split; intros [Hin E]; (split; [|exact E]).
  - exact (Permutation_in _ P Hin).
  - exact (Permutation_in _ (Permutation_sym P) Hin).
Qed.

Lemma checkStraight_Permutation (ranks ranks' : list Rank) :
  Permutation ranks ranks' -> checkStraight ranks = checkStraight ranks'.
Proof.
  intros P. unfold checkStraight.
  rewrite (sort_ascending_Permutation (map rankToValue ranks) (map rankToValue ranks'));
    [reflexivity|].
  apply Permutation_map. exact P.
Qed.

Lemma forallb_same {A : Type} (p q : A -> bool) (xs : list A) :
  (forall x, p x = q x) -> forallb p xs = forallb q xs.
Proof.
  intros Same. induction xs as [|x xs IH]; cbn [forallb]; [reflexivity|].
  rewrite Same, IH. reflexivity.
Qed.

Lemma isRoyalFlush_Permutation (ranks ranks' : list Rank) :
  Permutation ranks ranks' -> isRoyalFlush ranks = isRoyalFlush ranks'.
Proof.
  intros P. unfold isRoyalFlush. cbv zeta.
  pose proof (Set_of_Permutation Rank_eqb Rank_eqb_eq ranks ranks' P) as PS.
  rewrite (Permutation_length PS).
  destruct (negb _); [reflexivity|].
  apply forallb_same. intros r. apply existsb_same.
  intros x. split; apply Permutation_in; [exact PS | symmetry; exact PS].
Qed.

Lemma filter_Permutation {A : Type} (p : A -> bool) (xs ys : list A) :
  Permutation xs ys -> Permutation (filter p xs) (filter p ys).
Proof.
  induction 1 as [|x xs ys _ IH|x y xs|xs ys zs _ IH1 _ IH2]; cbn [filter].
  - constructor.
  - destruct (p x); [constructor|]; exact IH.
  - destruct (p x), (p y); try reflexivity. constructor.
  - exact (Permutation_trans IH1 IH2).
Qed.

Lemma lowValues_Permutation (hand hand' : list Card) :
  Permutation hand hand' -> lowValues hand = lowValues hand'.
Proof.
  intros P. unfold lowValues. apply sort_descending_Permutation, Permutation_map. exact P.
Qed.

(** X29 ([evaluateHand], part_000 176-239, with [checkStraight] 127-162
    and [isRoyalFlush] 165-173; [isQualifyingLow] 89-100; [compareLowHands]
    104-119): the order of the cards in a hand does not matter to the
    classifier and to the low-hand functions.  A rearranged hand, of any
    number of cards, gets the same category and the same low qualification,
    and compares as the original does against every hand in the low
    comparison. *)
Theorem evaluateHand_ignores_order (hand hand' : list Card) :
  Permutation hand hand' ->
  evaluateHand hand' = evaluateHand hand
  /\ isQualifyingLow hand' = isQualifyingLow hand
  /\ forall other,
       compareLowHands hand' other = compareLowHands hand other
       /\ compareLowHands other hand' = compareLowHands other hand.
Proof.
  intros P.
  assert (Pr : Permutation (map rank hand) (map rank hand')) by (apply Permutation_map, P).
  assert (Ps : Permutation (map suit hand) (map suit hand')) by (apply Permutation_map, P).
  split; [|split].
  - unfold evaluateHand. cbv zeta.
    rewrite <- (checkStraight_Permutation _ _ Pr), <- (isRoyalFlush_Permutation _ _ Pr).
    rewrite <- (Permutation_length (Set_of_Permutation Suit_eqb Suit_eqb_eq _ _ Ps)).
    rewrite <- (sort_descending_Permutation
                  (map snd (countRanks (map rank hand)))
                  (map snd (countRanks (map rank hand'))));
      [reflexivity|].
    apply Permutation_map, countRanks_Permutation. exact Pr.
  - unfold isQualifyingLow. cbv zeta.
    rewrite <- (Permutation_length
                  (filter_Permutation (fun card => rankToLowValue (rank card) <=? 8) _ _ P)).
    rewrite <- (Permutation_length (Set_of_Permutation Rank_eqb Rank_eqb_eq _ _ Pr)).
    reflexivity.
  - intros other. unfold compareLowHands. cbv zeta.
    fold (lowValues hand) (lowValues hand') (lowValues other).
    rewrite (lowValues_Permutation hand hand' P). split; reflexivity.
Qed.

Lemma evaluateHand_ignores_order_witness :
  evaluateHand (rev mixedWheel) = evaluateHand mixedWheel
  /\ isQualifyingLow (rev mixedWheel) = isQualifyingLow mixedWheel
  /\ forall other,
       compareLowHands (rev mixedWheel) other = compareLowHands mixedWheel other
       /\ compareLowHands other (rev mixedWheel) = compareLowHands other mixedWheel.
Proof.
  apply (evaluateHand_ignores_order mixedWheel (rev mixedWheel)).
  apply Permutation_rev.
Defined.

(* ================================================================= *)
(** ** The images of the cards *)

Lemma In_by_eqb (key : string) (keys : list string) :
  existsb (String.eqb key) keys = true -> In key keys.
Proof.
  intros H. apply existsb_exists in H. destruct H as (k & Hin & E).
  apply String.eqb_eq in E. subst k. exact Hin.
Qed.

Lemma getCardImageKey_inj (a b : Card) :
  getCardImageKey a = getCardImageKey b -> content a = content b.
Proof.
  destruct a as [ida sa ra], b as [idb sb rb]. unfold getCardImageKey, content.
  cbn [suit rank]. intros H.
  assert (Es : sa = sb) by (destruct sa, sb; try reflexivity; cbn in H; discriminate H).
  subst sb. f_equal.
  destruct sa; destruct ra, rb; try reflexivity; cbv in H; discriminate H.
Qed.

(** X30 ([getCardImageName], Card.ts 22-24; [getCardImageKey] and the
    table [cardImages] of the card view): the card view computes the same
    name as the card model; every card, whatever its suit and rank, has an
    entry in the image table, so the fallback drawing is never needed; cards
    that differ in suit or rank have different entries; and the table holds
    nothing else, each of its 52 keys once. *)
Theorem cardImages_cover :
  (forall card0, getCardImageKey card0 = getCardImageName card0)
  /\ (forall card0, In (getCardImageKey card0) cardImages)
  /\ (forall a b, getCardImageKey a = getCardImageKey b -> content a = content b)
  /\ (forall key, In key cardImages -> exists card0, getCardImageKey card0 = key)
  /\ NoDup cardImages /\ length cardImages = 52%nat.
Proof.
  split; [reflexivity|]. split; [|split; [exact getCardImageKey_inj|split; [|split]]].
  - intros [id s r]. apply In_by_eqb. destruct s, r; vm_compute; reflexivity.
  - intros key Hin.
    assert (All : forallb (fun k => existsb (fun c => String.eqb (getCardImageKey c) k)
                                            (Deck.allCards (fun _ _ => EmptyString)))
                          cardImages = true) by (vm_compute; reflexivity).
    rewrite forallb_forall in All. specialize (All key Hin).
    apply existsb_exists in All. destruct All as (c & _ & E).
    apply String.eqb_eq in E. exists c. exact E.
  - assert (Same : nodup string_dec cardImages = cardImages) by (vm_compute; reflexivity).
    rewrite <- Same. apply NoDup_nodup.
  - reflexivity.
Qed.

(* ================================================================= *)
(** ** The classifier against the specification

    Each test of the engine is compared with the specification's own: the
    value table, the equality of suits and of ranks, the sorts, the test of
    consecutiveness and the comparison of shapes. *)

Lemma highValue_rankToValue (r : Rank) : rankToValue r = Spec.highValue r.
Proof. destruct r; reflexivity. Qed.

Lemma sameSuit_Suit_eqb (a b : Suit) : Suit_eqb a b = Spec.sameSuit a b.
Proof. destruct a, b; reflexivity. Qed.

Lemma sameRank_values (a b : Rank) :
  (rankToValue a =? rankToValue b) = Spec.sameRank a b.
Proof. destruct a, b; reflexivity. Qed.

Lemma stepsOfOne_consecutive (values : list Z) :
  consecutive values = Spec.stepsOfOne values.
Proof.
  induction values as [|a rest IH]; [reflexivity|].
  destruct rest as [|b rest']; [reflexivity|].
  change (consecutive (a :: b :: rest'))
    with (if negb (b - a =? 1) then false else consecutive (b :: rest')).
  change (Spec.stepsOfOne (a :: b :: rest'))
    with ((b =? a + 1) && Spec.stepsOfOne (b :: rest')).
  rewrite IH.
  destruct (Z.eqb_spec (b - a) 1), (Z.eqb_spec b (a + 1)); try lia; reflexivity.
Qed.

Lemma insertBy_ascending (x : Z) (sorted : list Z) :
  insert ascending x sorted = Spec.insertBy Z.leb x sorted.
Proof.
  induction sorted as [|y rest IH]; cbn [insert Spec.insertBy]; [reflexivity|].
  rewrite IH. unfold ascending.
  destruct (Z.leb_spec (x - y) 0), (Z.leb_spec x y); try lia; reflexivity.
Qed.

Lemma insertBy_descending (x : Z) (sorted : list Z) :
  insert descending x sorted = Spec.insertBy Z.geb x sorted.
Proof.
  induction sorted as [|y rest IH]; cbn [insert Spec.insertBy]; [reflexivity|].
  rewrite IH, Z.geb_leb. unfold descending.
  destruct (Z.leb_spec (y - x) 0), (Z.leb_spec y x); try lia; reflexivity.
Qed.

Lemma sortAscending_sort (values : list Z) :
  sort ascending values = Spec.sortAscending values.
Proof.
  unfold sort, Spec.sortAscending.
  induction values as [|v values IH]; cbn [fold_right]; [reflexivity|].
  rewrite IH. apply insertBy_ascending.
Qed.

Lemma sortDescending_sort (values : list Z) :
  sort descending values = Spec.sortDescending values.
Proof.
  unfold sort, Spec.sortDescending.
  induction values as [|v values IH]; cbn [fold_right]; [reflexivity|].
  rewrite IH. apply insertBy_descending.
Qed.

(** The specification's sorts sort. *)
Lemma Spec_sorts (values : list Z) :
  (StronglySorted Z.le (Spec.sortAscending values)
   /\ Permutation (Spec.sortAscending values) values)
  /\ (StronglySorted Z.ge (Spec.sortDescending values)
      /\ Permutation (Spec.sortDescending values) values).
Proof.
  rewrite <- sortAscending_sort, <- sortDescending_sort. split; split.
  - apply sort_ascending_sorted.
  - apply sort_Permutation.
  - apply sort_descending_sorted.
  - apply sort_Permutation.
Qed.

Lemma isFlush_agrees (hand : list Card) : Parts.isFlush hand = Spec.isFlush hand.
Proof.
  destruct hand as [|first rest]; [reflexivity|]. cbn [Parts.isFlush Spec.isFlush].
  apply forallb_same. intros card. apply sameSuit_Suit_eqb.
Qed.

Lemma isStraight_agrees (hand : list Card) : Parts.isStraight hand = Spec.isStraight hand.
Proof.
  unfold Parts.isStraight, Spec.isStraight. cbv zeta.
  rewrite (map_ext (fun card => rankToValue (rank card))
                   (fun card => Spec.highValue (rank card)))
    by (intros card; apply highValue_rankToValue).
  rewrite !sortAscending_sort, !stepsOfOne_consecutive. reflexivity.
Qed.

Lemma countShape_agrees (hand : list Card) : Parts.countShape hand = Spec.countShape hand.
Proof. unfold Parts.countShape, Spec.countShape. apply sortDescending_sort. Qed.

Lemma existsb_values (r : Rank) (ranks : list Rank) :
  existsb (Z.eqb (rankToValue r)) (map rankToValue ranks)
  = existsb (Spec.sameRank r) ranks.
Proof.
  induction ranks as [|q ranks IH]; cbn [map existsb]; [reflexivity|].
  rewrite IH, sameRank_values. reflexivity.
Qed.

Lemma sameRanks_values (xs ys : list Rank) :
  Spec.sameSet (map rankToValue xs) (map rankToValue ys) = Spec.sameRanks xs ys.
Proof.
  assert (Half : forall us vs,
             forallb (fun x => existsb (Z.eqb x) (map rankToValue vs))
                     (map rankToValue us)
             = forallb (fun x => existsb (Spec.sameRank x) vs) us).
  { intros us vs. induction us as [|u us IH]; cbn [map forallb]; [reflexivity|].
    rewrite IH, existsb_values. reflexivity. }
  unfold Spec.sameSet, Spec.sameRanks. rewrite !Half. reflexivity.
Qed.

Lemma isRoyal_agrees (hand : list Card) : Parts.isRoyal hand = Spec.isRoyal hand.
Proof.
  unfold Parts.isRoyal, Spec.isRoyal.
  rewrite <- (map_map rank rankToValue).
  exact (sameRanks_values (map rank hand) [RA; RK; RQ; RJ; R10]).
Qed.

Lemma list_eqb_refl (xs : list Z) : list_eqb xs xs = true.
Proof.
  induction xs as [|x xs IH]; cbn [list_eqb]; [reflexivity|].
  rewrite Z.eqb_refl, IH. reflexivity.
Qed.

Lemma hasShape_list_eqb (shape expected : list Z) :
  list_eqb shape expected = Spec.hasShape shape expected.
Proof.
  unfold Spec.hasShape. destruct (list_eq_dec Z.eq_dec shape expected) as [-> | NE].
  - apply list_eqb_refl.
  - destruct (list_eqb shape expected) eqn:E; [|reflexivity].
    apply list_eqb_eq in E. contradiction.
Qed.

Lemma precedence_agrees (isFlush isStraight isRoyal : bool) (shape : list Z) :
  Parts.precedence isFlush isStraight isRoyal shape
  = Spec.precedence isFlush isStraight isRoyal shape.
Proof.
  unfold Parts.precedence, Spec.precedence. rewrite !hasShape_list_eqb. reflexivity.
Qed.

Lemma classify_agrees (hand : list Card) : Parts.classify hand = Spec.classify hand.
Proof.
  unfold Parts.classify, Spec.classify.
  rewrite isFlush_agrees, isStraight_agrees, isRoyal_agrees, countShape_agrees.
  apply precedence_agrees.
Qed.

(** C3. For every well-formed 5-card hand, [evaluateHand] returns the
    category that the specification's first-match precedence chooses from
    isFlush (all suits identical), isStraight (sorted high values that rise
    in steps of 1, or the wheel set {14,2,3,4,5} with the Ace remapped to 1)
    and the descending count-shape of the ranks.  [Spec.classify] is the
    specification's own function: it has its own table of high values, its
    own sorts and its own tests. *)
Theorem evaluateHand_is_classify (hand : list Card) :
  wellFormed hand -> evaluateHand hand = Spec.classify hand.
Proof.
  intros [L _]. rewrite (evaluateHand_refines hand L). apply classify_agrees.
Qed.

Lemma evaluateHand_is_classify_witness :
  (evaluateHand royalFlush = Spec.classify royalFlush
   /\ Spec.classify royalFlush = RoyalFlush)
  /\ (evaluateHand pairOfAces = Spec.classify pairOfAces
      /\ Spec.classify pairOfAces = OnePair)
  /\ (evaluateHand mixedWheel = Spec.classify mixedWheel
      /\ Spec.classify mixedWheel = Straight).
Proof.
  split; [|split]; (split; [|reflexivity]).
  - apply (evaluateHand_is_classify royalFlush). wellFormed_hand.
  - apply (evaluateHand_is_classify pairOfAces). wellFormed_hand.
  - apply (evaluateHand_is_classify mixedWheel). wellFormed_hand.
Defined.
